(** * Verification of the pandas / ClickHouse benchmark harness

    A shallow embedding of [benchmark.py] (the two timed paths and [main]),
    of [download_data.py] (the CSV export) and of [moving_avg.py] (the daily
    trips and their moving average), with the library calls they make
    modelled next to them.

    Numbers.  Python floats, pandas float64 cells and ClickHouse Float
    values are idealised as exact rationals ([Qc]); NaN is [None].  Rounding
    is therefore outside the model: a statement proved here about two
    computations says that they agree as real-number computations. *)

From Stdlib Require Import QArith Qcanon Qround.
From stdpp Require Import base numbers list sorting strings gmap.

Close Scope Q_scope.
Close Scope Qc_scope.

(** Rational literals. *)
Definition qz (z : Z) : Qc := Qc_of_Z z.
Definition qn (n : nat) : Qc := Qc_of_Z (Z.of_nat n).
Definition qfrac (a : Z) (b : positive) : Qc := Q2Qc (a # b).

(** ** Python: exceptions, builtins, the [statistics] module *)

(** The exceptions that can leave the functions of the repository.  External
    failures (a missing file, an unreachable server, a failed write) are
    [Raised] with the name of their class. *)
Inductive exn : Type :=
| StatisticsError
| ValueError
| KeyError (key : string)
| IndexError
| ZeroDivisionError
| Raised (cls : string).

#[global] Instance exn_eq_dec : EqDecision exn.
Proof. solve_decision. Defined.

Inductive result (A : Type) : Type :=
| Ok (a : A)
| Err (e : exn).
Arguments Ok {A} a.
Arguments Err {A} e.

#[global] Instance result_eq_dec {A} `{EqDecision A} : EqDecision (result A).
Proof. solve_decision. Defined.

Definition bind {A B} (r : result A) (k : A → result B) : result B :=
  match r with
  | Ok a => k a
  | Err e => Err e
  end.

Definition is_ok {A} (r : result A) : bool :=
  match r with Ok _ => true | Err _ => false end.

Module Py.

(** [l[i]] for a non-negative index: [IndexError] out of range. *)
Definition getitem {A} (l : list A) (i : nat) : result A :=
  match l !! i with
  | Some x => Ok x
  | None => Err IndexError
  end.

(** [sum(l)]. *)
Definition sum (l : list Qc) : Qc := foldl Qcplus 0%Qc l.

(** [sorted(l)]: a stable sort. *)
Definition sorted (l : list Qc) : list Qc := merge_sort Qcle l.

(** [min(l)] scans from the left and keeps the first smallest element;
    [ValueError] on an empty sequence. *)
Definition min (l : list Qc) : result Qc :=
  match l with
  | [] => Err ValueError
  | x :: l => Ok (foldl (λ m y, if decide (y < m)%Qc then y else m) x l)
  end.

(** [max(l)], likewise with the first largest element. *)
Definition max (l : list Qc) : result Qc :=
  match l with
  | [] => Err ValueError
  | x :: l => Ok (foldl (λ m y, if decide (m < y)%Qc then y else m) x l)
  end.

(** [a / b] on floats. *)
Definition truediv (a b : Qc) : result Qc :=
  if decide (b = 0%Qc) then Err ZeroDivisionError else Ok (a / b)%Qc.

End Py.

Module statistics.

(** [statistics.mean(data)]: raises [StatisticsError] when there is no data
    point, else the sum over the number of points. *)
Definition mean (data : list Qc) : result Qc :=
  let n := length data in
  if (n <? 1)%nat then Err StatisticsError
  else Ok (Py.sum data / qn n)%Qc.

(** [statistics.median(data)]:
<<
    data = sorted(data); n = len(data)
    if n == 0: raise StatisticsError
    if n % 2 == 1: return data[n // 2]
    i = n // 2;  return (data[i - 1] + data[i]) / 2
>> *)
Definition median (data : list Qc) : result Qc :=
  let data := Py.sorted data in
  let n := length data in
  if (n =? 0)%nat then Err StatisticsError
  else if (n mod 2 =? 1)%nat then Py.getitem data (n / 2)
  else
    let i := (n / 2)%nat in
    bind (Py.getitem data (i - 1)) (λ a,
    bind (Py.getitem data i) (λ b,
    Ok ((a + b) / qz 2)%Qc)).

End statistics.

(** ** pandas: the calls made by [benchmark.py] *)

Module pd.

(** A float64 cell; [None] is NaN (a blank field of a CSV file). *)
Abbreviation cell := (option Qc).

(** A DataFrame is its ordered, named columns.  The content of a delimited
    file is the table it parses to, so a file on disk is a [DataFrame] too
    (tokenizing the text is pandas' business, not the harness's). *)
Abbreviation DataFrame := (list (string * list cell)).

Definition column_names (df : DataFrame) : list string := df.*1.

(** [df[name]]: the first column of that name, [KeyError] if there is none. *)
Definition getcol (name : string) (df : DataFrame) : result (list cell) :=
  match list_find (λ c, c.1 = name) df with
  | Some (_, c) => Ok c.2
  | None => Err (KeyError name)
  end.

(** Column selection of [read_csv(..., usecols=names)]: the named columns
    in file order; [ValueError] when a name is not in the header. *)
Definition select_usecols (names : list string) (df : DataFrame) : result DataFrame :=
  if decide (Forall (λ n, n ∈ column_names df) names)
  then Ok (filter (λ c, c.1 ∈ names) df)
  else Err ValueError.

(** *** groupby *)

(** The distinct group keys.  [groupby] has [dropna=True]: a row whose key
    is NaN belongs to no group. *)
Definition uniques (ks : list cell) : list Qc := remove_dups (omap id ks).

(** [sort=True]: the groups come in ascending key order. *)
Definition group_index (ks : list cell) : list Qc := merge_sort Qcle (uniques ks).

(** The values of group [k], in row order; NaN values are skipped by every
    aggregation. *)
Definition group_values (k : Qc) (ks vs : list cell) : list Qc :=
  omap (λ kv : cell * cell, if decide (kv.1 = Some k) then kv.2 else None) (zip ks vs).

(** Number of rows of group [k] (NaN values included). *)
Definition group_size (k : Qc) (ks : list cell) : nat :=
  length (filter (λ c, c = Some k) ks).

(** ['mean']: sum over count of the non-NaN values, NaN for none. *)
Definition group_mean (xs : list Qc) : cell :=
  match xs with
  | [] => None
  | _ => Some (Py.sum xs / qn (length xs))%Qc
  end.

(** ['median']: middle of the sorted non-NaN values, the mean of the two
    middle ones for an even count, NaN for none. *)
Definition group_median (xs : list Qc) : cell :=
  let s := merge_sort Qcle xs in
  let n := length s in
  if (n mod 2 =? 1)%nat then s !! (n / 2)%nat
  else
    a ← s !! (n / 2 - 1)%nat;
    b ← s !! (n / 2)%nat;
    Some ((a + b) / qz 2)%Qc.

(** ['var'] (ddof = 1), as the grouped variance kernel computes it: one pass
    that keeps the number of observations, their running mean and the sum
    of squared deviations,
<<
    nobs += 1; oldmean = mean
    mean += (val - oldmean) / nobs
    out  += (val - mean) * (val - oldmean)
>>
    and at the end NaN if [nobs <= ddof], else [out / (nobs - ddof)]. *)
Record var_state : Type := VarState { nobs : nat; vmean : Qc; vout : Qc }.

Definition var_step (st : var_state) (val : Qc) : var_state :=
  let n := S (nobs st) in
  let oldmean := vmean st in
  let mean := (oldmean + (val - oldmean) / qn n)%Qc in
  VarState n mean (vout st + (val - mean) * (val - oldmean))%Qc.

Definition group_var (ddof : nat) (xs : list Qc) : cell :=
  let st := foldl var_step (VarState 0 0%Qc 0%Qc) xs in
  if (nobs st <=? ddof)%nat then None
  else Some (vout st / qn (nobs st - ddof))%Qc.

(** The result of [.agg([...])]: the index (the group keys, named after the
    key column) and one column per aggregation. *)
Record Grouped : Type := MkGrouped {
  index_name : string;
  index : list Qc;
  gcolumns : list (string * list cell)
}.

(** [df.groupby(key)[value].agg(['mean', 'median', 'var'])]. *)
Definition groupby_agg (key value : string) (df : DataFrame) : result Grouped :=
  bind (getcol key df) (λ ks,
  bind (getcol value df) (λ vs,
  let idx := group_index ks in
  let per (f : list Qc → cell) := (λ k, f (group_values k ks vs)) <$> idx in
  Ok (MkGrouped key idx
        [("mean"%string, per group_mean);
         ("median"%string, per group_median);
         ("var"%string, per (group_var 1))]))).

(** [g.columns = names]: [ValueError] on a length mismatch. *)
Definition set_columns (names : list string) (g : Grouped) : result Grouped :=
  if decide (length names = length (gcolumns g))
  then Ok (MkGrouped (index_name g) (index g) (zip names (gcolumns g).*2))
  else Err ValueError.

(** [g.reset_index()]: the index becomes the first column. *)
Definition reset_index (g : Grouped) : DataFrame :=
  (index_name g, Some <$> index g) :: gcolumns g.

(** [pd.DataFrame(rows, columns=[c1, c2, c3, c4])] for 4-tuples. *)
Definition of_rows4 (rows : list (cell * cell * cell * cell))
    (c1 c2 c3 c4 : string) : DataFrame :=
  [(c1, (λ r, r.1.1.1) <$> rows); (c2, (λ r, r.1.1.2) <$> rows);
   (c3, (λ r, r.1.2) <$> rows); (c4, (λ r, r.2) <$> rows)].

(** The header line that [to_csv] writes. *)
Definition header_line (df : DataFrame) : string :=
  String.concat "," (column_names df).

End pd.

(** ** ClickHouse: the aggregation query of [benchmark_clickhouse_approach]

<<
    SELECT passenger_count,
           avg(fare_amount) as mean_fare,
           quantile(0.5)(fare_amount) as median_fare,
           varSamp(fare_amount) as variance_fare
    FROM {database}.{table}
    GROUP BY passenger_count
    ORDER BY passenger_count
>>
    evaluated as the engine documents its aggregate functions: one state
    per group and function, fed row by row. *)

Module clickhouse.

(** A table of plain (non-Nullable) numeric columns. *)
Abbreviation Table := (list (string * list Qc)).

Definition tcol (name : string) (t : Table) : option (list Qc) :=
  (λ ic : nat * (string * list Qc), ic.2.2) <$> list_find (λ c, c.1 = name) t.

(** [quantile] keeps a reservoir of at most this many values. *)
Definition reservoir_size : nat := Z.to_nat 8192.

Record agg_state : Type := AggState {
  avg_sum : Qc; avg_count : nat;          (* avg *)
  q_samples : list Qc; q_total : nat;     (* quantile: the reservoir *)
  v_m0 : nat; v_m1 : Qc; v_m2 : Qc        (* varSamp: power sums *)
}.

Definition agg_empty : agg_state := AggState 0%Qc 0 [] 0 0 0%Qc 0%Qc.

(** Reservoir sampling: the first [reservoir_size] values are all kept;
    for a later one a random slot below the number of values seen so far
    is drawn, and the value replaces that slot if it is in the reservoir.
    [rnd total] is the generator's draw when [total] values have been seen. *)
Definition reservoir_insert (rnd : nat → nat) (samples : list Qc) (total : nat)
    (x : Qc) : list Qc * nat :=
  let total := S total in
  if (length samples <? reservoir_size)%nat then (samples ++ [x], total)
  else
    let r := (rnd total mod total)%nat in
    (if (r <? reservoir_size)%nat then <[r := x]> samples else samples, total).

Definition agg_add (rnd : nat → nat) (st : agg_state) (x : Qc) : agg_state :=
  let '(samples, total) := reservoir_insert rnd (q_samples st) (q_total st) x in
  AggState (avg_sum st + x)%Qc (S (avg_count st))
           samples total
           (S (v_m0 st)) (v_m1 st + x)%Qc (v_m2 st + x * x)%Qc.

(** [avg]: sum over count (NaN for no row, which no group has). *)
Definition avg (st : agg_state) : pd.cell :=
  if (avg_count st =? 0)%nat then None
  else Some (avg_sum st / qn (avg_count st))%Qc.

(** [quantile(level)]: the sorted reservoir read at the fractional index
    [level * (size - 1)], interpolating linearly between its neighbours.
    At level 0.5 the index is [(size - 1) / 2]: the middle sample for an odd
    size, halfway between the two middle ones for an even size. *)
Definition quantile_half (st : agg_state) : pd.cell :=
  let s := merge_sort Qcle (q_samples st) in
  let n := length s in
  if (n =? 0)%nat then None
  else
    let left := ((n - 1) / 2)%nat in
    if ((n - 1) mod 2 =? 0)%nat then s !! left
    else
      a ← s !! left;
      b ← s !! S left;
      Some (a * qfrac 1 2 + b * qfrac 1 2)%Qc.

(** [varSamp]: [(m2 - m1 * m1 / m0) / (m0 - 1)] from the power sums, NaN
    when the group has at most one row. *)
Definition varSamp (st : agg_state) : pd.cell :=
  if (v_m0 st <=? 1)%nat then None
  else Some ((v_m2 st - v_m1 st * v_m1 st / qn (v_m0 st)) / qn (v_m0 st - 1))%Qc.

(** GROUP BY: the aggregation states keyed by group key. *)
Definition group_by (rng : Qc → nat → nat) (rows : list (Qc * Qc)) : gmap Qc agg_state :=
  foldl (λ m kv,
           let st := default agg_empty (m !! kv.1) in
           <[kv.1 := agg_add (rng kv.1) st kv.2]> m)
        ∅ rows.

(** ORDER BY the key, ascending, and the SELECT list. *)
Definition result_rows (m : gmap Qc agg_state) : list (pd.cell * pd.cell * pd.cell * pd.cell) :=
  omap (λ k, st ← m !! k; Some (Some k, avg st, quantile_half st, varSamp st))
       (merge_sort Qcle (map_to_list m).*1).

(** The whole query on a table; a missing column is a server error. *)
Definition aggregate (rng : Qc → nat → nat) (t : Table)
  : result (list (pd.cell * pd.cell * pd.cell * pd.cell)) :=
  match tcol "passenger_count" t, tcol "fare_amount" t with
  | Some ks, Some vs => Ok (result_rows (group_by rng (zip ks vs)))
  | _, _ => Err (Raised "DatabaseError")
  end.

End clickhouse.

(** ** The world around the harness *)

(** The external calls of [benchmark.py], in the order they are made.
    Printing is not recorded. *)
Inductive event : Type :=
| EvPerfCounter
| EvReadCsv (path : string) (usecols : option (list string))
| EvToCsv (path : string)
| EvGetClient (host : string) (port : Z)
| EvQuery (database table : string).

#[global] Instance event_eq_dec : EqDecision event.
Proof. solve_decision. Defined.

(** Files on disk, tables of the server and the calls made so far (the most
    recent one first). *)
Record World : Type := MkWorld {
  w_files : gmap string pd.DataFrame;
  w_tables : gmap (string * string) clickhouse.Table;
  w_log : list event
}.

(** What the harness does not control, indexed by the number of external
    calls made before: the reading of the monotonic clock, whether the call
    fails (and with what), and the draws of the server's random generator
    per group. *)
Record Env : Type := MkEnv {
  e_clock : nat → Qc;
  e_fault : nat → option exn;
  e_rng : nat → Qc → nat → nat
}.

(** State and exceptions: a computation maps a state to the state it leaves
    and either a value or the exception it raised there. *)
Definition M (S A : Type) : Type := S → S * result A.

#[global] Instance M_ret {S} : MRet (M S) := λ A a s, (s, Ok a).
#[global] Instance M_bind {S} : MBind (M S) := λ A B k m s,
  match m s with
  | (s', Ok a) => k a s'
  | (s', Err e) => (s', Err e)
  end.

Definition lift_result {S A} (r : result A) : M S A := λ s, (s, r).

(** Local variables of a function next to the world. *)
Definition liftW {L A} (m : M World A) : M (L * World) A := λ s,
  let '(w, r) := m s.2 in ((s.1, w), r).
Definition locals {L} : M (L * World) L := λ s, (s, Ok s.1).
Definition assign {L} (f : L → L) : M (L * World) unit := λ s, ((f s.1, s.2), Ok ()).

(** Run a block that has local variables; when it raises, they are gone
    with the frame. *)
Definition with_locals {L} (init : L) (body : M (L * World) unit) : M World L := λ w,
  let '(s, r) := body (init, w) in
  (s.2, match r with Ok _ => Ok s.1 | Err e => Err e end).

(** [for i in range(n): body]. *)
Fixpoint for_each {S} (idx : list nat) (body : nat → M S unit) : M S unit :=
  match idx with
  | [] => mret ()
  | i :: idx => body i;; for_each idx body
  end.
Definition for_range {S} (n : Z) (body : nat → M S unit) : M S unit :=
  for_each (seq 0 (Z.to_nat n)) body.

Definition log_event (ev : event) (w : World) : World :=
  MkWorld (w_files w) (w_tables w) (ev :: w_log w).

Definition calls (w : World) : nat := length (w_log w).

(** The result dictionaries of the two benchmark functions. *)
Module PandasRun.
Record Locals : Type := MkLocals {
  load_times : list Qc;
  compute_times : list Qc;
  total_times : list Qc;
  results_df : option pd.DataFrame
}.
Record Stats : Type := MkStats {
  samples : Locals;      (* 'load_times', 'compute_times', 'total_times', 'results' *)
  load_mean : Qc; compute_mean : Qc; total_mean : Qc;
  load_median : Qc; compute_median : Qc; total_median : Qc;
  load_min : Qc; compute_min : Qc; total_min : Qc;
  load_max : Qc; compute_max : Qc; total_max : Qc
}.
End PandasRun.

Module ClickHouseRun.
Record Locals : Type := MkLocals {
  query_times : list Qc;
  save_times : list Qc;
  total_times : list Qc;
  results_df : option pd.DataFrame
}.
Record Stats : Type := MkStats {
  samples : Locals;      (* 'query_times', 'save_times', 'total_times', 'results' *)
  query_mean : Qc; save_mean : Qc; total_mean : Qc;
  query_median : Qc; save_median : Qc; total_median : Qc;
  query_min : Qc; save_min : Qc; total_min : Qc;
  query_max : Qc; save_max : Qc; total_max : Qc;
  mean : Qc              (* 'mean': kept for backward compatibility *)
}.
End ClickHouseRun.

(** [s.replace(old, new)] for a non-empty [old]: the occurrences of [old]
    are replaced from left to right, without overlap. *)
Fixpoint replace_from (old new : string) (skip : nat) (s : string) : string :=
  match s with
  | EmptyString => EmptyString
  | String c s' =>
      match skip with
      | S k => replace_from old new k s'
      | O =>
          if String.prefix old s
          then (new +:+ replace_from old new (String.length old - 1) s')%string
          else String c (replace_from old new 0 s')
      end
  end.
Definition str_replace (old new s : string) : string := replace_from old new 0 s.

(** The command line of [benchmark.py]. *)
Record Args : Type := MkArgs {
  host : string; port : Z; user : string; password : string;
  database : string; table : string;
  csv_input : string; csv_output_pandas : string; csv_output_clickhouse : string;
  iterations : Z; warmup : Z
}.

Record Client : Type := MkClient {
  c_host : string; c_port : Z; c_username : string; c_password : string
}.

(** What [main] prints at the end. *)
Record Report : Type := MkReport {
  pandas_selective_stats : PandasRun.Stats;
  pandas_full_stats : PandasRun.Stats;
  clickhouse_stats : ClickHouseRun.Stats;
  speedup_selective : Qc;
  speedup_full : Qc;
  time_saved_selective : Qc;
  time_saved_full : Qc
}.

(** ** [benchmark.py] *)

Section Benchmark.
Context (env : Env).

(** An external call: it is logged, and fails if the environment says so. *)
Definition external {A} (ev : event) (run : nat → World → World * result A) : M World A := λ w,
  let n := calls w in
  let w := log_event ev w in
  match e_fault env n with
  | Some e => (w, Err e)
  | None => run n w
  end.

(** [time.perf_counter()]. *)
Definition perf_counter : M World Qc := λ w,
  (log_event EvPerfCounter w, Ok (e_clock env (calls w))).

(** [pd.read_csv(path)] and [pd.read_csv(path, usecols=names)]. *)
Definition read_csv (path : string) (usecols : option (list string)) : M World pd.DataFrame :=
  external (EvReadCsv path usecols) (λ _ w,
    match w_files w !! path with
    | None => (w, Err (Raised "FileNotFoundError"))
    | Some t =>
        (w, match usecols with
            | Some names => pd.select_usecols names t
            | None => Ok t
            end)
    end).

(** [df.to_csv(path, index=False)]. *)
Definition to_csv (df : pd.DataFrame) (path : string) : M World unit :=
  external (EvToCsv path) (λ _ w,
    (MkWorld (<[path := df]> (w_files w)) (w_tables w) (w_log w), Ok ())).

(** [get_client(host=..., port=..., username=..., password=...)]. *)
Definition get_client (h : string) (p : Z) (u pw : string) : M World Client :=
  external (EvGetClient h p) (λ _ w, (w, Ok (MkClient h p u pw))).

(** [client.query(query).result_rows] for the aggregation query over
    [database.table]. *)
Definition client_query (client : Client) (db tbl : string)
  : M World (list (pd.cell * pd.cell * pd.cell * pd.cell)) :=
  external (EvQuery db tbl) (λ n w,
    match w_tables w !! (db, tbl) with
    | None => (w, Err (Raised "DatabaseError"))
    | Some t => (w, clickhouse.aggregate (e_rng env n) t)
    end).

(** [if usecols:] is false for [None] and for an empty list. *)
Definition truthy (usecols : option (list string)) : bool :=
  match usecols with
  | Some (_ :: _) => true
  | _ => false
  end.

(** <<
    if usecols: df = pd.read_csv(csv_file, usecols=usecols)
    else:       df = pd.read_csv(csv_file)
>> *)
Definition load (csv_file : string) (usecols : option (list string)) : M World pd.DataFrame :=
  if truthy usecols then read_csv csv_file usecols else read_csv csv_file None.

(** [df.groupby('passenger_count')['fare_amount'].agg(['mean', 'median', 'var'])] *)
Definition aggregate (df : pd.DataFrame) : result pd.Grouped :=
  pd.groupby_agg "passenger_count" "fare_amount" df.

(** The compute phase: the aggregation, the renaming of its columns and
    [reset_index]. *)
Definition compute (df : pd.DataFrame) : result pd.DataFrame :=
  bind (aggregate df) (λ grouped,
  bind (pd.set_columns ["mean_fare"; "median_fare"; "variance_fare"]%string grouped) (λ grouped,
  Ok (pd.reset_index grouped))).

Definition pandas_warmup (csv_file : string) (usecols : option (list string)) (warmup : Z)
  : M World unit :=
  if (0 <? warmup)%Z then
    for_range warmup (λ _,
      df ← load csv_file usecols;
      _ ← lift_result (aggregate df);
      mret ())
  else mret ().

(** One measured iteration of [benchmark_pandas_approach]. *)
Definition pandas_iteration (csv_file output_file : string) (usecols : option (list string))
    (iterations : Z) (i : nat) : M (PandasRun.Locals * World) unit :=
  load_start ← liftW perf_counter;
  df ← liftW (load csv_file usecols);
  t ← liftW perf_counter;
  let load_elapsed := (t - load_start)%Qc in
  compute_start ← liftW perf_counter;
  grouped ← lift_result (compute df);
  t ← liftW perf_counter;
  let compute_elapsed := (t - compute_start)%Qc in
  let total_elapsed := (load_elapsed + compute_elapsed)%Qc in
  assign (λ l, PandasRun.MkLocals
                 (PandasRun.load_times l ++ [load_elapsed])
                 (PandasRun.compute_times l ++ [compute_elapsed])
                 (PandasRun.total_times l ++ [total_elapsed])
                 (PandasRun.results_df l));;
  if (Z.of_nat i =? iterations - 1)%Z then
    liftW (to_csv grouped output_file);;
    assign (λ l, PandasRun.MkLocals
                   (PandasRun.load_times l) (PandasRun.compute_times l)
                   (PandasRun.total_times l) (Some grouped))
  else mret ().

Definition pandas_summary (l : PandasRun.Locals) : result PandasRun.Stats :=
  let lt := PandasRun.load_times l in
  let ct := PandasRun.compute_times l in
  let tt := PandasRun.total_times l in
  bind (statistics.mean lt) (λ load_mean,
  bind (statistics.mean ct) (λ compute_mean,
  bind (statistics.mean tt) (λ total_mean,
  bind (statistics.median lt) (λ load_median,
  bind (statistics.median ct) (λ compute_median,
  bind (statistics.median tt) (λ total_median,
  bind (Py.min lt) (λ load_min,
  bind (Py.min ct) (λ compute_min,
  bind (Py.min tt) (λ total_min,
  bind (Py.max lt) (λ load_max,
  bind (Py.max ct) (λ compute_max,
  bind (Py.max tt) (λ total_max,
  Ok (PandasRun.MkStats l load_mean compute_mean total_mean
        load_median compute_median total_median
        load_min compute_min total_min
        load_max compute_max total_max))))))))))))).

Definition pandas_init : PandasRun.Locals := PandasRun.MkLocals [] [] [] None.

Definition pandas_loop (csv_file output_file : string) (usecols : option (list string))
    (iterations : Z) : M (PandasRun.Locals * World) unit :=
  for_range iterations (pandas_iteration csv_file output_file usecols iterations).

Definition benchmark_pandas_approach (csv_file output_file : string)
    (usecols : option (list string)) (iterations warmup : Z) : M World PandasRun.Stats :=
  pandas_warmup csv_file usecols warmup;;
  l ← with_locals pandas_init (pandas_loop csv_file output_file usecols iterations);
  lift_result (pandas_summary l).

Definition clickhouse_warmup (client : Client) (db tbl : string) (warmup : Z) : M World unit :=
  if (0 <? warmup)%Z then
    for_range warmup (λ _, _ ← client_query client db tbl; mret ())
  else mret ().

(** One measured iteration of [benchmark_clickhouse_approach]. *)
Definition clickhouse_iteration (client : Client) (db tbl output_file : string)
    (iterations : Z) (i : nat) : M (ClickHouseRun.Locals * World) unit :=
  query_start ← liftW perf_counter;
  rows ← liftW (client_query client db tbl);
  t ← liftW perf_counter;
  let query_elapsed := (t - query_start)%Qc in
  save_start ← liftW perf_counter;
  let df := pd.of_rows4 rows "passenger_count" "mean_fare" "median_fare" "variance_fare" in
  assign (λ l, ClickHouseRun.MkLocals
                 (ClickHouseRun.query_times l) (ClickHouseRun.save_times l)
                 (ClickHouseRun.total_times l) (Some df));;
  (if (Z.of_nat i =? iterations - 1)%Z then liftW (to_csv df output_file) else mret ());;
  t ← liftW perf_counter;
  let save_elapsed := (t - save_start)%Qc in
  let total_elapsed := (query_elapsed + save_elapsed)%Qc in
  assign (λ l, ClickHouseRun.MkLocals
                 (ClickHouseRun.query_times l ++ [query_elapsed])
                 (ClickHouseRun.save_times l ++ [save_elapsed])
                 (ClickHouseRun.total_times l ++ [total_elapsed])
                 (ClickHouseRun.results_df l)).

Definition clickhouse_summary (l : ClickHouseRun.Locals) : result ClickHouseRun.Stats :=
  let qt := ClickHouseRun.query_times l in
  let st := ClickHouseRun.save_times l in
  let tt := ClickHouseRun.total_times l in
  bind (statistics.mean qt) (λ query_mean,
  bind (statistics.mean st) (λ save_mean,
  bind (statistics.mean tt) (λ total_mean,
  bind (statistics.median qt) (λ query_median,
  bind (statistics.median st) (λ save_median,
  bind (statistics.median tt) (λ total_median,
  bind (Py.min qt) (λ query_min,
  bind (Py.min st) (λ save_min,
  bind (Py.min tt) (λ total_min,
  bind (Py.max qt) (λ query_max,
  bind (Py.max st) (λ save_max,
  bind (Py.max tt) (λ total_max,
  bind (statistics.mean qt) (λ mean,
  Ok (ClickHouseRun.MkStats l query_mean save_mean total_mean
        query_median save_median total_median
        query_min save_min total_min
        query_max save_max total_max mean)))))))))))))).

Definition clickhouse_init : ClickHouseRun.Locals := ClickHouseRun.MkLocals [] [] [] None.

Definition clickhouse_loop (client : Client) (db tbl output_file : string)
    (iterations : Z) : M (ClickHouseRun.Locals * World) unit :=
  for_range iterations (clickhouse_iteration client db tbl output_file iterations).

Definition benchmark_clickhouse_approach (client : Client) (db tbl output_file : string)
    (iterations warmup : Z) : M World ClickHouseRun.Stats :=
  clickhouse_warmup client db tbl warmup;;
  l ← with_locals clickhouse_init (clickhouse_loop client db tbl output_file iterations);
  lift_result (clickhouse_summary l).

(** [stats['results'].to_string(index=False)]: the attribute of [None] does
    not exist. *)
Definition to_string (results : option pd.DataFrame) : result unit :=
  match results with
  | Some _ => Ok ()
  | None => Err (Raised "AttributeError")
  end.

Definition main (args : Args) : M World Report :=
  client ← get_client (host args) (port args) (user args) (password args);
  pandas_selective_stats ←
    benchmark_pandas_approach (csv_input args) (csv_output_pandas args)
      (Some ["fare_amount"; "passenger_count"]%string)
      (iterations args) (warmup args);
  pandas_full_stats ←
    benchmark_pandas_approach (csv_input args)
      (str_replace ".csv" "_full.csv" (csv_output_pandas args))
      None (iterations args) (warmup args);
  clickhouse_stats ←
    benchmark_clickhouse_approach client (database args) (table args)
      (csv_output_clickhouse args) (iterations args) (warmup args);
  lift_result (to_string (PandasRun.results_df (PandasRun.samples pandas_selective_stats)));;
  lift_result (to_string (PandasRun.results_df (PandasRun.samples pandas_full_stats)));;
  lift_result (to_string (ClickHouseRun.results_df (ClickHouseRun.samples clickhouse_stats)));;
  speedup_selective ←
    lift_result (Py.truediv (PandasRun.total_mean pandas_selective_stats)
                            (ClickHouseRun.total_mean clickhouse_stats));
  speedup_full ←
    lift_result (Py.truediv (PandasRun.total_mean pandas_full_stats)
                            (ClickHouseRun.total_mean clickhouse_stats));
  mret (MkReport pandas_selective_stats pandas_full_stats clickhouse_stats
          speedup_selective speedup_full
          (PandasRun.total_mean pandas_selective_stats - ClickHouseRun.total_mean clickhouse_stats)%Qc
          (PandasRun.total_mean pandas_full_stats - ClickHouseRun.total_mean clickhouse_stats)%Qc).

End Benchmark.

(** ** The notions the specification uses, in its own words *)

Module Spec.

(** The sum of a sequence of durations or values. *)
Definition total (xs : list Qc) : Qc := foldr Qcplus 0%Qc xs.

(** Arithmetic mean of a non-empty sequence. *)
Definition is_mean (xs : list Qc) (m : Qc) : Prop :=
  xs ≠ [] ∧ (m * qn (length xs))%Qc = total xs.

Definition is_min (xs : list Qc) (m : Qc) : Prop :=
  m ∈ xs ∧ Forall (λ x, (m ≤ x)%Qc) xs.

Definition is_max (xs : list Qc) (m : Qc) : Prop :=
  m ∈ xs ∧ Forall (λ x, (x ≤ m)%Qc) xs.

(** Median: the middle element of the sequence put in ascending order, the
    mean of the two middle elements when their number is even. *)
Definition is_median (xs : list Qc) (m : Qc) : Prop :=
  ∃ s, s ≡ₚ xs ∧ Sorted Qcle s ∧
    let n := length s in
    if Nat.odd n then s !! (n / 2)%nat = Some m
    else ∃ a b, s !! (n / 2 - 1)%nat = Some a ∧ s !! (n / 2)%nat = Some b ∧
                m = ((a + b) / qz 2)%Qc.

(** Summary Statistics of a sequence of timing samples. *)
Definition summarises (xs : list Qc) (mean median mn mx : Qc) : Prop :=
  is_mean xs mean ∧ is_median xs median ∧ is_min xs mn ∧ is_max xs mx.

(** Mean of a group, undefined for an empty one. *)
Definition mean (xs : list Qc) : option Qc :=
  match xs with
  | [] => None
  | _ => Some (total xs / qn (length xs))%Qc
  end.

(** Sample variance: the squared deviations from the mean, summed and
    divided by n - 1; undefined for n < 2. *)
Definition sample_variance (xs : list Qc) : option Qc :=
  let n := length xs in
  if (n <? 2)%nat then None
  else
    let m := (total xs / qn n)%Qc in
    Some (total ((λ x, (x - m) * (x - m))%Qc <$> xs) / qn (n - 1))%Qc.

(** The values of the rows whose group key is [k] (rows with a missing
    value have nothing to contribute). *)
Definition group (k : Qc) (ks vs : list (option Qc)) : list Qc :=
  omap snd (filter (λ kv, kv.1 = Some k) (zip ks vs)).

End Spec.

(** ** Vocabulary of the statements *)

Definition squares (xs : list Qc) : list Qc := (λ x, x * x)%Qc <$> xs.

(** The values of the table rows with key [k], in table order. *)
Definition values_of (k : Qc) (rows : list (Qc * Qc)) : list Qc :=
  (filter (λ kv, kv.1 = k) rows).*2.

(** The same dataset as a file: the table as [export_to_csv] of
    [download_data.py] writes it (a header of column names, then the rows)
    and [read_csv] parses it back. *)
Definition as_frame (t : clickhouse.Table) : pd.DataFrame :=
  (λ c : string * list Qc, (c.1, Some <$> c.2)) <$> t.

(** A table whose columns have the same number of rows. *)
Definition rectangular (t : clickhouse.Table) : Prop :=
  ∀ c1 c2, c1 ∈ t → c2 ∈ t → length c1.2 = length c2.2.

(** What [load] returns when the call itself does not fail. *)
Definition loaded (files : gmap string pd.DataFrame) (csv_file : string)
    (usecols : option (list string)) : result pd.DataFrame :=
  match files !! csv_file with
  | None => Err (Raised "FileNotFoundError")
  | Some t =>
      if truthy usecols then
        match usecols with
        | Some names => pd.select_usecols names t
        | None => Ok t
        end
      else Ok t
  end.

(** [w'] is [w] after the external calls [evs], in the order they were
    made; no call changes the tables of the server. *)
Definition extends (w w' : World) (evs : list event) : Prop :=
  w_log w' = rev evs ++ w_log w ∧ w_tables w' = w_tables w.

(** [m] makes exactly the calls [T] when it returns, and a prefix of them
    when it raises. *)
Definition traced {S A} (wof : S → World) (m : M S A) (T : list event) : Prop :=
  ∀ s s' r, m s = (s', r) →
    ∃ evs, extends (wof s) (wof s') evs ∧ evs `prefix_of` T ∧ (is_ok r = true → evs = T).

Definition read_event (csv_file : string) (usecols : option (list string)) : event :=
  EvReadCsv csv_file (if truthy usecols then usecols else None).

(** The calls of one measured iteration; [last] tells whether it is the
    last one. *)
Definition pandas_iter_events (csv_file output_file : string) (usecols : option (list string))
    (last : bool) : list event :=
  [EvPerfCounter; read_event csv_file usecols; EvPerfCounter; EvPerfCounter; EvPerfCounter]
  ++ (if last then [EvToCsv output_file] else []).

Definition clickhouse_iter_events (db tbl output_file : string) (last : bool) : list event :=
  [EvPerfCounter; EvQuery db tbl; EvPerfCounter; EvPerfCounter]
  ++ (if last then [EvToCsv output_file] else [])
  ++ [EvPerfCounter].

Definition is_last (iterations : Z) (i : nat) : bool := (Z.of_nat i =? iterations - 1)%Z.

(** The calls of a whole run: the warmup, then the measured iterations. *)
Definition pandas_warmup_events (csv_file : string) (usecols : option (list string))
    (warmup : Z) : list event :=
  replicate (Z.to_nat warmup) (read_event csv_file usecols).

Definition pandas_measured_events (csv_file output_file : string)
    (usecols : option (list string)) (iterations : Z) : list event :=
  concat ((λ i, pandas_iter_events csv_file output_file usecols (is_last iterations i))
          <$> seq 0 (Z.to_nat iterations)).

Definition clickhouse_warmup_events (db tbl : string) (warmup : Z) : list event :=
  replicate (Z.to_nat warmup) (EvQuery db tbl).

Definition clickhouse_measured_events (db tbl output_file : string) (iterations : Z)
  : list event :=
  concat ((λ i, clickhouse_iter_events db tbl output_file (is_last iterations i))
          <$> seq 0 (Z.to_nat iterations)).

(** Writes to durable storage among a sequence of calls. *)
Definition is_write (ev : event) : bool :=
  match ev with
  | EvToCsv _ => true
  | _ => false
  end.

Definition writes (evs : list event) : list event := filter (λ ev, is_write ev = true) evs.

(** The rows the server returns to a query that does not fail. *)
Definition queried (tables : gmap (string * string) clickhouse.Table) (db tbl : string)
    (rng : Qc → nat → nat) : result (list (pd.cell * pd.cell * pd.cell * pd.cell)) :=
  match tables !! (db, tbl) with
  | None => Err (Raised "DatabaseError")
  | Some t => clickhouse.aggregate rng t
  end.

(** The run of a path as a sequence of calls. *)
Definition pandas_run_events (csv_file output_file : string) (usecols : option (list string))
    (iterations warmup : Z) : list event :=
  pandas_warmup_events csv_file usecols warmup
  ++ pandas_measured_events csv_file output_file usecols iterations.

Definition clickhouse_run_events (db tbl output_file : string) (iterations warmup : Z)
  : list event :=
  clickhouse_warmup_events db tbl warmup
  ++ clickhouse_measured_events db tbl output_file iterations.

(** The Aggregation Result of the specification for key column [ks] and
    value column [vs]: one row per group key in [idx]. *)
Definition aggregation_result (idx : list Qc) (ks vs : list pd.cell) : pd.DataFrame :=
  [("passenger_count"%string, Some <$> idx);
   ("mean_fare"%string, (λ k, Spec.mean (Spec.group k ks vs)) <$> idx);
   ("median_fare"%string, (λ k, pd.group_median (Spec.group k ks vs)) <$> idx);
   ("variance_fare"%string, (λ k, Spec.sample_variance (Spec.group k ks vs)) <$> idx)].

(** The persisted output: the header line, then one row per distinct
    group key among [keys], in ascending order. *)
Definition output_file (file : pd.DataFrame) (keys : list Qc) : Prop :=
  pd.header_line file = "passenger_count,mean_fare,median_fare,variance_fare"%string ∧
  ∃ idx,
    pd.getcol "passenger_count" file = Ok (Some <$> idx) ∧
    Forall (λ c, length c.2 = length idx) file ∧
    StronglySorted Qclt idx ∧
    ∀ k, k ∈ idx ↔ k ∈ keys.

(** The Aggregation Result a run holds when it returns. *)
Definition pandas_results (r : result PandasRun.Stats) : option pd.DataFrame :=
  match r with
  | Ok st => PandasRun.results_df (PandasRun.samples st)
  | Err _ => None
  end.

Definition clickhouse_results (r : result ClickHouseRun.Stats) : option pd.DataFrame :=
  match r with
  | Ok st => ClickHouseRun.results_df (ClickHouseRun.samples st)
  | Err _ => None
  end.

Definition column_of (name : string) (df : option pd.DataFrame) : option (list pd.cell) :=
  df ≫= λ d, match pd.getcol name d with Ok c => Some c | Err _ => None end.

(** The report of [main] from the three results. *)
Definition report (s1 s2 : PandasRun.Stats) (s3 : ClickHouseRun.Stats) : Report :=
  MkReport s1 s2 s3
    (PandasRun.total_mean s1 / ClickHouseRun.total_mean s3)%Qc
    (PandasRun.total_mean s2 / ClickHouseRun.total_mean s3)%Qc
    (PandasRun.total_mean s1 - ClickHouseRun.total_mean s3)%Qc
    (PandasRun.total_mean s2 - ClickHouseRun.total_mean s3)%Qc.

(** ** Example data *)

Definition ms (x : Z) : Qc := qfrac x 1000.

(** The dataset {(1, 10), (1, 20), (2, 15)}, as a file and as a table. *)
Definition example_df : pd.DataFrame :=
  [("passenger_count"%string, [Some (qz 1); Some (qz 1); Some (qz 2)]);
   ("fare_amount"%string, [Some (qz 10); Some (qz 20); Some (qz 15)])].

Definition example_table : clickhouse.Table :=
  [("passenger_count"%string, [qz 1; qz 1; qz 2]);
   ("fare_amount"%string, [qz 10; qz 20; qz 15])].

Definition example_result : pd.DataFrame :=
  [("passenger_count"%string, [Some (qz 1); Some (qz 2)]);
   ("mean_fare"%string, [Some (qz 15); Some (qz 15)]);
   ("median_fare"%string, [Some (qz 15); Some (qz 15)]);
   ("variance_fare"%string, [Some (qz 50); None])].

Definition example_world : World :=
  MkWorld {[ "data/nyc_taxi_data.csv"%string := example_df ]}
          {[ ("nyc_taxi"%string, "trips_small"%string) := example_table ]} [].

(** A clock that advances by one millisecond more at every reading, and an
    environment in which no call fails. *)
Definition example_env : Env :=
  MkEnv (λ n, qfrac (Z.of_nat (n * n)) 1000) (λ _, None) (λ _ _ _, 0%nat).

(** The clock of [example_env] read twice as fast. *)
Definition example_env_fast : Env :=
  MkEnv (λ n, qfrac (Z.of_nat (n * n)) 2000) (λ _, None) (λ _ _ _, 0%nat).

(** A clock too coarse to tell two readings apart. *)
Definition coarse_env : Env := MkEnv (λ _, 0%Qc) (λ _, None) (λ _ _ _, 0%nat).

(** An environment whose seventh external call fails: in a run without
    warmup, the read of the second measured iteration. *)
Definition failing (env : Env) : Env :=
  MkEnv (e_clock env)
        (λ n, if (n =? 6)%nat then Some (Raised "OSError") else None)
        (e_rng env).

Definition example_client : Client := MkClient "localhost" 8123 "default" "".

(** The default command line. *)
Definition default_args : Args :=
  MkArgs "localhost" 8123 "default" "" "nyc_taxi" "trips_small"
         "data/nyc_taxi_data.csv" "results_pandas.csv" "results_clickhouse.csv" 5 1.

Definition example_pandas_run : World * result PandasRun.Stats :=
  benchmark_pandas_approach example_env "data/nyc_taxi_data.csv" "results_pandas.csv"
    None 3 1 example_world.

Definition example_selective_run : World * result PandasRun.Stats :=
  benchmark_pandas_approach example_env "data/nyc_taxi_data.csv" "results_pandas.csv"
    (Some ["fare_amount"; "passenger_count"]%string) 3 1 example_world.

Definition example_clickhouse_run : World * result ClickHouseRun.Stats :=
  benchmark_clickhouse_approach example_env example_client "nyc_taxi" "trips_small"
    "results_clickhouse.csv" 3 1 example_world.

(** A dataset with one group of 8193 rows: 4096 fares of 0, one of 1 and
    4096 of 3, present as a table and as the file exported from it. *)
Definition big_table : clickhouse.Table :=
  [("passenger_count"%string, replicate (Z.to_nat 8193) (qz 1));
   ("fare_amount"%string,
    replicate (Z.to_nat 4096) (qz 0) ++ [qz 1] ++ replicate (Z.to_nat 4096) (qz 3))].

Definition big_world : World :=
  MkWorld {[ "data/nyc_taxi_data.csv"%string := as_frame big_table ]}
          {[ ("nyc_taxi"%string, "trips_small"%string) := big_table ]} [].

(** ** Vocabulary of further statements *)

(** What the first read and aggregation of a run give. *)
Definition first_attempt (env : Env) (c : nat) (files : gmap string pd.DataFrame)
    (csv : string) (usecols : option (list string)) : result pd.DataFrame :=
  match e_fault env c with
  | Some e => Err e
  | None => bind (loaded files csv usecols) compute
  end.

(** The index of the first read of a run among the external calls. *)
Definition first_read (wu : Z) (w : World) : nat :=
  if decide (1 ≤ wu)%Z then calls w else S (calls w).

(** [time.perf_counter] is monotonic: a later reading is not smaller. *)
Definition monotonic (clock : nat → Qc) : Prop :=
  ∀ i j, (i ≤ j)%nat → (clock i ≤ clock j)%Qc.

Definition nonnegative (xs : list Qc) : Prop := Forall (λ x, (0 ≤ x)%Qc) xs.

(** The calls of [main]: the connection, then the three runs. *)
Definition main_events (args : Args) : list event :=
  [EvGetClient (host args) (port args)]
  ++ pandas_run_events (csv_input args) (csv_output_pandas args)
       (Some ["fare_amount"; "passenger_count"]%string) (iterations args) (warmup args)
  ++ pandas_run_events (csv_input args)
       (str_replace ".csv" "_full.csv" (csv_output_pandas args))
       None (iterations args) (warmup args)
  ++ clickhouse_run_events (database args) (table args) (csv_output_clickhouse args)
       (iterations args) (warmup args).

Definition example_single_run : World * result PandasRun.Stats :=
  benchmark_pandas_approach example_env "data/nyc_taxi_data.csv" "results_pandas.csv"
    None 1 0 example_world.

(** ** [download_data.py] *)

(** [try: body  except Exception as e: handler]. *)
Definition try_except {S A} (body : M S A) (handler : exn → M S A) : M S A := λ s,
  match body s with
  | (s', Ok a) => (s', Ok a)
  | (s', Err e) => handler e s'
  end.

Module download_data.

(** The external calls of [export_to_csv], in the order they are made. *)
Inductive event : Type :=
| EvGetClient (host : string) (port : Z)
| EvShowTables (database : string)
| EvCount (database table : string)
| EvSelectAll (database table : string)
| EvOpen (path : string)
| EvWriteRows (path : string).

(** What a file holds: a complete delimited table (as [read_csv] parses
    it), or the beginning of one: a file opened for writing whose rows
    have not all reached it. *)
Inductive content : Type :=
| Complete (df : pd.DataFrame)
| Truncated.

Record State : Type := MkState {
  files : gmap string content;
  tables : gmap (string * string) clickhouse.Table;
  log : list event
}.

(** An external call: it is logged, and fails if [fault] says so for the
    number of calls made before. *)
Definition external {A} (fault : nat → option exn) (ev : event)
    (run : State → State * result A) : M State A := λ s,
  let n := length (log s) in
  let s := MkState (files s) (tables s) (ev :: log s) in
  match fault n with
  | Some e => (s, Err e)
  | None => run s
  end.

(** [SHOW TABLES FROM database]: the names of its tables.  A database
    without tables and an unknown database are not told apart: the export
    returns [False] after the same two calls for both. *)
Definition table_names (tbls : gmap (string * string) clickhouse.Table) (db : string)
  : list string :=
  omap (λ kv : string * string * clickhouse.Table,
          if decide (kv.1.1 = db) then Some kv.1.2 else None)
       (map_to_list tbls).

(** [SELECT count() FROM database.table]. *)
Definition nrows (t : clickhouse.Table) : nat :=
  match t with
  | [] => 0
  | c :: _ => length c.2
  end.

(** [SELECT * FROM database.table]: [column_names] and [result_rows]. *)
Definition column_names (t : clickhouse.Table) : list string := t.*1.
Definition row (t : clickhouse.Table) (i : nat) : list Qc := omap (λ c, c.2 !! i) t.
Definition result_rows (t : clickhouse.Table) : list (list Qc) := row t <$> seq 0 (nrows t).

(** The delimited file with the given header and rows, as [read_csv]
    parses it: one column per header field, a missing field being NaN. *)
Definition csv_frame (header : list string) (rows : list (list Qc)) : pd.DataFrame :=
  imap (λ j name, (name, (λ r : list Qc, r !! j) <$> rows)) header.

Section export.
Context (fault : nat → option exn).

Definition get_client (h : string) (p : Z) (u pw : string) : M State Client :=
  external fault (EvGetClient h p) (λ s, (s, Ok (MkClient h p u pw))).

Definition show_tables (client : Client) (db : string) : M State (list string) :=
  external fault (EvShowTables db) (λ s, (s, Ok (table_names (tables s) db))).

Definition query_table (s : State) (db tbl : string) : result clickhouse.Table :=
  match tables s !! (db, tbl) with
  | Some t => Ok t
  | None => Err (Raised "DatabaseError")
  end.

Definition count (client : Client) (db tbl : string) : M State nat :=
  external fault (EvCount db tbl) (λ s, (s, bind (query_table s db tbl) (λ t, Ok (nrows t)))).

Definition select_all (client : Client) (db tbl : string) : M State clickhouse.Table :=
  external fault (EvSelectAll db tbl) (λ s, (s, query_table s db tbl)).

(** [open(path, 'w', ...)]: the file is created, or emptied if it exists. *)
Definition open_w (path : string) : M State unit :=
  external fault (EvOpen path) (λ s,
    (MkState (<[path := Truncated]> (files s)) (tables s) (log s), Ok ())).

(** [writer.writerow(header); writer.writerows(rows)] and the end of the
    [with] block, which closes the file. *)
Definition write_rows (path : string) (header : list string) (rows : list (list Qc))
  : M State unit :=
  external fault (EvWriteRows path) (λ s,
    (MkState (<[path := Complete (csv_frame header rows)]> (files s)) (tables s) (log s),
     Ok ())).

Definition export_to_csv (host : string) (port : Z) (database table output_file : string)
    (user password : string) : M State bool :=
  try_except
    (client ← get_client host port user password;
     table_names ← show_tables client database;
     if decide (table ∉ table_names) then mret false
     else
       row_count ← count client database table;
       result ← select_all client database table;
       open_w output_file;;
       write_rows output_file (column_names result) (result_rows result);;
       mret true)
    (λ e, mret false).

(** The command line of [download_data.py]. *)
Record Args : Type := MkArgs {
  host : string; port : Z; database : string; table : string;
  output : string; user : string; password : string
}.

(** [main]: its value is the status given to [sys.exit]. *)
Definition main (args : Args) : M State Z :=
  success ← export_to_csv (host args) (port args) (database args) (table args)
              (output args) (user args) (password args);
  mret (if success : bool then 0 else 1)%Z.

End export.

(** The calls of an export that reaches its end. *)
Definition export_events (h : string) (p : Z) (db tbl out : string) : list event :=
  [EvGetClient h p; EvShowTables db; EvCount db tbl; EvSelectAll db tbl;
   EvOpen out; EvWriteRows out].

End download_data.

(** A server that holds the example table, and no file yet. *)
Definition example_server : download_data.State :=
  download_data.MkState ∅ {[ ("nyc_taxi"%string, "trips_small"%string) := example_table ]} [].


(** ** [moving_avg.py] *)

Module moving_avg.

(** The script reads the column [pickup_datetime] with [parse_dates]; a
    parsed value is a point in time, counted here in days since an epoch, and
    NaT is [None].  [.dt.date] is the calendar day of a timestamp, and
    [pd.to_datetime] of a day is its midnight.  Timing and plotting are not
    part of the model. *)
Definition date (t : Qc) : Qc := qz (Qfloor t).

Definition dates (pickups : list pd.cell) : list pd.cell :=
  (λ t : pd.cell, date <$> t) <$> pickups.

(** [df.assign(date=...).groupby('date').size().rename('trips_today')
       .reset_index()]: one row per day, in ascending order, with the number
    of rows of that day. *)
Definition daily_counts (pickups : list pd.cell) : list (Qc * nat) :=
  let ds := dates pickups in
  (λ d, (d, pd.group_size d ds)) <$> pd.group_index ds.

(** [sort_values('date')]: the rows in ascending order of their date (a
    merge sort here; the days of the daily table are distinct, so that every
    sorting algorithm orders it the same way). *)
Definition by_date (a b : Qc * nat) : Prop := (a.1 ≤ b.1)%Qc.

#[global] Instance by_date_dec a b : Decision (by_date a b).
Proof. unfold by_date. apply _. Defined.

Definition sort_values (rows : list (Qc * nat)) : list (Qc * nat) :=
  merge_sort by_date rows.

(** [rolling(window).mean()] with [min_periods = window], as the windowed
    mean kernel computes it: a running number of observations, their sum and
    the number of negative ones among them, to which the value entering the
    window is added and from which the value leaving it is removed,
<<
    add:    nobs += 1; sum_x += val; if signbit(val): neg_ct += 1
    remove: nobs -= 1; sum_x -= val; if signbit(val): neg_ct -= 1
    result: if nobs >= minp and nobs > 0:
                result = sum_x / nobs
                if neg_ct == 0 and result < 0: result = 0
                elif neg_ct == nobs and result > 0: result = 0
            else: result = NaN
>>
    (the compensation terms of the summation are zero in exact
    arithmetic). *)
Record mean_state : Type := MeanState { nobs : nat; sum_x : Qc; neg_ct : nat }.

Definition signbit (val : Qc) : bool := bool_decide (val < 0)%Qc.

Definition add_mean (val : Qc) (st : mean_state) : mean_state :=
  MeanState (S (nobs st)) (sum_x st + val)%Qc
            (if signbit val then S (neg_ct st) else neg_ct st).

Definition remove_mean (val : Qc) (st : mean_state) : mean_state :=
  MeanState (nobs st - 1) (sum_x st - val)%Qc
            (if signbit val then neg_ct st - 1 else neg_ct st)%nat.

Definition calc_mean (minp : nat) (st : mean_state) : pd.cell :=
  if ((minp <=? nobs st) && (0 <? nobs st))%nat then
    let result := (sum_x st / qn (nobs st))%Qc in
    if ((neg_ct st =? 0)%nat && bool_decide (result < 0)%Qc) then Some 0%Qc
    else if ((neg_ct st =? nobs st)%nat && bool_decide (0 < result)%Qc) then Some 0%Qc
    else Some result
  else None.

(** Row [i] and the rows after it: the window ends at row [i] and starts
    [window] rows before its end, so that row [i - window] leaves it when
    there is one. *)
Fixpoint roll_from (window minp : nat) (values : list Qc) (st : mean_state) (i : nat)
    (todo : list Qc) : list pd.cell :=
  match todo with
  | [] => []
  | val :: todo =>
      let st :=
        if (window <=? i)%nat then
          match values !! (i - window)%nat with
          | Some old => remove_mean old st
          | None => st
          end
        else st in
      let st := add_mean val st in
      calc_mean minp st :: roll_from window minp values st (S i) todo
  end.

Definition rolling_mean (window : nat) (values : list Qc) : list pd.cell :=
  roll_from window window values (MeanState 0 0%Qc 0) 0 values.

(** The frame [daily] when the script plots it: the day, the trips of the
    day and the moving average, without the first six rows. *)
Definition daily_moving_avg (pickups : list pd.cell) : list (Qc * nat * pd.cell) :=
  let daily := sort_values (daily_counts pickups) in
  let daily := sort_values daily in
  let moving_avg_7days := rolling_mean 7 ((λ r, qn r.2) <$> daily) in
  drop 6 (zip daily moving_avg_7days).

(** The rows of the window that ends at row [i]. *)
Definition window_rows {A} (window : nat) (i : nat) (values : list A) : list A :=
  drop (S i - window) (take (S i) values).

(** The state of the kernel before row [i] is read. *)
Definition mean_state_before (w : nat) (values : list Qc) (i : nat) (st : mean_state) : Prop :=
  nobs st = (i `min` w)%nat ∧
  sum_x st = Spec.total (drop (i - w) (take i values)) ∧
  neg_ct st = 0%nat.

(** The mean of the window that ends at row [i]; NaN while the window is
    not full. *)
Definition window_mean (window : nat) (values : list Qc) (i : nat) : pd.cell :=
  if (S i <? window)%nat then None
  else Some (Spec.total (window_rows window i values) / qn window)%Qc.

#[global] Instance by_date_trans : Transitive by_date.
Proof. intros a b c. unfold by_date. apply Qcle_trans. Qed.

#[global] Instance by_date_total : Total by_date.
Proof. intros a b. unfold by_date. apply (total Qcle). Qed.

(** The seven calendar days that end with day [d]. *)
Definition week (d : Qc) : list Qc := (λ j : nat, (d - qz 6 + qn j)%Qc) <$> seq 0 7.

(** A pickup of one of the seven days that end with day [d]. *)
Definition in_week (d : Qc) (t : pd.cell) : Prop :=
  match t with
  | Some x => (d - qz 6 ≤ date x)%Qc ∧ (date x ≤ d)%Qc
  | None => False
  end.

#[global] Instance in_week_dec d t : Decision (in_week d t).
Proof. destruct t; simpl; apply _. Defined.

End moving_avg.

(** Pickups on nine days, two or three a day, and one row without a
    timestamp. *)
Definition example_pickups : list pd.cell :=
  ((λ z : Z, Some (qfrac z 2)) <$>
     [0; 1; 2; 3; 4; 5; 6; 7; 8; 9; 10; 11; 12; 13; 14; 15; 15; 17; 17; 17]%Z) ++ [None].

(** * Lemmas *)

(** * Arithmetic of the rational literals *)

Lemma qn_0 : qn 0 = 0%Qc.
Proof. apply Z2Qc_inj_0. Qed.

Lemma qn_S n : qn (S n) = (qn n + 1)%Qc.
Proof. unfold qn. by rewrite Nat2Z.inj_succ, <-Z.add_1_r, Z2Qc_inj_add, Z2Qc_inj_1. Qed.

Lemma qn_pos n : (0 < n)%nat → (0 < qn n)%Qc.
Proof.
  intros Hn. unfold qn. rewrite <-Z2Qc_inj_0. apply (proj1 (Z2Qc_inj_lt _ _)). lia.
Qed.

Lemma qn_nonzero n : (0 < n)%nat → qn n ≠ 0%Qc.
Proof. intros Hn Heq. pose proof (qn_pos n Hn) as Hp. rewrite Heq in Hp. by apply Qclt_not_eq in Hp. Qed.

Lemma qz_2 : qz 2 = (1 + 1)%Qc.
Proof. apply Z2Qc_inj_2. Qed.

Lemma qfrac_half : qfrac 1 2 = (/ (1 + 1))%Qc.
Proof. by apply Qc_is_canon. Qed.

(** * Sums *)

Lemma total_app xs ys : Spec.total (xs ++ ys) = (Spec.total xs + Spec.total ys)%Qc.
Proof.
  induction xs as [|x xs IH]; simpl.
  - by rewrite Qcplus_0_l.
  - rewrite IH. ring.
Qed.

Lemma sum_total xs : Py.sum xs = Spec.total xs.
Proof.
  unfold Py.sum. induction xs as [|x xs IH] using rev_ind; [done|].
  rewrite foldl_snoc, IH, total_app. simpl. ring.
Qed.

(** * min, max *)

Lemma min_spec xs m : Py.min xs = Ok m → Spec.is_min xs m.
Proof.
  destruct xs as [|x xs]; [done|]. simpl. intros [= <-].
  assert (∀ ys a, let r := foldl (λ m y : Qc, if decide (y < m)%Qc then y else m) a ys in
            (r = a ∨ r ∈ ys) ∧ (r ≤ a)%Qc ∧ Forall (λ y, (r ≤ y)%Qc) ys) as H.
  { induction ys as [|y ys IH]; intros a; simpl.
    - split; [by left|]. split; [apply Qcle_refl|constructor].
    - case_decide as Hlt.
      + destruct (IH y) as ([->|Hin] & Hle & Hall).
        * split; [right; left|]. split; [by apply Qclt_le_weak|]. by constructor.
        * split; [right; by right|].
          split; [eapply Qcle_trans; [done|by apply Qclt_le_weak]|]. by constructor.
      + destruct (IH a) as ([->|Hin] & Hle & Hall).
        * split; [by left|]. split; [apply Qcle_refl|]. constructor; [|done].
          by apply Qcnot_lt_le.
        * split; [right; by right|]. split; [done|]. constructor; [|done].
          eapply Qcle_trans; [done|]. by apply Qcnot_lt_le. }
  destruct (H xs x) as ([->|Hin] & Hle & Hall); split.
  - left.
  - constructor; [apply Qcle_refl|done].
  - by right.
  - by constructor.
Qed.

Lemma max_spec xs m : Py.max xs = Ok m → Spec.is_max xs m.
Proof.
  destruct xs as [|x xs]; [done|]. simpl. intros [= <-].
  assert (∀ ys a, let r := foldl (λ m y : Qc, if decide (m < y)%Qc then y else m) a ys in
            (r = a ∨ r ∈ ys) ∧ (a ≤ r)%Qc ∧ Forall (λ y, (y ≤ r)%Qc) ys) as H.
  { induction ys as [|y ys IH]; intros a; simpl.
    - split; [by left|]. split; [apply Qcle_refl|constructor].
    - case_decide as Hlt.
      + destruct (IH y) as ([->|Hin] & Hle & Hall).
        * split; [right; left|]. split; [by apply Qclt_le_weak|]. by constructor.
        * split; [right; by right|].
          split; [eapply Qcle_trans; [by apply Qclt_le_weak|done]|]. by constructor.
      + destruct (IH a) as ([->|Hin] & Hle & Hall).
        * split; [by left|]. split; [apply Qcle_refl|]. constructor; [|done].
          by apply Qcnot_lt_le.
        * split; [right; by right|]. split; [done|]. constructor; [|done].
          eapply Qcle_trans; [|done]. by apply Qcnot_lt_le. }
  destruct (H xs x) as ([->|Hin] & Hle & Hall); split.
  - left.
  - constructor; [apply Qcle_refl|done].
  - by right.
  - by constructor.
Qed.

(** * mean, median *)

Lemma mean_spec xs m : statistics.mean xs = Ok m → Spec.is_mean xs m.
Proof.
  unfold statistics.mean. destruct xs as [|x xs]; [done|].
  simpl length. destruct (S (length xs) <? 1)%nat eqn:Hn; [done|].
  intros [= <-]. split; [done|]. rewrite sum_total. simpl length.
  field. apply qn_nonzero. lia.
Qed.

Lemma sorted_merge_sort (xs : list Qc) : Sorted Qcle (merge_sort Qcle xs).
Proof. apply Sorted_merge_sort. apply _. Qed.

Lemma odd_mod2 n : Nat.odd n = (n mod 2 =? 1)%nat.
Proof. by rewrite <-Nat.bit0_odd, Nat.bit0_eqb. Qed.

Lemma median_spec xs m : statistics.median xs = Ok m → Spec.is_median xs m.
Proof.
  unfold statistics.median, Py.sorted, Py.getitem.
  set (s := merge_sort Qcle xs). intros H.
  exists s. split; [apply merge_sort_Permutation|]. split; [apply sorted_merge_sort|].
  cbv zeta in *. rewrite odd_mod2.
  destruct (length s =? 0)%nat eqn:H0; [done|].
  destruct (length s `mod` 2 =? 1)%nat.
  - by destruct (s !! _); simplify_eq.
  - destruct (s !! (length s `div` 2 - 1)%nat) as [a|]; [|done].
    destruct (s !! (length s `div` 2)%nat) as [b|]; [|done].
    simpl in H. simplify_eq. by exists a, b.
Qed.

(** Non-empty data always has a summary. *)
Lemma mean_ok xs : xs ≠ [] → is_ok (statistics.mean xs) = true.
Proof. by destruct xs. Qed.

Lemma median_ok xs : xs ≠ [] → is_ok (statistics.median xs) = true.
Proof.
  intros Hne. unfold statistics.median, Py.sorted, Py.getitem. cbv zeta.
  set (s := merge_sort Qcle xs).
  assert (length s = length xs) as Hlen by apply Permutation_length, merge_sort_Permutation.
  assert (0 < length s)%nat as Hpos by (destruct xs; [done|simpl in *; lia]).
  destruct (length s =? 0)%nat eqn:H0; [apply Nat.eqb_eq in H0; lia|].
  assert (length s `div` 2 < length s)%nat as Hd by (apply Nat.div_lt; lia).
  destruct (length s `mod` 2 =? 1)%nat.
  - destruct (lookup_lt_is_Some_2 s (length s `div` 2)%nat Hd) as [a ->]. done.
  - destruct (lookup_lt_is_Some_2 s (length s `div` 2 - 1)%nat ltac:(lia)) as [a ->].
    destruct (lookup_lt_is_Some_2 s (length s `div` 2)%nat Hd) as [b ->]. done.
Qed.

Lemma min_ok xs : xs ≠ [] → is_ok (Py.min xs) = true.
Proof. by destruct xs. Qed.
Lemma max_ok xs : xs ≠ [] → is_ok (Py.max xs) = true.
Proof. by destruct xs. Qed.

(** * Variance *)

Lemma squared_deviations m xs :
  Spec.total ((λ x, (x - m) * (x - m))%Qc <$> xs) =
  (Spec.total (squares xs) - (1 + 1) * m * Spec.total xs + qn (length xs) * m * m)%Qc.
Proof.
  induction xs as [|x xs IH]; csimpl.
  - rewrite qn_0. ring.
  - unfold squares in *. csimpl. rewrite IH, qn_S. ring.
Qed.

(** The textbook sample variance from the power sums. *)
Lemma sample_variance_power_sums xs :
  (2 ≤ length xs)%nat →
  Spec.sample_variance xs =
    Some ((Spec.total (squares xs) - Spec.total xs * Spec.total xs / qn (length xs))
          / qn (length xs - 1))%Qc.
Proof.
  intros Hn. unfold Spec.sample_variance. cbv zeta.
  destruct (length xs <? 2)%nat eqn:Hlt; [apply Nat.ltb_lt in Hlt; lia|].
  f_equal. rewrite squared_deviations.
  field. split; apply qn_nonzero; lia.
Qed.

(** What the one-pass kernel holds after the values [xs]. *)
Lemma var_pass xs :
  let st := foldl pd.var_step (pd.VarState 0 0%Qc 0%Qc) xs in
  pd.nobs st = length xs ∧
  (xs ≠ [] →
     pd.vmean st = (Spec.total xs / qn (length xs))%Qc ∧
     pd.vout st = (Spec.total (squares xs) - Spec.total xs * Spec.total xs / qn (length xs))%Qc).
Proof.
  induction xs as [|x xs IH] using rev_ind; [done|].
  cbv zeta in *. rewrite foldl_snoc. destruct IH as [Hn IH].
  set (st := foldl pd.var_step _ xs) in *.
  unfold pd.var_step; simpl. rewrite Hn, length_app. simpl.
  split; [lia|]. intros _.
  replace (length xs + 1)%nat with (S (length xs)) by lia.
  unfold squares. rewrite fmap_app, !total_app. simpl.
  destruct xs as [|y ys].
  - subst st. simpl. rewrite qn_S, qn_0. split; field; exact Q_apart_0_1.
  - destruct IH as [-> ->]; [done|]. fold (squares (y :: ys)).
    set (n := length (y :: ys)).
    assert (qn n ≠ 0%Qc) by (apply qn_nonzero; subst n; simpl; lia).
    assert (qn (S n) ≠ 0%Qc) by (apply qn_nonzero; lia).
    rewrite (qn_S n) in *. split; field; done.
Qed.

Lemma group_var_sample_variance xs : pd.group_var 1 xs = Spec.sample_variance xs.
Proof.
  unfold pd.group_var. cbv zeta.
  destruct (var_pass xs) as [Hn Hinv]. rewrite Hn.
  destruct (decide (length xs < 2)%nat) as [Hlt|Hge].
  - unfold Spec.sample_variance. cbv zeta.
    replace (length xs <? 2)%nat with true by (symmetry; apply Nat.ltb_lt; lia).
    replace (length xs <=? 1)%nat with true by (symmetry; apply Nat.leb_le; lia).
    done.
  - replace (length xs <=? 1)%nat with false by (symmetry; apply Nat.leb_gt; lia).
    rewrite sample_variance_power_sums by lia.
    destruct Hinv as [_ ->]; [intros ->; simpl in *; lia|]. done.
Qed.

Lemma group_mean_mean xs : pd.group_mean xs = Spec.mean xs.
Proof. destruct xs; [done|]. unfold pd.group_mean, Spec.mean. by rewrite sum_total. Qed.

(** * The aggregation states of the server *)

Lemma agg_state_fold rnd xs :
  let st := foldl (clickhouse.agg_add rnd) clickhouse.agg_empty xs in
  clickhouse.avg_sum st = Spec.total xs ∧
  clickhouse.avg_count st = length xs ∧
  clickhouse.v_m0 st = length xs ∧
  clickhouse.v_m1 st = Spec.total xs ∧
  clickhouse.v_m2 st = Spec.total (squares xs) ∧
  clickhouse.q_total st = length xs ∧
  ((length xs ≤ clickhouse.reservoir_size)%nat → clickhouse.q_samples st = xs).
Proof.
  induction xs as [|x xs IH] using rev_ind; [done|].
  cbv zeta in *. rewrite foldl_snoc.
  set (st := foldl _ _ xs) in *.
  destruct IH as (H1 & H2 & H3 & H4 & H5 & H6 & H7).
  unfold clickhouse.agg_add, clickhouse.reservoir_insert.
  unfold squares in *. rewrite fmap_app, !total_app, length_app. simpl length.
  destruct (length (clickhouse.q_samples st) <? clickhouse.reservoir_size)%nat eqn:Hlt;
    simpl; rewrite ?H1, ?H2, ?H3, ?H4, ?H5, ?H6.
  - split_and!; try lia; try (simpl; ring).
    intros Hle. rewrite H7 by lia. done.
  - split_and!; try lia; try (simpl; ring).
    intros Hle. apply Nat.ltb_ge in Hlt. rewrite H7 in Hlt by lia. lia.
Qed.

Lemma avg_mean rnd xs :
  clickhouse.avg (foldl (clickhouse.agg_add rnd) clickhouse.agg_empty xs) = Spec.mean xs.
Proof.
  destruct (agg_state_fold rnd xs) as (H1 & H2 & _).
  unfold clickhouse.avg. rewrite H1, H2.
  by destruct xs.
Qed.

Lemma varSamp_sample_variance rnd xs :
  clickhouse.varSamp (foldl (clickhouse.agg_add rnd) clickhouse.agg_empty xs)
  = Spec.sample_variance xs.
Proof.
  destruct (agg_state_fold rnd xs) as (_ & _ & H3 & H4 & H5 & _).
  unfold clickhouse.varSamp. rewrite H3, H4, H5.
  destruct (decide (length xs < 2)%nat) as [Hlt|Hge].
  - unfold Spec.sample_variance. cbv zeta.
    replace (length xs <? 2)%nat with true by (symmetry; apply Nat.ltb_lt; lia).
    replace (length xs <=? 1)%nat with true by (symmetry; apply Nat.leb_le; lia).
    done.
  - replace (length xs <=? 1)%nat with false by (symmetry; apply Nat.leb_gt; lia).
    by rewrite sample_variance_power_sums by lia.
Qed.

Lemma half_odd n : (n `mod` 2 = 1 → (n - 1) / 2 = n / 2 ∧ (n - 1) `mod` 2 = 0)%nat.
Proof.
  intros H. pose proof (Nat.div_mod_eq n 2). pose proof (Nat.div_mod_eq (n - 1) 2).
  pose proof (Nat.mod_upper_bound (n - 1) 2). lia.
Qed.

Lemma half_even n :
  (n ≠ 0 → n `mod` 2 ≠ 1 →
   (n - 1) / 2 = n / 2 - 1 ∧ (n - 1) `mod` 2 = 1 ∧ 1 ≤ n / 2)%nat.
Proof.
  intros H0 H. pose proof (Nat.div_mod_eq n 2). pose proof (Nat.div_mod_eq (n - 1) 2).
  pose proof (Nat.mod_upper_bound (n - 1) 2). pose proof (Nat.mod_upper_bound n 2). lia.
Qed.

Lemma two_nonzero : (1 + 1)%Qc ≠ 0%Qc.
Proof. done. Qed.

(** Below the reservoir size the quantile at 0.5 is the exact median. *)
Lemma quantile_half_median rnd xs :
  (length xs ≤ clickhouse.reservoir_size)%nat →
  clickhouse.quantile_half (foldl (clickhouse.agg_add rnd) clickhouse.agg_empty xs)
  = pd.group_median xs.
Proof.
  intros Hle. destruct (agg_state_fold rnd xs) as (_ & _ & _ & _ & _ & _ & H7).
  unfold clickhouse.quantile_half, pd.group_median. rewrite H7 by done. cbv zeta.
  set (s := merge_sort Qcle xs). set (n := length s).
  destruct (n =? 0)%nat eqn:H0.
  { apply Nat.eqb_eq in H0. rewrite H0. simpl.
    destruct s; [done|]. subst n. done. }
  apply Nat.eqb_neq in H0.
  destruct (n `mod` 2 =? 1)%nat eqn:Hodd.
  - apply Nat.eqb_eq in Hodd. destruct (half_odd n Hodd) as [-> ->]. reflexivity.
  - apply Nat.eqb_neq in Hodd. destruct (half_even n H0 Hodd) as (-> & -> & Hh).
    change (1 =? 0)%nat with false. cbv iota.
    replace (S (n / 2 - 1)) with (n / 2)%nat by lia.
    destruct (s !! (n / 2 - 1)%nat) as [a|]; [|done].
    destruct (s !! (n / 2)%nat) as [b|]; [|done]. csimpl.
    f_equal. rewrite qfrac_half, qz_2. field. exact two_nonzero.
Qed.

Lemma values_of_absent k (rows : list (Qc * Qc)) :
  k ∉ rows.*1 → filter (λ kv : Qc * Qc, kv.1 = k) rows = [].
Proof.
  intros Hk. induction rows as [|[k' v] rows IH]; [done|].
  rewrite filter_cons_False; [apply IH|]; set_solver.
Qed.

(** GROUP BY holds, for each key that occurs, the state fed with the values
    of that key's rows in table order. *)
Lemma group_by_lookup rng rows k :
  clickhouse.group_by rng rows !! k =
    if decide (k ∈ rows.*1)
    then Some (foldl (clickhouse.agg_add (rng k)) clickhouse.agg_empty (values_of k rows))
    else None.
Proof.
  unfold clickhouse.group_by, values_of.
  induction rows as [|[k' v] rows IH] using rev_ind; [done|].
  rewrite foldl_snoc, fmap_app, filter_app, fmap_app, foldl_app. simpl.
  set (m := foldl _ ∅ rows) in *.
  destruct (decide (k' = k)) as [->|Hne].
  - rewrite lookup_insert_eq.
    rewrite decide_True by (apply elem_of_app; right; left).
    rewrite (filter_cons_True _ (k, v)) by reflexivity. rewrite filter_nil. simpl.
    rewrite IH. case_decide as Hin; [done|].
    rewrite values_of_absent by done. done.
  - rewrite lookup_insert_ne by done. rewrite IH.
    rewrite (filter_cons_False _ (k', v)) by (simpl; congruence). rewrite filter_nil. simpl.
    apply decide_ext. rewrite elem_of_app, list_elem_of_singleton. naive_solver.
Qed.

Lemma group_by_keys rng rows :
  (map_to_list (clickhouse.group_by rng rows)).*1 ≡ₚ remove_dups rows.*1.
Proof.
  apply NoDup_Permutation.
  - apply NoDup_fst_map_to_list.
  - apply NoDup_remove_dups.
  - intros k. rewrite elem_of_remove_dups, list_elem_of_fmap. split.
    + intros ([k' st] & -> & Hin). apply elem_of_map_to_list in Hin. simpl.
      rewrite group_by_lookup in Hin. by case_decide.
    + intros Hin. pose proof (group_by_lookup rng rows k) as Hl.
      rewrite decide_True in Hl by done.
      eexists (k, _). split; [done|]. by apply elem_of_map_to_list.
Qed.

Lemma merge_sort_perm (xs ys : list Qc) : xs ≡ₚ ys → merge_sort Qcle xs = merge_sort Qcle ys.
Proof.
  intros Hp. apply (Sorted_unique Qcle).
  - apply Sorted_merge_sort, _.
  - apply Sorted_merge_sort, _.
  - by rewrite !merge_sort_Permutation.
Qed.

Lemma result_rows_group_by rng rows :
  clickhouse.result_rows (clickhouse.group_by rng rows) =
    (λ k, let st := foldl (clickhouse.agg_add (rng k)) clickhouse.agg_empty (values_of k rows) in
          (Some k, clickhouse.avg st, clickhouse.quantile_half st, clickhouse.varSamp st))
    <$> merge_sort Qcle (remove_dups rows.*1).
Proof.
  unfold clickhouse.result_rows.
  rewrite (merge_sort_perm _ _ (group_by_keys rng rows)).
  assert (Forall (λ k, k ∈ rows.*1) (merge_sort Qcle (remove_dups rows.*1))) as Hall.
  { apply Forall_forall. intros k. rewrite merge_sort_Permutation, elem_of_remove_dups. done. }
  induction Hall as [|k idx Hk Hall IH]; [done|].
  csimpl. rewrite group_by_lookup, decide_True by done. csimpl. by rewrite IH.
Qed.

Lemma getcol_as_frame name t :
  pd.getcol name (as_frame t) =
    match clickhouse.tcol name t with
    | Some c => Ok (Some <$> c)
    | None => Err (KeyError name)
    end.
Proof.
  unfold pd.getcol, clickhouse.tcol, as_frame.
  induction t as [|[n c] t IH]; [done|].
  csimpl. case_decide; [done|].
  csimpl in *.
  destruct (list_find (λ c0 : string * list pd.cell, c0.1 = name) _) as [[i [n1 c1]]|] eqn:H1;
  destruct (list_find (λ c0 : string * list Qc, c0.1 = name) t) as [[j [n2 c2]]|] eqn:H2;
    csimpl in *; try done.
Qed.

Lemma omap_id_Some (ks : list Qc) : omap id (Some <$> ks) = ks.
Proof. induction ks; csimpl; congruence. Qed.

Lemma group_values_as_frame k (ks vs : list Qc) :
  pd.group_values k (Some <$> ks) (Some <$> vs) = values_of k (zip ks vs).
Proof.
  unfold pd.group_values, values_of.
  revert vs. induction ks as [|k' ks IH]; intros [|v vs]; try done.
  csimpl. rewrite filter_cons. simpl. rewrite IH.
  destruct (decide (k' = k)) as [->|Hne].
  - by rewrite decide_True.
  - rewrite decide_False by congruence. done.
Qed.

Lemma local_remote_frames rng t ks vs :
  clickhouse.tcol "passenger_count" t = Some ks →
  clickhouse.tcol "fare_amount" t = Some vs →
  length ks = length vs →
  (∀ k, (length (values_of k (zip ks vs)) ≤ clickhouse.reservoir_size)%nat) →
  compute (as_frame t) =
    bind (clickhouse.aggregate rng t) (λ rows,
      Ok (pd.of_rows4 rows "passenger_count" "mean_fare" "median_fare" "variance_fare")).
Proof.
  intros Hks Hvs Hlen Hsmall.
  unfold compute, aggregate, pd.groupby_agg, clickhouse.aggregate.
  rewrite !getcol_as_frame, Hks, Hvs. simpl.
  unfold pd.reset_index, pd.of_rows4. simpl.
  rewrite result_rows_group_by.
  unfold pd.group_index, pd.uniques. rewrite omap_id_Some.
  rewrite fst_zip by lia.
  set (idx := merge_sort Qcle (remove_dups ks)).
  rewrite <-!list_fmap_compose. 
  f_equal.
  repeat match goal with
  | |- (_, ?f <$> idx) :: _ = (_, ?g <$> idx) :: _ =>
      let E := fresh "E" in
      assert (f <$> idx = g <$> idx) as E;
        [apply list_fmap_ext; intros _ k _; simpl|rewrite E; clear E; f_equal]
  end.
  - done.
  - by rewrite group_values_as_frame, avg_mean, group_mean_mean.
  - by rewrite group_values_as_frame, quantile_half_median.
  - by rewrite group_values_as_frame, varSamp_sample_variance, group_var_sample_variance.
Qed.

(** ** Traces of external calls *)

Lemma extends_refl w : extends w w [].
Proof. done. Qed.

Lemma extends_trans w w1 w2 e1 e2 :
  extends w w1 e1 → extends w1 w2 e2 → extends w w2 (e1 ++ e2).
Proof.
  intros [H1 H1'] [H2 H2']. split; [|congruence].
  by rewrite H2, H1, rev_app_distr, app_assoc.
Qed.

Section traced.
Context {S : Type} (wof : S → World).

Lemma traced_ret {A} (a : A) : traced wof (mret a) [].
Proof. intros s s' r [= <- <-]. by exists []. Qed.

Lemma traced_lift_result {A} (x : result A) : traced wof (lift_result x) [].
Proof. intros s s' r [= <- <-]. by exists []. Qed.

Lemma traced_bind {A B} (m : M S A) (k : A → M S B) T1 T2 :
  traced wof m T1 → (∀ a, traced wof (k a) T2) → traced wof (m ≫= k) (T1 ++ T2).
Proof.
  intros Hm Hk s s' r Hrun. unfold mbind, M_bind in Hrun.
  destruct (m s) as [s1 [a|e]] eqn:Hms.
  - destruct (Hm _ _ _ Hms) as (e1 & Hx1 & _ & Hok1). rewrite (Hok1 eq_refl) in Hx1.
    destruct (Hk a _ _ _ Hrun) as (e2 & Hx2 & Hp2 & Hok2).
    exists (T1 ++ e2). split; [by eapply extends_trans|].
    split; [by apply prefix_app|]. intros Hr. by rewrite Hok2.
  - injection Hrun as <- <-.
    destruct (Hm _ _ _ Hms) as (e1 & Hx1 & Hp1 & _).
    exists e1. split; [done|]. split; [|done]. by apply prefix_app_r.
Qed.

Lemma traced_for_each (body : nat → M S ()) (T : nat → list event) idx :
  (∀ i, traced wof (body i) (T i)) →
  traced wof (for_each idx body) (concat (T <$> idx)).
Proof.
  intros Hb. induction idx as [|i idx IH]; simpl.
  - apply traced_ret.
  - apply traced_bind; [apply Hb|]. intros _. apply IH.
Qed.

Lemma traced_if {A} (b : bool) (m1 m2 : M S A) T1 T2 :
  traced wof m1 T1 → traced wof m2 T2 →
  traced wof (if b then m1 else m2) (if b then T1 else T2).
Proof. by destruct b. Qed.
End traced.

Lemma traced_liftW {L A} (m : M World A) T :
  traced id m T → traced (snd : L * World → World) (liftW m) T.
Proof.
  intros Hm [l w] s' r Hrun. unfold liftW in Hrun. simpl in Hrun.
  destruct (m w) as [w' r'] eqn:Hmw. injection Hrun as <- <-.
  apply (Hm _ _ _ Hmw).
Qed.

Lemma traced_assign {L} (f : L → L) : traced (snd : L * World → World) (assign f) [].
Proof. intros [l w] s' r [= <- <-]. by exists []. Qed.

Lemma traced_with_locals {L} (init : L) body T :
  traced (snd : L * World → World) body T → traced id (with_locals init body) T.
Proof.
  intros Hb w w' r Hrun. unfold with_locals in Hrun.
  destruct (body (init, w)) as [s rb] eqn:Hbw. injection Hrun as <- <-.
  destruct (Hb _ _ _ Hbw) as (evs & Hx & Hp & Hok).
  exists evs. split; [done|]. split; [done|]. intros Hr. apply Hok. by destruct rb.
Qed.

Section calls.
Context (env : Env).

Lemma traced_external {A} ev (run : nat → World → World * result A) :
  (∀ n w, w_log (run n w).1 = w_log w ∧ w_tables (run n w).1 = w_tables w) →
  traced id (external env ev run) [ev].
Proof.
  intros Hrun w w' r. unfold external.
  destruct (e_fault env (calls w)).
  - intros [= <- <-]. by exists [ev].
  - intros Hr. exists [ev]. destruct (Hrun (calls w) (log_event ev w)) as [H1 H2].
    rewrite Hr in H1, H2. done.
Qed.

Lemma traced_perf_counter : traced id (perf_counter env) [EvPerfCounter].
Proof. intros w w' r [= <- <-]. by exists [EvPerfCounter]. Qed.

Lemma traced_read_csv path usecols :
  traced id (read_csv env path usecols) [EvReadCsv path usecols].
Proof. apply traced_external. intros n w. by destruct (w_files w !! path). Qed.

Lemma traced_to_csv df path : traced id (to_csv env df path) [EvToCsv path].
Proof. by apply traced_external. Qed.

Lemma traced_client_query c db tbl : traced id (client_query env c db tbl) [EvQuery db tbl].
Proof. apply traced_external. intros n w. by destruct (w_tables w !! (db, tbl)). Qed.

Lemma traced_get_client h p u pw : traced id (get_client env h p u pw) [EvGetClient h p].
Proof. by apply traced_external. Qed.

Lemma traced_load csv usecols : traced id (load env csv usecols) [read_event csv usecols].
Proof. unfold load, read_event. destruct (truthy usecols); apply traced_read_csv. Qed.

Ltac traced_step :=
  lazymatch goal with
  | |- traced _ (mbind _ _) _ => eapply traced_bind; [|intros ?]
  | |- traced _ (liftW _) _ => apply traced_liftW
  | |- traced _ (perf_counter _) _ => apply traced_perf_counter
  | |- traced _ (load _ _ _) _ => apply traced_load
  | |- traced _ (to_csv _ _ _) _ => apply traced_to_csv
  | |- traced _ (client_query _ _ _ _) _ => apply traced_client_query
  | |- traced _ (get_client _ _ _ _ _) _ => apply traced_get_client
  | |- traced _ (lift_result _) _ => apply traced_lift_result
  | |- traced _ (assign _) _ => apply traced_assign
  | |- traced _ (mret _) _ => apply traced_ret
  | |- traced _ (if _ then _ else _) _ => eapply traced_if
  end.

Lemma traced_eq {S A} (wof : S → World) (m : M S A) T T' :
  traced wof m T → T = T' → traced wof m T'.
Proof. by intros ? <-. Qed.

Lemma traced_pandas_iteration csv out usecols n i :
  traced snd (pandas_iteration env csv out usecols n i)
    (pandas_iter_events csv out usecols (Z.of_nat i =? n - 1)%Z).
Proof.
  eapply traced_eq.
  - unfold pandas_iteration. repeat traced_step.
  - unfold pandas_iter_events. by destruct (Z.of_nat i =? n - 1)%Z.
Qed.
End calls.

(** ** Running the harness *)

Arguments load : simpl never.
Arguments compute : simpl never.
Arguments to_csv : simpl never.
Arguments client_query : simpl never.
Arguments calls : simpl never.
Arguments log_event : simpl never.
Arguments perf_counter : simpl never.

Lemma bind_run {S A B} (m : M S A) (k : A → M S B) s :
  (m ≫= k) s = match m s with (s', Ok a) => k a s' | (s', Err e) => (s', Err e) end.
Proof. reflexivity. Qed.

Lemma liftW_run {L A} (m : M World A) (l : L) w :
  liftW m (l, w) = ((l, (m w).1), (m w).2).
Proof. unfold liftW. simpl. by destruct (m w). Qed.

Lemma calls_log_event ev w : calls (log_event ev w) = S (calls w).
Proof. reflexivity. Qed.

Lemma files_log_event ev w : w_files (log_event ev w) = w_files w.
Proof. reflexivity. Qed.

Lemma for_each_cons {S} i idx (body : nat → M S ()) s :
  for_each (i :: idx) body s =
    match body i s with
    | (s', Ok _) => for_each idx body s'
    | (s', Err e) => (s', Err e)
    end.
Proof. reflexivity. Qed.

Lemma for_each_app {S} idx1 idx2 (body : nat → M S ()) s :
  for_each (idx1 ++ idx2) body s =
    match for_each idx1 body s with
    | (s', Ok _) => for_each idx2 body s'
    | (s', Err e) => (s', Err e)
    end.
Proof.
  revert s. induction idx1 as [|i idx1 IH]; intros s; [done|].
  simpl app. rewrite !for_each_cons. destruct (body i s) as [s1 [[]|e]]; [apply IH|done].
Qed.

Section runs.
Context (env : Env).

Lemma perf_counter_run w :
  perf_counter env w = (log_event EvPerfCounter w, Ok (e_clock env (calls w))).
Proof. reflexivity. Qed.

Lemma load_run csv usecols w :
  load env csv usecols w =
    (log_event (read_event csv usecols) w,
     match e_fault env (calls w) with
     | Some e => Err e
     | None => loaded (w_files w) csv usecols
     end).
Proof.
  unfold load, read_event, loaded, read_csv, external.
  destruct (truthy usecols) eqn:Ht; simpl;
    destruct (e_fault env (calls w)); simpl; try done;
    destruct (w_files w !! csv); simpl; try done.
Qed.

Lemma to_csv_run df path w :
  to_csv env df path w =
    match e_fault env (calls w) with
    | Some e => (log_event (EvToCsv path) w, Err e)
    | None =>
        (MkWorld (<[path := df]> (w_files w)) (w_tables w) (EvToCsv path :: w_log w), Ok ())
    end.
Proof. reflexivity. Qed.

Lemma client_query_run c db tbl w :
  client_query env c db tbl w =
    (log_event (EvQuery db tbl) w,
     match e_fault env (calls w) with
     | Some e => Err e
     | None => queried (w_tables w) db tbl (e_rng env (calls w))
     end).
Proof.
  unfold client_query, external, queried.
  destruct (e_fault env (calls w)); [done|]. simpl.
  by destruct (w_tables w !! (db, tbl)).
Qed.

Ltac mstep :=
  rewrite ?bind_run, ?liftW_run, ?perf_counter_run, ?load_run, ?to_csv_run,
    ?client_query_run, ?calls_log_event, ?files_log_event; simpl.

Ltac destruct_fault :=
  match goal with
  | |- context [e_fault env ?n] => destruct (e_fault env n) eqn:?; simpl
  end.

(** A measured iteration that returns. *)
Lemma pandas_iteration_ok csv out usecols n i l w s' :
  pandas_iteration env csv out usecols n i (l, w) = (s', Ok ()) →
  let c := calls w in
  let load_elapsed := (e_clock env (2 + c) - e_clock env c)%Qc in
  let compute_elapsed := (e_clock env (4 + c) - e_clock env (3 + c))%Qc in
  ∃ df grouped,
    loaded (w_files w) csv usecols = Ok df ∧
    compute df = Ok grouped ∧
    s'.1 = PandasRun.MkLocals
             (PandasRun.load_times l ++ [load_elapsed])
             (PandasRun.compute_times l ++ [compute_elapsed])
             (PandasRun.total_times l ++ [(load_elapsed + compute_elapsed)%Qc])
             (if is_last n i then Some grouped else PandasRun.results_df l) ∧
    w_files s'.2 = (if is_last n i then <[out := grouped]> (w_files w) else w_files w).
Proof.
  unfold pandas_iteration, is_last. repeat mstep.
  destruct (e_fault env (S (calls w))) eqn:Hf; simpl; [done|].
  destruct (loaded (w_files w) csv usecols) as [df|] eqn:Hl; simpl; [|done].
  repeat mstep.
  destruct (compute df) as [g|] eqn:Hc; simpl; [|done].
  repeat mstep.
  destruct (Z.of_nat i =? n - 1)%Z eqn:Hlast; simpl; repeat mstep.
  - destruct_fault; [done|].
    intros [= <-]. exists df, g. done.
  - intros [= <-]. exists df, g. done.
Qed.

Lemma clickhouse_iteration_ok c db tbl out n i l w s' :
  clickhouse_iteration env c db tbl out n i (l, w) = (s', Ok ()) →
  let k := calls w in
  let last := is_last n i in
  let k' := if last then S k else k in
  let query_elapsed := (e_clock env (2 + k) - e_clock env k)%Qc in
  let save_elapsed := (e_clock env (4 + k') - e_clock env (3 + k))%Qc in
  ∃ rows,
    queried (w_tables w) db tbl (e_rng env (S k)) = Ok rows ∧
    let df := pd.of_rows4 rows "passenger_count" "mean_fare" "median_fare" "variance_fare" in
    s'.1 = ClickHouseRun.MkLocals
             (ClickHouseRun.query_times l ++ [query_elapsed])
             (ClickHouseRun.save_times l ++ [save_elapsed])
             (ClickHouseRun.total_times l ++ [(query_elapsed + save_elapsed)%Qc])
             (Some df) ∧
    w_files s'.2 = (if last then <[out := df]> (w_files w) else w_files w) ∧
    w_tables s'.2 = w_tables w.
Proof.
  unfold clickhouse_iteration, is_last. repeat mstep.
  destruct (e_fault env (S (calls w))) eqn:Hf; simpl; [done|].
  destruct (queried _ _ _ _) as [rows|] eqn:Hq; simpl; [|done].
  repeat mstep.
  destruct (Z.of_nat i =? n - 1)%Z eqn:Hlast; simpl; repeat mstep.
  - destruct_fault; [done|].
    repeat mstep. intros [= <-]. exists rows. done.
  - intros [= <-]. exists rows. done.
Qed.

Lemma is_last_spec n i : is_last n i = true ↔ S i = Z.to_nat n.
Proof. unfold is_last. rewrite Z.eqb_eq. lia. Qed.

Lemma for_each_invariant {S} (P : S → Prop) (body : nat → M S ()) idx s s' r :
  (∀ i s s' r, body i s = (s', r) → P s → P s') →
  for_each idx body s = (s', r) → P s → P s'.
Proof.
  intros Hb. revert s. induction idx as [|i idx IH]; intros s.
  - by intros [= <- <-].
  - rewrite for_each_cons. destruct (body i s) as [s1 [[]|e]] eqn:Hbody.
    + intros Hrest Hs. apply (IH s1 Hrest). by eapply Hb.
    + intros [= <- <-] Hs. by eapply Hb.
Qed.

Lemma pandas_warmup_files csv usecols wu w w1 r :
  pandas_warmup env csv usecols wu w = (w1, r) → w_files w1 = w_files w.
Proof.
  unfold pandas_warmup. destruct (0 <? wu)%Z; [|by intros [= <- <-]].
  unfold for_range. intros Hrun.
  apply (for_each_invariant (λ w', w_files w' = w_files w) _ _ _ _ _) in Hrun; [done| |done].
  clear. intros i s s' r. repeat mstep.
  destruct (e_fault env (calls s)); simpl; [by intros [= <- <-]|].
  destruct (loaded _ _ _); simpl; [|by intros [= <- <-]].
  unfold lift_result. destruct (aggregate _); simpl; by intros [= <- <-].
Qed.

Lemma clickhouse_warmup_files c db tbl wu w w1 r :
  clickhouse_warmup env c db tbl wu w = (w1, r) →
  w_files w1 = w_files w ∧ w_tables w1 = w_tables w.
Proof.
  unfold clickhouse_warmup. destruct (0 <? wu)%Z; [|by intros [= <- <-]].
  unfold for_range. intros Hrun.
  apply (for_each_invariant
           (λ w', w_files w' = w_files w ∧ w_tables w' = w_tables w) _ _ _ _ _) in Hrun;
    [done| |done].
  clear. intros i s s' r. repeat mstep.
  destruct (e_fault env (calls s)); simpl; [by intros [= <- <-]|].
  destruct (queried _ _ _ _); simpl; by intros [= <- <-].
Qed.

(** The measured iterations [a .. a + k - 1], when all of them return. *)
Lemma pandas_loop_ok csv out usecols n k : ∀ a l w s',
  (a + k ≤ Z.to_nat n)%nat →
  for_each (seq a k) (pandas_iteration env csv out usecols n) (l, w) = (s', Ok ()) →
  ∃ lt ct,
    length lt = k ∧ length ct = k ∧
    PandasRun.load_times s'.1 = PandasRun.load_times l ++ lt ∧
    PandasRun.compute_times s'.1 = PandasRun.compute_times l ++ ct ∧
    PandasRun.total_times s'.1 = PandasRun.total_times l ++ zip_with Qcplus lt ct ∧
    ((a + k)%nat = Z.to_nat n → k ≠ 0%nat →
       ∃ df grouped,
         loaded (w_files w) csv usecols = Ok df ∧ compute df = Ok grouped ∧
         PandasRun.results_df s'.1 = Some grouped ∧
         w_files s'.2 = <[out := grouped]> (w_files w)) ∧
    ((a + k < Z.to_nat n)%nat ∨ k = 0%nat →
       PandasRun.results_df s'.1 = PandasRun.results_df l ∧ w_files s'.2 = w_files w).
Proof.
  induction k as [|k IH]; intros a l w s' Hle.
  - intros [= <-]. exists [], []. rewrite !app_nil_r. split_and!; try done; lia.
  - simpl seq. rewrite for_each_cons.
    destruct (pandas_iteration _ _ _ _ _ _ _) as [[l1 w1] [[]|e]] eqn:Hit; [|done].
    intros Hrest.
    destruct (pandas_iteration_ok _ _ _ _ _ _ _ _ Hit) as (df & g & Hload & Hcomp & Hl1 & Hw1).
    simpl in Hl1, Hw1.
    destruct (IH (S a) l1 w1 s' ltac:(lia) Hrest)
      as (lt & ct & Hlt & Hct & H1 & H2 & H3 & Hlast & Hnot).
    subst l1. simpl in *.
    eexists (_ :: lt), (_ :: ct). simpl.
    rewrite H1, H2, H3, <-!app_assoc. simpl.
    split_and!; try done; try lia.
    + intros Hend _. destruct (decide (k = 0%nat)) as [->|Hk].
      * destruct (Hnot (or_intror eq_refl)) as [Hr Hf].
        assert (is_last n a = true) as Hla by (apply is_last_spec; lia).
        rewrite Hla in *. exists df, g. by rewrite Hr, Hf, Hw1.
      * assert (is_last n a = false) as Hla.
        { apply not_true_is_false. rewrite is_last_spec. lia. }
        rewrite Hla in *. rewrite Hw1 in Hlast.
        apply Hlast; [lia|done].
    + intros [Hlt'|?]; [|done].
      assert (is_last n a = false) as Hla.
      { apply not_true_is_false. rewrite is_last_spec. lia. }
      rewrite Hla in *. rewrite Hw1 in Hnot.
      apply Hnot. destruct k; [by right|left; lia].
Qed.

Lemma clickhouse_loop_ok c db tbl out n k : ∀ a l w s',
  (a + k ≤ Z.to_nat n)%nat →
  for_each (seq a k) (clickhouse_iteration env c db tbl out n) (l, w) = (s', Ok ()) →
  ∃ qt st,
    length qt = k ∧ length st = k ∧
    ClickHouseRun.query_times s'.1 = ClickHouseRun.query_times l ++ qt ∧
    ClickHouseRun.save_times s'.1 = ClickHouseRun.save_times l ++ st ∧
    ClickHouseRun.total_times s'.1 = ClickHouseRun.total_times l ++ zip_with Qcplus qt st ∧
    w_tables s'.2 = w_tables w ∧
    (k ≠ 0%nat →
       ∃ j rows,
         queried (w_tables w) db tbl (e_rng env j) = Ok rows ∧
         let df := pd.of_rows4 rows "passenger_count" "mean_fare" "median_fare" "variance_fare" in
         ClickHouseRun.results_df s'.1 = Some df ∧
         ((a + k)%nat = Z.to_nat n → w_files s'.2 = <[out := df]> (w_files w)) ∧
         ((a + k < Z.to_nat n)%nat → w_files s'.2 = w_files w)) ∧
    (k = 0%nat → s' = (l, w)).
Proof.
  induction k as [|k IH]; intros a l w s' Hle.
  - intros [= <-]. exists [], []. rewrite !app_nil_r. split_and!; done.
  - simpl seq. rewrite for_each_cons.
    destruct (clickhouse_iteration _ _ _ _ _ _ _ _) as [[l1 w1] [[]|e]] eqn:Hit; [|done].
    intros Hrest.
    destruct (clickhouse_iteration_ok _ _ _ _ _ _ _ _ _ Hit) as (rows & Hq & Hl1 & Hw1 & Ht1).
    simpl in Hl1, Hw1, Ht1.
    destruct (IH (S a) l1 w1 s' ltac:(lia) Hrest)
      as (qt & st & Hqt & Hst & H1 & H2 & H3 & Ht & Hlast & Hnone).
    subst l1. simpl in *.
    eexists (_ :: qt), (_ :: st). simpl.
    rewrite H1, H2, H3, <-!app_assoc. simpl.
    split_and!; try done; try lia; [congruence|].
    intros _. destruct (decide (k = 0%nat)) as [->|Hk].
    + rewrite (Hnone eq_refl). simpl. eexists _, rows. split; [done|].
      split; [done|]. split.
      * intros Hend. assert (is_last n a = true) as Hla by (apply is_last_spec; lia).
        by rewrite Hla in Hw1.
      * intros Hlt. assert (is_last n a = false) as Hla.
        { apply not_true_is_false. rewrite is_last_spec. lia. }
        by rewrite Hla in Hw1.
    + assert (is_last n a = false) as Hla.
      { apply not_true_is_false. rewrite is_last_spec. lia. }
      rewrite Hla in Hw1. destruct (Hlast Hk) as (j & rows' & Hq' & Hr & Hf1 & Hf2).
      rewrite Ht1 in Hq'. rewrite Hw1 in Hf1, Hf2.
      exists j, rows'. split_and!; [done|done| |].
      * intros ?. apply Hf1. lia.
      * intros ?. apply Hf2. lia.
Qed.

Lemma benchmark_pandas_run csv out usecols n wu w :
  benchmark_pandas_approach env csv out usecols n wu w =
    match pandas_warmup env csv usecols wu w with
    | (w1, Err e) => (w1, Err e)
    | (w1, Ok _) =>
        match pandas_loop env csv out usecols n (pandas_init, w1) with
        | (s, Err e) => (s.2, Err e)
        | (s, Ok _) => (s.2, pandas_summary s.1)
        end
    end.
Proof.
  unfold benchmark_pandas_approach. rewrite bind_run.
  destruct (pandas_warmup _ _ _ _ _) as [w1 [[]|e]]; [|done].
  rewrite bind_run. unfold with_locals.
  by destruct (pandas_loop _ _ _ _ _ _) as [s [[]|e]].
Qed.

Lemma benchmark_clickhouse_run c db tbl out n wu w :
  benchmark_clickhouse_approach env c db tbl out n wu w =
    match clickhouse_warmup env c db tbl wu w with
    | (w1, Err e) => (w1, Err e)
    | (w1, Ok _) =>
        match clickhouse_loop env c db tbl out n (clickhouse_init, w1) with
        | (s, Err e) => (s.2, Err e)
        | (s, Ok _) => (s.2, clickhouse_summary s.1)
        end
    end.
Proof.
  unfold benchmark_clickhouse_approach. rewrite bind_run.
  destruct (clickhouse_warmup _ _ _ _ _ _) as [w1 [[]|e]]; [|done].
  rewrite bind_run. unfold with_locals.
  by destruct (clickhouse_loop _ _ _ _ _ _ _) as [s [[]|e]].
Qed.

Lemma bind_ok_inv {A B} (r : result A) (k : A → result B) b :
  bind r k = Ok b → ∃ a, r = Ok a ∧ k a = Ok b.
Proof. destruct r as [a|]; [|done]. intros H. by exists a. Qed.

Ltac bind_inv H :=
  repeat (let a := fresh "x" in let Ha := fresh "Hx" in
          apply bind_ok_inv in H as (a & Ha & H)).

Lemma pandas_summary_ok l st :
  pandas_summary l = Ok st →
  PandasRun.samples st = l ∧
  statistics.mean (PandasRun.load_times l) = Ok (PandasRun.load_mean st) ∧
  statistics.mean (PandasRun.compute_times l) = Ok (PandasRun.compute_mean st) ∧
  statistics.mean (PandasRun.total_times l) = Ok (PandasRun.total_mean st) ∧
  statistics.median (PandasRun.load_times l) = Ok (PandasRun.load_median st) ∧
  statistics.median (PandasRun.compute_times l) = Ok (PandasRun.compute_median st) ∧
  statistics.median (PandasRun.total_times l) = Ok (PandasRun.total_median st) ∧
  Py.min (PandasRun.load_times l) = Ok (PandasRun.load_min st) ∧
  Py.min (PandasRun.compute_times l) = Ok (PandasRun.compute_min st) ∧
  Py.min (PandasRun.total_times l) = Ok (PandasRun.total_min st) ∧
  Py.max (PandasRun.load_times l) = Ok (PandasRun.load_max st) ∧
  Py.max (PandasRun.compute_times l) = Ok (PandasRun.compute_max st) ∧
  Py.max (PandasRun.total_times l) = Ok (PandasRun.total_max st).
Proof.
  unfold pandas_summary. cbv zeta. intros H. bind_inv H.
  injection H as <-. simpl. split_and!; done.
Qed.

Lemma clickhouse_summary_ok l st :
  clickhouse_summary l = Ok st →
  ClickHouseRun.samples st = l ∧
  statistics.mean (ClickHouseRun.query_times l) = Ok (ClickHouseRun.query_mean st) ∧
  statistics.mean (ClickHouseRun.save_times l) = Ok (ClickHouseRun.save_mean st) ∧
  statistics.mean (ClickHouseRun.total_times l) = Ok (ClickHouseRun.total_mean st) ∧
  statistics.median (ClickHouseRun.query_times l) = Ok (ClickHouseRun.query_median st) ∧
  statistics.median (ClickHouseRun.save_times l) = Ok (ClickHouseRun.save_median st) ∧
  statistics.median (ClickHouseRun.total_times l) = Ok (ClickHouseRun.total_median st) ∧
  Py.min (ClickHouseRun.query_times l) = Ok (ClickHouseRun.query_min st) ∧
  Py.min (ClickHouseRun.save_times l) = Ok (ClickHouseRun.save_min st) ∧
  Py.min (ClickHouseRun.total_times l) = Ok (ClickHouseRun.total_min st) ∧
  Py.max (ClickHouseRun.query_times l) = Ok (ClickHouseRun.query_max st) ∧
  Py.max (ClickHouseRun.save_times l) = Ok (ClickHouseRun.save_max st) ∧
  Py.max (ClickHouseRun.total_times l) = Ok (ClickHouseRun.total_max st) ∧
  ClickHouseRun.mean st = ClickHouseRun.query_mean st.
Proof.
  unfold clickhouse_summary. cbv zeta. intros H. bind_inv H.
  injection H as <-. simpl. split_and!; try done. congruence.
Qed.

Lemma mean_nonempty xs m : statistics.mean xs = Ok m → xs ≠ [].
Proof. by destruct xs. Qed.

(** A run of the pandas path that returns. *)
Lemma benchmark_pandas_ok csv out usecols n wu w w' st :
  benchmark_pandas_approach env csv out usecols n wu w = (w', Ok st) →
  (1 ≤ n)%Z ∧
  pandas_summary (PandasRun.samples st) = Ok st ∧
  length (PandasRun.load_times (PandasRun.samples st)) = Z.to_nat n ∧
  length (PandasRun.compute_times (PandasRun.samples st)) = Z.to_nat n ∧
  PandasRun.total_times (PandasRun.samples st) =
    zip_with Qcplus (PandasRun.load_times (PandasRun.samples st))
                    (PandasRun.compute_times (PandasRun.samples st)) ∧
  ∃ df grouped,
    loaded (w_files w) csv usecols = Ok df ∧ compute df = Ok grouped ∧
    PandasRun.results_df (PandasRun.samples st) = Some grouped ∧
    w_files w' = <[out := grouped]> (w_files w).
Proof.
  rewrite benchmark_pandas_run.
  destruct (pandas_warmup _ _ _ _ _) as [w1 [[]|e]] eqn:Hwarm; [|done].
  apply pandas_warmup_files in Hwarm.
  destruct (pandas_loop _ _ _ _ _ _) as [s [[]|e]] eqn:Hloop; [|done].
  intros [= <- Hsum].
  destruct (pandas_summary_ok _ _ Hsum) as (Hsam & Hmean & _).
  apply (pandas_loop_ok _ _ _ _ _ 0) in Hloop as
    (lt & ct & Hlt & Hct & H1 & H2 & H3 & Hlast & _); [|lia].
  simpl in H1, H2, H3. rewrite Hsam, H1, H2, H3.
  assert (Z.to_nat n ≠ 0%nat) as Hn.
  { intros Hz. rewrite H1 in Hmean. apply mean_nonempty in Hmean.
    rewrite Hz in Hlt. by destruct lt. }
  split; [lia|]. split; [done|]. split; [done|]. split; [done|].
  split; [done|]. rewrite <-Hwarm. by apply Hlast.
Qed.

(** A run of the ClickHouse path that returns. *)
Lemma benchmark_clickhouse_ok c db tbl out n wu w w' st :
  benchmark_clickhouse_approach env c db tbl out n wu w = (w', Ok st) →
  (1 ≤ n)%Z ∧
  clickhouse_summary (ClickHouseRun.samples st) = Ok st ∧
  length (ClickHouseRun.query_times (ClickHouseRun.samples st)) = Z.to_nat n ∧
  length (ClickHouseRun.save_times (ClickHouseRun.samples st)) = Z.to_nat n ∧
  ClickHouseRun.total_times (ClickHouseRun.samples st) =
    zip_with Qcplus (ClickHouseRun.query_times (ClickHouseRun.samples st))
                    (ClickHouseRun.save_times (ClickHouseRun.samples st)) ∧
  w_tables w' = w_tables w ∧
  ∃ j rows,
    queried (w_tables w) db tbl (e_rng env j) = Ok rows ∧
    let df := pd.of_rows4 rows "passenger_count" "mean_fare" "median_fare" "variance_fare" in
    ClickHouseRun.results_df (ClickHouseRun.samples st) = Some df ∧
    w_files w' = <[out := df]> (w_files w).
Proof.
  rewrite benchmark_clickhouse_run.
  destruct (clickhouse_warmup _ _ _ _ _ _) as [w1 [[]|e]] eqn:Hwarm; [|done].
  apply clickhouse_warmup_files in Hwarm as [Hwf Hwt].
  destruct (clickhouse_loop _ _ _ _ _ _ _) as [s [[]|e]] eqn:Hloop; [|done].
  intros [= <- Hsum].
  destruct (clickhouse_summary_ok _ _ Hsum) as (Hsam & Hmean & _).
  apply (clickhouse_loop_ok _ _ _ _ _ _ 0) in Hloop as
    (qt & st' & Hqt & Hst & H1 & H2 & H3 & Ht & Hlast & _); [|lia].
  simpl in H1, H2, H3, Ht, Hlast. rewrite Hsam, H1, H2, H3.
  assert (Z.to_nat n ≠ 0%nat) as Hn.
  { intros Hz. rewrite H1 in Hmean. apply mean_nonempty in Hmean.
    rewrite Hz in Hqt. by destruct qt. }
  split; [lia|]. split; [done|]. split; [done|]. split; [done|].
  split; [done|]. split; [by rewrite Ht|].
  destruct (Hlast Hn) as (j & rows & Hq & Hr & Hf & _).
  exists j, rows. rewrite <-Hwt, <-Hwf. split; [done|]. split; [done|]. by apply Hf.
Qed.

(** The calls of a whole run. *)
Lemma concat_const {A} (l : list A) (idx : list nat) :
  concat ((λ _, l) <$> idx) = concat (replicate (length idx) l).
Proof. induction idx as [|i idx IH]; csimpl; [done|]. by rewrite IH. Qed.

Lemma traced_pandas_warmup csv usecols wu :
  traced id (pandas_warmup env csv usecols wu) (pandas_warmup_events csv usecols wu).
Proof.
  unfold pandas_warmup, pandas_warmup_events.
  destruct (0 <? wu)%Z eqn:Hwu.
  - eapply traced_eq.
    + unfold for_range. apply (traced_for_each id _ (λ _, [read_event csv usecols])).
      intros i. eapply traced_eq.
      * eapply traced_bind; [apply traced_load|]. intros df.
        eapply traced_bind; [apply traced_lift_result|]. intros _. apply traced_ret.
      * done.
    + rewrite concat_const, length_seq. generalize (Z.to_nat wu). clear.
      induction n; simpl; congruence.
  - apply Z.ltb_ge in Hwu. replace (Z.to_nat wu) with 0%nat by lia. apply traced_ret.
Qed.

Lemma traced_clickhouse_warmup c db tbl wu :
  traced id (clickhouse_warmup env c db tbl wu) (clickhouse_warmup_events db tbl wu).
Proof.
  unfold clickhouse_warmup, clickhouse_warmup_events.
  destruct (0 <? wu)%Z eqn:Hwu.
  - eapply traced_eq.
    + unfold for_range. apply (traced_for_each id _ (λ _, [EvQuery db tbl])).
      intros i. eapply traced_eq.
      * eapply traced_bind; [apply traced_client_query|]. intros _. apply traced_ret.
      * done.
    + rewrite concat_const, length_seq. generalize (Z.to_nat wu). clear.
      induction n; simpl; congruence.
  - apply Z.ltb_ge in Hwu. replace (Z.to_nat wu) with 0%nat by lia. apply traced_ret.
Qed.

Lemma traced_clickhouse_iteration c db tbl out n i :
  traced snd (clickhouse_iteration env c db tbl out n i)
    (clickhouse_iter_events db tbl out (is_last n i)).
Proof.
  eapply traced_eq.
  - unfold clickhouse_iteration.
    repeat first
      [ eapply traced_bind; [|intros ?]
      | apply traced_liftW
      | apply traced_perf_counter
      | apply traced_to_csv
      | apply traced_client_query
      | apply traced_assign
      | apply traced_ret
      | eapply traced_if ].
  - unfold clickhouse_iter_events, is_last. by destruct (Z.of_nat i =? n - 1)%Z.
Qed.

Lemma traced_benchmark_pandas csv out usecols n wu :
  traced id (benchmark_pandas_approach env csv out usecols n wu)
    (pandas_warmup_events csv usecols wu ++ pandas_measured_events csv out usecols n).
Proof.
  unfold benchmark_pandas_approach.
  eapply traced_bind; [apply traced_pandas_warmup|]. intros _.
  eapply traced_eq.
  - eapply traced_bind.
    + apply traced_with_locals. unfold pandas_loop, for_range.
      apply (traced_for_each snd _
               (λ i, pandas_iter_events csv out usecols (is_last n i))).
      intros i. apply traced_pandas_iteration.
    + intros l. apply traced_lift_result.
  - by rewrite app_nil_r.
Qed.

Lemma traced_benchmark_clickhouse c db tbl out n wu :
  traced id (benchmark_clickhouse_approach env c db tbl out n wu)
    (clickhouse_warmup_events db tbl wu ++ clickhouse_measured_events db tbl out n).
Proof.
  unfold benchmark_clickhouse_approach.
  eapply traced_bind; [apply traced_clickhouse_warmup|]. intros _.
  eapply traced_eq.
  - eapply traced_bind.
    + apply traced_with_locals. unfold clickhouse_loop, for_range.
      apply (traced_for_each snd _
               (λ i, clickhouse_iter_events db tbl out (is_last n i))).
      intros i. apply traced_clickhouse_iteration.
    + intros l. apply traced_lift_result.
  - by rewrite app_nil_r.
Qed.
End runs.

(** * The claims *)

Lemma is_ok_inv {A} (r : result A) : is_ok r = true → ∃ a, r = Ok a.
Proof. destruct r as [a|e]; [by exists a|done]. Qed.

(** ** The compute phase *)

Lemma spec_group k ks vs : Spec.group k ks vs = pd.group_values k ks vs.
Proof.
  unfold Spec.group, pd.group_values. revert vs.
  induction ks as [|k' ks IH]; intros [|v vs]; try done.
  specialize (IH vs). cbn [zip zip_with]. rewrite filter_cons. csimpl.
  destruct (decide (k' = Some k)) as [->|Hne]; csimpl.
  - rewrite ?decide_True by done. by rewrite IH.
  - rewrite ?decide_False by done. by rewrite IH.
Qed.

Lemma compute_columns df ks vs :
  pd.getcol "passenger_count" df = Ok ks → pd.getcol "fare_amount" df = Ok vs →
  compute df = Ok (aggregation_result (pd.group_index ks) ks vs).
Proof.
  intros Hk Hv. unfold compute, aggregate, pd.groupby_agg. rewrite Hk, Hv. simpl.
  unfold pd.reset_index, aggregation_result. simpl. do 2 f_equal.
  repeat match goal with
  | |- (_, ?f <$> ?idx) :: _ = (_, ?g <$> ?idx) :: _ =>
      let E := fresh "E" in
      assert (f <$> idx = g <$> idx) as E;
        [apply list_fmap_ext; intros _ k _; simpl|rewrite E; clear E; f_equal]
  end.
  - by rewrite spec_group, group_mean_mean.
  - by rewrite spec_group.
  - by rewrite spec_group, group_var_sample_variance.
Qed.

Lemma compute_ok_inv df g :
  compute df = Ok g →
  ∃ ks vs, pd.getcol "passenger_count" df = Ok ks ∧ pd.getcol "fare_amount" df = Ok vs ∧
           g = aggregation_result (pd.group_index ks) ks vs.
Proof.
  intros Hc.
  destruct (pd.getcol "passenger_count" df) as [ks|] eqn:Hk;
    [|by unfold compute, aggregate, pd.groupby_agg in Hc; rewrite Hk in Hc].
  destruct (pd.getcol "fare_amount" df) as [vs|] eqn:Hv;
    [|by unfold compute, aggregate, pd.groupby_agg in Hc; rewrite Hk, Hv in Hc].
  exists ks, vs. rewrite (compute_columns _ _ _ Hk Hv) in Hc. by injection Hc as <-.
Qed.

Lemma sorted_nodup_strict (l : list Qc) :
  Sorted Qcle l → NoDup l → StronglySorted Qclt l.
Proof.
  intros Hs Hn. apply Sorted_StronglySorted in Hs; [|apply _].
  induction l as [|x l IH]; [constructor|].
  apply StronglySorted_cons in Hs as [Hall Hs]. apply NoDup_cons in Hn as [Hx Hn].
  apply StronglySorted_cons. split; [|by apply IH].
  apply Forall_forall. intros y Hy. rewrite Forall_forall in Hall.
  destruct (Qcle_lt_or_eq _ _ (Hall y Hy)) as [Hlt | ->]; [done|by destruct Hx].
Qed.

Lemma sorted_keys_strict (l : list Qc) : StronglySorted Qclt (merge_sort Qcle (remove_dups l)).
Proof.
  apply sorted_nodup_strict.
  - apply Sorted_merge_sort, _.
  - rewrite merge_sort_Permutation. apply NoDup_remove_dups.
Qed.

Lemma elem_of_sorted_keys (l : list Qc) k : k ∈ merge_sort Qcle (remove_dups l) ↔ k ∈ l.
Proof. by rewrite merge_sort_Permutation, elem_of_remove_dups. Qed.

Lemma group_index_strict ks : StronglySorted Qclt (pd.group_index ks).
Proof. apply sorted_keys_strict. Qed.

Lemma elem_of_group_index ks k : k ∈ pd.group_index ks ↔ Some k ∈ ks.
Proof.
  unfold pd.group_index, pd.uniques. rewrite elem_of_sorted_keys, list_elem_of_omap.
  split; [intros (x & Hx & Hid); unfold id in Hid; by subst x|]. intros. by exists (Some k).
Qed.

Lemma group_median_spec xs :
  match pd.group_median xs with
  | Some m => Spec.is_median xs m
  | None => xs = []
  end.
Proof.
  unfold pd.group_median, Spec.is_median. cbv zeta.
  set (s := merge_sort Qcle xs).
  assert (s ≡ₚ xs) as Hp by apply merge_sort_Permutation.
  assert (length s = length xs) as Hlen by by rewrite Hp.
  destruct (length s `mod` 2 =? 1)%nat eqn:Hodd.
  - assert (length s `div` 2 < length s)%nat as Hd.
    { apply Nat.div_lt; [|lia]. apply Nat.eqb_eq in Hodd. destruct (length s); [done|lia]. }
    destruct (lookup_lt_is_Some_2 s _ Hd) as [m Hm]. rewrite Hm.
    exists s. split; [done|]. split; [apply sorted_merge_sort|].
    by rewrite odd_mod2, Hodd.
  - destruct (s !! (length s `div` 2 - 1)%nat) as [a|] eqn:Ha; cbn [mbind option_bind].
    + destruct (s !! (length s `div` 2)%nat) as [b|] eqn:Hb; cbn [mbind option_bind].
      * exists s. split; [done|]. split; [apply sorted_merge_sort|].
        rewrite odd_mod2, Hodd. by exists a, b.
      * apply lookup_lt_Some in Ha. apply lookup_ge_None in Hb.
        apply Nat.eqb_neq in Hodd. destruct (half_even (length s)) as (_ & _ & ?); [lia|done|].
        pose proof (Nat.div_lt (length s) 2). lia.
    + apply lookup_ge_None in Ha. apply Nat.eqb_neq in Hodd.
      destruct (decide (length s = 0%nat)) as [H0|H0].
      * rewrite H0 in Hlen. by destruct xs.
      * destruct (half_even (length s)) as (_ & _ & ?); [done|done|].
        pose proof (Nat.div_lt (length s) 2). lia.
Qed.

Lemma group_length_le k ks vs : (length (Spec.group k ks vs) ≤ pd.group_size k ks)%nat.
Proof.
  unfold Spec.group, pd.group_size. revert vs.
  induction ks as [|k' ks IH]; intros [|v vs]; try apply Nat.le_0_l.
  cbn [zip zip_with]. rewrite !filter_cons. specialize (IH vs).
  destruct (decide (k' = Some k)) as [->|Hne]; cbn [fst].
  - rewrite decide_True by done. destruct v; csimpl; cbn [length].
    + apply le_n_S, IH.
    + apply Nat.le_le_succ_r, IH.
  - rewrite decide_False by done. apply IH.
Qed.

Lemma sample_variance_small xs : (length xs < 2)%nat → Spec.sample_variance xs = None.
Proof.
  intros Hlt. unfold Spec.sample_variance. cbv zeta.
  by replace (length xs <? 2)%nat with true by (symmetry; apply Nat.ltb_lt; lia).
Qed.

(** C1. Whenever the loaded frame has the two columns, the compute phase
    returns one row per group key present in [passenger_count], in strictly
    ascending key order, holding the arithmetic mean, the median and the
    sample variance (denominator n-1) of the group's [fare_amount] values;
    the variance of a group of fewer than two rows is undefined ([None], a
    NaN), not 0.  On the dataset {(1,10), (1,20), (2,15)} the result is
    [(1, 15, 15, 50); (2, 15, 15, undefined)]. *)
Theorem C1_local_compute_mean_median_sample_variance df ks vs :
  pd.getcol "passenger_count" df = Ok ks →
  pd.getcol "fare_amount" df = Ok vs →
  let idx := pd.group_index ks in
  compute df = Ok (aggregation_result idx ks vs) ∧
  StronglySorted Qclt idx ∧
  (∀ k, k ∈ idx ↔ Some k ∈ ks) ∧
  (∀ k, match pd.group_median (Spec.group k ks vs) with
        | Some m => Spec.is_median (Spec.group k ks vs) m
        | None => Spec.group k ks vs = []
        end) ∧
  (∀ k, (pd.group_size k ks < 2)%nat → Spec.sample_variance (Spec.group k ks vs) = None) ∧
  compute example_df = Ok example_result.
Proof.
  intros Hk Hv idx. split_and!.
  - by apply compute_columns.
  - apply group_index_strict.
  - intros k. apply elem_of_group_index.
  - intros k. apply group_median_spec.
  - intros k Hlt. apply sample_variance_small.
    pose proof (group_length_le k ks vs). lia.
  - apply (bool_decide_unpack _). vm_compute. exact I.
Qed.

Lemma C1_witness :
  ∃ ks vs,
    pd.getcol "passenger_count" example_df = Ok ks ∧
    pd.getcol "fare_amount" example_df = Ok vs ∧
    compute example_df = Ok (aggregation_result (pd.group_index ks) ks vs).
Proof.
  eexists _, _. split; [reflexivity|]. split; [reflexivity|].
  refine (proj1 (C1_local_compute_mean_median_sample_variance example_df _ _ _ _));
    reflexivity.
Defined.

(** ** Column selection *)

Lemma getcol_cons name (c : string * list pd.cell) df :
  pd.getcol name (c :: df) = if decide (c.1 = name) then Ok c.2 else pd.getcol name df.
Proof.
  unfold pd.getcol. cbn [list_find]. case_decide; [done|].
  by destruct (list_find _ df) as [[i [n col]]|].
Qed.

Lemma getcol_filter name (names : list string) (df : pd.DataFrame) :
  pd.getcol name (filter (λ c, c.1 ∈ names) df) =
    if decide (name ∈ names) then pd.getcol name df else Err (KeyError name).
Proof.
  induction df as [|c df IH]; [by case_decide|].
  rewrite filter_cons. destruct (decide (c.1 ∈ names)) as [Hin|Hnin].
  - rewrite !getcol_cons, IH. destruct (decide (c.1 = name)) as [<-|]; [|done].
    by rewrite decide_True.
  - rewrite IH, getcol_cons. case_decide as Hn; [|done].
    rewrite decide_False; [done|]. by intros <-.
Qed.

Lemma compute_ext df1 df2 :
  pd.getcol "passenger_count" df1 = pd.getcol "passenger_count" df2 →
  pd.getcol "fare_amount" df1 = pd.getcol "fare_amount" df2 →
  compute df1 = compute df2.
Proof. intros Hk Hv. unfold compute, aggregate, pd.groupby_agg. by rewrite Hk, Hv. Qed.

(** What is computed from a selection of columns is computed from the
    whole file. *)
Lemma compute_loaded files csv usecols file df g :
  files !! csv = Some file →
  loaded files csv usecols = Ok df → compute df = Ok g → compute file = Ok g.
Proof.
  intros Hfile. unfold loaded. rewrite Hfile.
  destruct (truthy usecols); [|by intros [= <-]].
  destruct usecols as [names|]; [|by intros [= <-]].
  unfold pd.select_usecols. case_decide; [|done]. intros [= <-] Hc.
  rewrite <-Hc.
  destruct (compute_ok_inv _ _ Hc) as (ks & vs & Hk & Hv & _).
  rewrite getcol_filter in Hk, Hv.
  destruct (decide ("passenger_count"%string ∈ names)); [|done].
  destruct (decide ("fare_amount"%string ∈ names)); [|done].
  symmetry. apply compute_ext; rewrite getcol_filter; by rewrite decide_True.
Qed.

(** C10. For a file that has the columns [passenger_count] and
    [fare_amount], a run of the local path that selects
    [usecols = ["fare_amount"; "passenger_count"]] and a run that loads every
    column hold the same Aggregation Result, and computing on the selected
    columns is computing on the whole file. *)
Theorem C10_column_selection_preserves_aggregates
    env1 env2 csv out1 out2 n1 wu1 n2 wu2 w1 w1' w2 w2' st1 st2 file :
  w_files w1 !! csv = Some file → w_files w2 !! csv = Some file →
  "passenger_count"%string ∈ pd.column_names file →
  "fare_amount"%string ∈ pd.column_names file →
  benchmark_pandas_approach env1 csv out1 (Some ["fare_amount"; "passenger_count"]%string)
    n1 wu1 w1 = (w1', Ok st1) →
  benchmark_pandas_approach env2 csv out2 None n2 wu2 w2 = (w2', Ok st2) →
  PandasRun.results_df (PandasRun.samples st1) = PandasRun.results_df (PandasRun.samples st2) ∧
  bind (pd.select_usecols ["fare_amount"; "passenger_count"]%string file) compute
    = compute file.
Proof.
  intros Hf1 Hf2 Hpc Hfa Hrun1 Hrun2. split.
  - apply benchmark_pandas_ok in Hrun1 as (_ & _ & _ & _ & _ & df1 & g1 & Hl1 & Hc1 & -> & _).
    apply benchmark_pandas_ok in Hrun2 as (_ & _ & _ & _ & _ & df2 & g2 & Hl2 & Hc2 & -> & _).
    pose proof (compute_loaded _ _ _ _ _ _ Hf1 Hl1 Hc1) as H1.
    pose proof (compute_loaded _ _ _ _ _ _ Hf2 Hl2 Hc2) as H2.
    congruence.
  - unfold pd.select_usecols. rewrite decide_True.
    + simpl. apply compute_ext; rewrite getcol_filter; apply decide_True; by apply (bool_decide_unpack _).
    + by repeat constructor.
Qed.

Lemma C10_witness :
  pandas_results example_selective_run.2 = pandas_results example_pandas_run.2.
Proof.
  destruct example_selective_run as [w1 r1] eqn:Hrun1.
  assert (is_ok r1 = true) as [st1 ->]%is_ok_inv.
  { change r1 with (w1, r1).2. rewrite <-Hrun1. vm_compute. reflexivity. }
  destruct example_pandas_run as [w2 r2] eqn:Hrun2.
  assert (is_ok r2 = true) as [st2 ->]%is_ok_inv.
  { change r2 with (w2, r2).2. rewrite <-Hrun2. vm_compute. reflexivity. }
  refine (proj1 (C10_column_selection_preserves_aggregates example_env example_env
            "data/nyc_taxi_data.csv" "results_pandas.csv" "results_pandas.csv"
            3 1 3 1 example_world w1 example_world w2 st1 st2 example_df
            _ _ _ _ Hrun1 Hrun2)).
  - reflexivity.
  - reflexivity.
  - apply (bool_decide_unpack _). vm_compute. exact I.
  - apply (bool_decide_unpack _). vm_compute. exact I.
Defined.

(** ** The persisted files *)

Lemma output_file_aggregation_result ks vs :
  output_file (aggregation_result (pd.group_index ks) ks vs) (omap id ks).
Proof.
  split; [done|]. exists (pd.group_index ks). split; [done|]. split.
  - unfold aggregation_result. repeat constructor; simpl; by rewrite length_fmap.
  - split; [apply group_index_strict|]. intros k.
    rewrite elem_of_group_index, list_elem_of_omap. split.
    + intros ?. by exists (Some k).
    + intros (x & Hx & Hid). unfold id in Hid. by subst x.
Qed.

Lemma aggregate_ok_inv rng t rows :
  clickhouse.aggregate rng t = Ok rows →
  ∃ ks vs, clickhouse.tcol "passenger_count" t = Some ks ∧
           clickhouse.tcol "fare_amount" t = Some vs ∧
           rows = clickhouse.result_rows (clickhouse.group_by rng (zip ks vs)).
Proof.
  unfold clickhouse.aggregate.
  destruct (clickhouse.tcol "passenger_count" t) as [ks|]; [|done].
  destruct (clickhouse.tcol "fare_amount" t) as [vs|]; [|done].
  intros [= <-]. by exists ks, vs.
Qed.

Lemma output_file_result_rows rng (rows : list (Qc * Qc)) :
  output_file
    (pd.of_rows4 (clickhouse.result_rows (clickhouse.group_by rng rows))
       "passenger_count" "mean_fare" "median_fare" "variance_fare")
    rows.*1.
Proof.
  rewrite result_rows_group_by. split; [done|].
  exists (merge_sort Qcle (remove_dups rows.*1)). split.
  - unfold pd.of_rows4. rewrite getcol_cons, decide_True by done. simpl.
    by rewrite <-list_fmap_compose.
  - split.
    + unfold pd.of_rows4. repeat constructor; simpl; by rewrite !length_fmap.
    + split; [apply sorted_keys_strict|]. intros k. apply elem_of_sorted_keys.
Qed.

(** C9. When a run of either path returns, the file at the output path has
    the header [passenger_count,mean_fare,median_fare,variance_fare] followed
    by exactly one row per distinct group key of the data read (the loaded
    frame, or the queried table), in strictly ascending key order. *)
Theorem C9_output_file_header_and_rows env csv out usecols client db tbl n wu :
  (∀ w w' st,
     benchmark_pandas_approach env csv out usecols n wu w = (w', Ok st) →
     ∃ df ks vs file,
       loaded (w_files w) csv usecols = Ok df ∧
       pd.getcol "passenger_count" df = Ok ks ∧ pd.getcol "fare_amount" df = Ok vs ∧
       w_files w' !! out = Some file ∧
       output_file file (omap id ks)) ∧
  (∀ w w' st,
     benchmark_clickhouse_approach env client db tbl out n wu w = (w', Ok st) →
     ∃ t ks vs file,
       w_tables w !! (db, tbl) = Some t ∧
       clickhouse.tcol "passenger_count" t = Some ks ∧
       clickhouse.tcol "fare_amount" t = Some vs ∧
       w_files w' !! out = Some file ∧
       output_file file (zip ks vs).*1).
Proof.
  split; intros w w' st Hrun.
  - apply benchmark_pandas_ok in Hrun as (_ & _ & _ & _ & _ & df & g & Hl & Hc & _ & Hf).
    destruct (compute_ok_inv _ _ Hc) as (ks & vs & Hk & Hv & ->).
    exists df, ks, vs, (aggregation_result (pd.group_index ks) ks vs).
    split_and!; try done.
    + rewrite Hf. apply lookup_insert_eq.
    + apply output_file_aggregation_result.
  - apply benchmark_clickhouse_ok in Hrun
      as (_ & _ & _ & _ & _ & _ & j & rows & Hq & _ & Hf).
    unfold queried in Hq. destruct (w_tables w !! (db, tbl)) as [t|] eqn:Ht; [|done].
    destruct (aggregate_ok_inv _ _ _ Hq) as (ks & vs & Hk & Hv & ->).
    eexists t, ks, vs, _. split_and!; try done.
    + rewrite Hf. apply lookup_insert_eq.
    + apply output_file_result_rows.
Qed.

Lemma C9_witness :
  ∃ file, w_files example_pandas_run.1 !! "results_pandas.csv"%string = Some file ∧
          pd.header_line file = "passenger_count,mean_fare,median_fare,variance_fare"%string.
Proof.
  destruct example_pandas_run as [w' r] eqn:Hrun.
  assert (is_ok r = true) as [st ->]%is_ok_inv.
  { change r with (w', r).2. rewrite <-Hrun. vm_compute. reflexivity. }
  destruct (proj1 (C9_output_file_header_and_rows example_env "data/nyc_taxi_data.csv"
              "results_pandas.csv" None example_client "nyc_taxi" "trips_small" 3 1)
              example_world w' st Hrun)
    as (df & ks & vs & file & _ & _ & _ & Hfile & Hhead & _).
  exists file. split; assumption.
Defined.

(** ** The two paths on one dataset *)

(** C2, as stated, fails: on a group of 8193 rows (4096 fares of 0, one of 1,
    4096 of 3) the local path returns the median 1, and the remote path,
    whose [quantile(0.5)] keeps a sample of 8192 values, returns 2. *)
Lemma C2_counterexample :
  let local := pandas_results
    (benchmark_pandas_approach example_env "data/nyc_taxi_data.csv" "results_pandas.csv"
       None 1 0 big_world).2 in
  let remote := clickhouse_results
    (benchmark_clickhouse_approach example_env example_client "nyc_taxi" "trips_small"
       "results_clickhouse.csv" 1 0 big_world).2 in
  column_of "median_fare" local = Some [Some (qz 1)] ∧
  column_of "median_fare" remote = Some [Some (qz 2)] ∧
  local ≠ remote.
Proof.
  cbv zeta.
  set (local := pandas_results _). set (remote := clickhouse_results _).
  assert (column_of "median_fare" local = Some [Some (qz 1)]) as Hl.
  { apply (bool_decide_unpack _). vm_compute. exact I. }
  assert (column_of "median_fare" remote = Some [Some (qz 2)]) as Hr.
  { apply (bool_decide_unpack _). vm_compute. exact I. }
  assert ((Some [Some (qz 2)] : option (list pd.cell)) ≠ Some [Some (qz 1)]) as Hne.
  { apply (bool_decide_unpack _). vm_compute. exact I. }
  clearbody local remote. split; [done|]. split; [done|].
  intros Heq. apply Hne. by rewrite <-Hr, <-Hl, Heq.
Qed.

Lemma tcol_elem name (t : clickhouse.Table) c :
  clickhouse.tcol name t = Some c → (name, c) ∈ t.
Proof.
  unfold clickhouse.tcol.
  destruct (list_find _ t) as [[i [n' c']]|] eqn:Hfind; [|done].
  simpl. intros [= <-]. apply list_find_Some in Hfind as (Hi & Hn & _).
  simpl in Hn. subst n'. by eapply list_elem_of_lookup_2.
Qed.

Lemma values_of_length k rows : (length (values_of k rows) ≤ length rows)%nat.
Proof. unfold values_of. rewrite length_fmap. apply length_filter. Qed.

(** C2, amended. When the file is the export of the table, the table is
    rectangular and no group has more rows than the reservoir of
    [quantile(0.5)] holds (8192), a run of the local path and a run of the
    remote path that both return hold the same Aggregation Result, value for
    value in exact arithmetic, with one row per group key in ascending
    order. *)
Theorem C2_paths_agree_below_reservoir_size
    env1 env2 csv out1 usecols n1 wu1 client db tbl out2 n2 wu2
    w1 w1' w2 w2' st1 st2 (t : clickhouse.Table) ks vs :
  w_files w1 !! csv = Some (as_frame t) →
  w_tables w2 !! (db, tbl) = Some t →
  rectangular t →
  clickhouse.tcol "passenger_count" t = Some ks →
  clickhouse.tcol "fare_amount" t = Some vs →
  (∀ k, (length (values_of k (zip ks vs)) ≤ clickhouse.reservoir_size)%nat) →
  benchmark_pandas_approach env1 csv out1 usecols n1 wu1 w1 = (w1', Ok st1) →
  benchmark_clickhouse_approach env2 client db tbl out2 n2 wu2 w2 = (w2', Ok st2) →
  ∃ result,
    PandasRun.results_df (PandasRun.samples st1) = Some result ∧
    ClickHouseRun.results_df (ClickHouseRun.samples st2) = Some result ∧
    output_file result ks.
Proof.
  intros Hfile Htab Hrect Hks Hvs Hsmall Hrun1 Hrun2.
  assert (length ks = length vs) as Hlen.
  { apply (Hrect ("passenger_count"%string, ks) ("fare_amount"%string, vs));
      by apply tcol_elem. }
  apply benchmark_pandas_ok in Hrun1 as (_ & _ & _ & _ & _ & df & g & Hl & Hc & Hr1 & _).
  apply (compute_loaded _ _ _ _ _ _ Hfile Hl) in Hc.
  apply benchmark_clickhouse_ok in Hrun2 as (_ & _ & _ & _ & _ & _ & j & rows & Hq & Hr2 & _).
  unfold queried in Hq. rewrite Htab in Hq.
  rewrite (local_remote_frames (e_rng env2 j) t ks vs Hks Hvs Hlen Hsmall), Hq in Hc.
  simpl in Hc. injection Hc as <-.
  eexists. split; [done|]. split; [done|].
  unfold clickhouse.aggregate in Hq. rewrite Hks, Hvs in Hq. injection Hq as <-.
  replace ks with (zip ks vs).*1 at 2 by (apply fst_zip; lia).
  apply output_file_result_rows.
Qed.

Lemma C2_witness :
  ∃ result, pandas_results example_pandas_run.2 = Some result ∧
            clickhouse_results example_clickhouse_run.2 = Some result.
Proof.
  destruct example_pandas_run as [w1 r1] eqn:Hrun1.
  assert (is_ok r1 = true) as [st1 ->]%is_ok_inv.
  { change r1 with (w1, r1).2. rewrite <-Hrun1. vm_compute. reflexivity. }
  destruct example_clickhouse_run as [w2 r2] eqn:Hrun2.
  assert (is_ok r2 = true) as [st2 ->]%is_ok_inv.
  { change r2 with (w2, r2).2. rewrite <-Hrun2. vm_compute. reflexivity. }
  assert (rectangular example_table) as Hrect.
  { intros c1 c2 Hc1 Hc2.
    assert (Forall (λ c : string * list Qc, length c.2 = 3%nat) example_table) as Hall
      by (repeat constructor).
    rewrite Forall_forall in Hall. by rewrite (Hall _ Hc1), (Hall _ Hc2). }
  assert (∀ k, (length (values_of k (zip [qz 1; qz 1; qz 2] [qz 10; qz 20; qz 15]))
                ≤ clickhouse.reservoir_size)%nat) as Hsmall.
  { intros k. etrans; [apply values_of_length|]. unfold clickhouse.reservoir_size.
    simpl length. lia. }
  destruct (C2_paths_agree_below_reservoir_size example_env example_env
              "data/nyc_taxi_data.csv" "results_pandas.csv" None 3 1
              example_client "nyc_taxi" "trips_small" "results_clickhouse.csv" 3 1
              example_world w1 example_world w2 st1 st2 example_table
              [qz 1; qz 1; qz 2] [qz 10; qz 20; qz 15]
              eq_refl eq_refl Hrect eq_refl eq_refl Hsmall Hrun1 Hrun2)
    as (result & H1 & H2 & _).
  exists result. split; assumption.
Defined.

(** ** Iterations, samples and writes *)

(** C3. For [iteration_count >= 1] and [warmup_count >= 0], a run of either
    path that returns has recorded exactly [iteration_count] samples in each
    of its lists (load, compute and total; query, save and total): the
    warmup iterations add none. *)
Theorem C3_exactly_iteration_count_samples
    env csv out usecols client db tbl (iteration_count warmup_count : Z) :
  (1 ≤ iteration_count)%Z → (0 ≤ warmup_count)%Z →
  (∀ w w' st,
     benchmark_pandas_approach env csv out usecols iteration_count warmup_count w
       = (w', Ok st) →
     Z.of_nat (length (PandasRun.load_times (PandasRun.samples st))) = iteration_count ∧
     Z.of_nat (length (PandasRun.compute_times (PandasRun.samples st))) = iteration_count ∧
     Z.of_nat (length (PandasRun.total_times (PandasRun.samples st))) = iteration_count) ∧
  (∀ w w' st,
     benchmark_clickhouse_approach env client db tbl out iteration_count warmup_count w
       = (w', Ok st) →
     Z.of_nat (length (ClickHouseRun.query_times (ClickHouseRun.samples st))) = iteration_count ∧
     Z.of_nat (length (ClickHouseRun.save_times (ClickHouseRun.samples st))) = iteration_count ∧
     Z.of_nat (length (ClickHouseRun.total_times (ClickHouseRun.samples st))) = iteration_count).
Proof.
  intros Hn _. split; intros w w' st Hrun.
  - apply benchmark_pandas_ok in Hrun as (_ & _ & Hl & Hc & Ht & _).
    rewrite Ht, length_zip_with, Hl, Hc. lia.
  - apply benchmark_clickhouse_ok in Hrun as (_ & _ & Hl & Hc & Ht & _).
    rewrite Ht, length_zip_with, Hl, Hc. lia.
Qed.

Lemma C3_witness :
  is_ok example_pandas_run.2 = true ∧
  ∀ st, example_pandas_run.2 = Ok st →
    Z.of_nat (length (PandasRun.load_times (PandasRun.samples st))) = 3%Z.
Proof.
  split; [vm_compute; reflexivity|].
  intros st Hst. destruct example_pandas_run as [w' r] eqn:Hrun.
  simpl in Hst. subst r.
  refine (proj1 (proj1 (C3_exactly_iteration_count_samples example_env
            "data/nyc_taxi_data.csv" "results_pandas.csv" None example_client
            "nyc_taxi" "trips_small" 3 1 _ _) example_world w' st Hrun)); lia.
Defined.

(** ** Writes *)

Lemma writes_app evs1 evs2 : writes (evs1 ++ evs2) = writes evs1 ++ writes evs2.
Proof. apply filter_app. Qed.

Lemma writes_prefix evs T : evs `prefix_of` T → writes evs `prefix_of` writes T.
Proof. intros [k ->]. rewrite writes_app. by apply prefix_app_r. Qed.

Lemma writes_replicate ev k : is_write ev = false → writes (replicate k ev) = [].
Proof.
  intros Hev. induction k as [|k IH]; [done|]. simpl. unfold writes in *.
  rewrite filter_cons_False; [done|]. by rewrite Hev.
Qed.

(** Among the measured iterations only the last one writes. *)
Lemma writes_measured (iter : bool → list event) (wr : event) n k : ∀ a,
  writes (iter false) = [] → writes (iter true) = [wr] →
  (a + k)%nat = Z.to_nat n →
  writes (concat ((λ i, iter (is_last n i)) <$> seq a k)) = if k is O then [] else [wr].
Proof.
  induction k as [|k IH]; intros a Hf Ht Hak; [done|].
  csimpl. rewrite writes_app, (IH (S a)) by (done || lia).
  destruct k as [|k].
  - assert (is_last n a = true) as -> by (apply is_last_spec; lia).
    by rewrite Ht.
  - assert (is_last n a = false) as ->.
    { apply not_true_is_false. rewrite is_last_spec. lia. }
    by rewrite Hf.
Qed.

Lemma writes_pandas_run csv out usecols n wu :
  (1 ≤ n)%Z → writes (pandas_run_events csv out usecols n wu) = [EvToCsv out].
Proof.
  intros Hn. unfold pandas_run_events, pandas_warmup_events, pandas_measured_events.
  rewrite writes_app, writes_replicate by done.
  rewrite (writes_measured (pandas_iter_events csv out usecols) (EvToCsv out)); try done.
  destruct (Z.to_nat n) eqn:Hz; [lia|done].
Qed.

Lemma writes_clickhouse_run db tbl out n wu :
  (1 ≤ n)%Z → writes (clickhouse_run_events db tbl out n wu) = [EvToCsv out].
Proof.
  intros Hn. unfold clickhouse_run_events, clickhouse_warmup_events, clickhouse_measured_events.
  rewrite writes_app, writes_replicate by done.
  rewrite (writes_measured (clickhouse_iter_events db tbl out) (EvToCsv out)); try done.
  destruct (Z.to_nat n) eqn:Hz; [lia|done].
Qed.

(** C5. For [iteration_count >= 1], the calls of a run of either path are a
    prefix of the warmup calls followed by the measured iterations, all of
    them when the run returns; among them there is at most one write, exactly
    one when the run returns, and it is the write of the output file by the
    last measured iteration: the warmup calls contain no write, and a measured
    iteration writes if and only if its index is [iteration_count - 1]. *)
Theorem C5_output_written_once_on_last_iteration
    env csv out usecols client db tbl (iteration_count warmup_count : Z) :
  (1 ≤ iteration_count)%Z →
  (∀ w w' r,
     benchmark_pandas_approach env csv out usecols iteration_count warmup_count w = (w', r) →
     ∃ evs, extends w w' evs ∧
       evs `prefix_of` pandas_run_events csv out usecols iteration_count warmup_count ∧
       writes evs `prefix_of` [EvToCsv out] ∧
       (is_ok r = true →
          evs = pandas_run_events csv out usecols iteration_count warmup_count ∧
          writes evs = [EvToCsv out])) ∧
  (∀ w w' r,
     benchmark_clickhouse_approach env client db tbl out iteration_count warmup_count w
       = (w', r) →
     ∃ evs, extends w w' evs ∧
       evs `prefix_of` clickhouse_run_events db tbl out iteration_count warmup_count ∧
       writes evs `prefix_of` [EvToCsv out] ∧
       (is_ok r = true →
          evs = clickhouse_run_events db tbl out iteration_count warmup_count ∧
          writes evs = [EvToCsv out])) ∧
  writes (pandas_warmup_events csv usecols warmup_count) = [] ∧
  writes (clickhouse_warmup_events db tbl warmup_count) = [] ∧
  (∀ i, writes (pandas_iter_events csv out usecols (is_last iteration_count i)) =
        if decide (Z.of_nat i = iteration_count - 1)%Z then [EvToCsv out] else []) ∧
  (∀ i, writes (clickhouse_iter_events db tbl out (is_last iteration_count i)) =
        if decide (Z.of_nat i = iteration_count - 1)%Z then [EvToCsv out] else []).
Proof.
  intros Hn. split_and!.
  - intros w w' r Hrun.
    destruct (traced_benchmark_pandas env csv out usecols iteration_count warmup_count
                _ _ _ Hrun) as (evs & Hx & Hp & Hok).
    exists evs. split; [done|]. split; [done|]. split.
    + rewrite <-(writes_pandas_run csv out usecols iteration_count warmup_count Hn).
      by apply writes_prefix.
    + intros Hr. rewrite (Hok Hr). split; [done|]. by apply writes_pandas_run.
  - intros w w' r Hrun.
    destruct (traced_benchmark_clickhouse env client db tbl out iteration_count
                warmup_count _ _ _ Hrun) as (evs & Hx & Hp & Hok).
    exists evs. split; [done|]. split; [done|]. split.
    + rewrite <-(writes_clickhouse_run db tbl out iteration_count warmup_count Hn).
      by apply writes_prefix.
    + intros Hr. rewrite (Hok Hr). split; [done|]. by apply writes_clickhouse_run.
  - by apply writes_replicate.
  - by apply writes_replicate.
  - intros i. unfold is_last. case_decide as Hi.
    + by rewrite (proj2 (Z.eqb_eq _ _) Hi).
    + by rewrite (proj2 (Z.eqb_neq _ _) Hi).
  - intros i. unfold is_last. case_decide as Hi.
    + by rewrite (proj2 (Z.eqb_eq _ _) Hi).
    + by rewrite (proj2 (Z.eqb_neq _ _) Hi).
Qed.

Lemma C5_witness :
  (1 ≤ 3)%Z ∧
  ∃ evs, extends example_world example_pandas_run.1 evs ∧
         writes evs = [EvToCsv "results_pandas.csv"].
Proof.
  split; [lia|].
  destruct example_pandas_run as [w' r] eqn:Hrun.
  assert (is_ok r = true) as Hok.
  { change r with (w', r).2. rewrite <-Hrun. vm_compute. reflexivity. }
  destruct (proj1 (C5_output_written_once_on_last_iteration example_env
              "data/nyc_taxi_data.csv" "results_pandas.csv" None example_client
              "nyc_taxi" "trips_small" 3 1 ltac:(lia)) example_world w' r Hrun)
    as (evs & Hx & _ & _ & Hw).
  exists evs. split; [done|]. by apply Hw.
Defined.

(** C4, as stated, fails: with [iterations = 0] and one warmup iteration the
    run reads the input file before it fails, and it fails with
    [StatisticsError], raised by the summary of the empty sample list. *)
Lemma C4_counterexample :
  let run := benchmark_pandas_approach example_env "data/nyc_taxi_data.csv"
               "results_pandas.csv" None 0 1 example_world in
  run.2 = Err StatisticsError ∧
  w_log run.1 = [EvReadCsv "data/nyc_taxi_data.csv" None] ∧
  w_log run.1 ≠ w_log example_world.
Proof. vm_compute. split; [reflexivity|]. split; [reflexivity|]. discriminate. Qed.

Lemma for_range_0 {S} (body : nat → M S ()) s : for_range 0 body s = (s, Ok ()).
Proof. reflexivity. Qed.

(** C4, amended. With [iterations = 0] nothing is checked beforehand: the
    warmup iterations run, no measured iteration does, and when the warmup
    returns the run fails with [StatisticsError] from the mean of the empty
    sample list (a failure of the warmup propagates instead).  The calls made
    are the warmup's, and no file is written. *)
Theorem C4_zero_iterations_fail_after_warmup env csv out usecols client db tbl warmup_count w :
  (∀ w1 r, pandas_warmup env csv usecols warmup_count w = (w1, r) →
     benchmark_pandas_approach env csv out usecols 0 warmup_count w =
       (w1, match r with Ok _ => Err StatisticsError | Err e => Err e end) ∧
     w_files w1 = w_files w ∧
     ∃ evs, extends w w1 evs ∧ evs `prefix_of` pandas_warmup_events csv usecols warmup_count ∧
            (is_ok r = true → evs = pandas_warmup_events csv usecols warmup_count)) ∧
  (∀ w1 r, clickhouse_warmup env client db tbl warmup_count w = (w1, r) →
     benchmark_clickhouse_approach env client db tbl out 0 warmup_count w =
       (w1, match r with Ok _ => Err StatisticsError | Err e => Err e end) ∧
     w_files w1 = w_files w ∧
     ∃ evs, extends w w1 evs ∧ evs `prefix_of` clickhouse_warmup_events db tbl warmup_count ∧
            (is_ok r = true → evs = clickhouse_warmup_events db tbl warmup_count)).
Proof.
  split; intros w1 r Hwarm.
  - split; [|split].
    + rewrite benchmark_pandas_run, Hwarm. destruct r as [[]|e]; [|done].
      unfold pandas_loop. by rewrite for_range_0.
    + by eapply pandas_warmup_files.
    + by eapply traced_pandas_warmup.
  - split; [|split].
    + rewrite benchmark_clickhouse_run, Hwarm. destruct r as [[]|e]; [|done].
      unfold clickhouse_loop. by rewrite for_range_0.
    + by eapply clickhouse_warmup_files.
    + by eapply traced_clickhouse_warmup.
Qed.

Lemma C4_witness :
  (benchmark_pandas_approach example_env "data/nyc_taxi_data.csv" "results_pandas.csv"
     None 0 1 example_world).2 = Err StatisticsError.
Proof.
  destruct (pandas_warmup example_env "data/nyc_taxi_data.csv" None 1 example_world)
    as [w1 r] eqn:Hwarm.
  assert (is_ok r = true) as [[] ->]%is_ok_inv.
  { change r with (w1, r).2. rewrite <-Hwarm. vm_compute. reflexivity. }
  rewrite (proj1 (proj1 (C4_zero_iterations_fail_after_warmup example_env
             "data/nyc_taxi_data.csv" "results_pandas.csv" None example_client
             "nyc_taxi" "trips_small" 1 example_world) w1 (Ok ()) Hwarm)).
  reflexivity.
Defined.

(** C6, as stated, fails: the read of the second measured iteration raises
    [OSError], and the run raises that very exception under two clocks that
    gave the completed first iteration different load times; the error
    carries no samples. *)
Lemma C6_counterexample :
  let run env := benchmark_pandas_approach env "data/nyc_taxi_data.csv"
                   "results_pandas.csv" None 3 0 example_world in
  let held env := (pandas_loop env "data/nyc_taxi_data.csv" "results_pandas.csv" None 3
                     (pandas_init, example_world)).1.1 in
  (run (failing example_env)).2 = Err (Raised "OSError") ∧
  (run (failing example_env_fast)).2 = Err (Raised "OSError") ∧
  PandasRun.load_times (held (failing example_env)) = [qfrac 4 1000] ∧
  PandasRun.load_times (held (failing example_env_fast)) = [qfrac 2 1000] ∧
  PandasRun.load_times (held (failing example_env))
    ≠ PandasRun.load_times (held (failing example_env_fast)).
Proof.
  cbv zeta. split_and!.
  - vm_compute. reflexivity.
  - vm_compute. reflexivity.
  - apply (bool_decide_unpack _). vm_compute. exact I.
  - apply (bool_decide_unpack _). vm_compute. exact I.
  - apply (bool_decide_unpack _). vm_compute. exact I.
Qed.

(** C6, amended. When measured iteration [k] fails after the iterations
    before it completed, the run of the path fails with the exception of that
    iteration, unchanged, in the state that iteration left: no further
    iteration runs and no summary is computed.  The [k] samples per list
    collected so far exist only in the local lists of the run, which the
    exception does not carry. *)
Theorem C6_failure_propagates_and_drops_samples env csv out usecols client db tbl n wu w :
  (∀ w1 k sk s' e,
     pandas_warmup env csv usecols wu w = (w1, Ok ()) →
     (k < Z.to_nat n)%nat →
     for_each (seq 0 k) (pandas_iteration env csv out usecols n) (pandas_init, w1)
       = (sk, Ok ()) →
     pandas_iteration env csv out usecols n k sk = (s', Err e) →
     benchmark_pandas_approach env csv out usecols n wu w = (s'.2, Err e) ∧
     length (PandasRun.load_times sk.1) = k ∧
     length (PandasRun.compute_times sk.1) = k ∧
     length (PandasRun.total_times sk.1) = k) ∧
  (∀ w1 k sk s' e,
     clickhouse_warmup env client db tbl wu w = (w1, Ok ()) →
     (k < Z.to_nat n)%nat →
     for_each (seq 0 k) (clickhouse_iteration env client db tbl out n) (clickhouse_init, w1)
       = (sk, Ok ()) →
     clickhouse_iteration env client db tbl out n k sk = (s', Err e) →
     benchmark_clickhouse_approach env client db tbl out n wu w = (s'.2, Err e) ∧
     length (ClickHouseRun.query_times sk.1) = k ∧
     length (ClickHouseRun.save_times sk.1) = k ∧
     length (ClickHouseRun.total_times sk.1) = k).
Proof.
  split; intros w1 k sk s' e Hwarm Hk Hdone Hfail.
  - split.
    + rewrite benchmark_pandas_run, Hwarm. unfold pandas_loop, for_range.
      replace (Z.to_nat n) with (k + S (Z.to_nat n - S k))%nat by lia.
      rewrite seq_app, for_each_app, Hdone. simpl seq. rewrite for_each_cons, Hfail. done.
    + apply (pandas_loop_ok _ _ _ _ n k 0) in Hdone
        as (lt & ct & Hlt & Hct & H1 & H2 & H3 & _); [|lia].
      rewrite H1, H2, H3. simpl. rewrite length_zip_with. lia.
  - split.
    + rewrite benchmark_clickhouse_run, Hwarm. unfold clickhouse_loop, for_range.
      replace (Z.to_nat n) with (k + S (Z.to_nat n - S k))%nat by lia.
      rewrite seq_app, for_each_app, Hdone. simpl seq. rewrite for_each_cons, Hfail. done.
    + apply (clickhouse_loop_ok _ _ _ _ _ n k 0) in Hdone
        as (lt & ct & Hlt & Hct & H1 & H2 & H3 & _); [|lia].
      rewrite H1, H2, H3. simpl. rewrite length_zip_with. lia.
Qed.

Lemma C6_witness :
  ∃ e, (benchmark_pandas_approach (failing example_env) "data/nyc_taxi_data.csv"
          "results_pandas.csv" None 3 0 example_world).2 = Err e.
Proof.
  set (env := failing example_env).
  set (body := pandas_iteration env "data/nyc_taxi_data.csv" "results_pandas.csv" None 3).
  assert (pandas_warmup env "data/nyc_taxi_data.csv" None 0 example_world
          = (example_world, Ok ())) as Hwarm by reflexivity.
  assert (is_ok (for_each (seq 0 1) body (pandas_init, example_world)).2 = true) as Hok
    by (vm_compute; reflexivity).
  assert (is_ok (body 1%nat (for_each (seq 0 1) body (pandas_init, example_world)).1).2
          = false) as Hfail0 by (vm_compute; reflexivity).
  destruct (for_each (seq 0 1) body (pandas_init, example_world)) as [sk r] eqn:Hdone.
  cbn [fst snd] in Hok, Hfail0. apply is_ok_inv in Hok as [[] ->].
  destruct (body 1%nat sk) as [s' [[]|e]] eqn:Hfail; [discriminate Hfail0|].
  exists e.
  rewrite (proj1 (proj1 (C6_failure_propagates_and_drops_samples env
             "data/nyc_taxi_data.csv" "results_pandas.csv" None example_client
             "nyc_taxi" "trips_small" 3 0 example_world)
             example_world 1%nat sk s' e Hwarm ltac:(vm_compute; lia) Hdone Hfail)).
  reflexivity.
Defined.

(** ** Summary statistics *)

Lemma mean_value xs m :
  statistics.mean xs = Ok m → m = (Spec.total xs / qn (length xs))%Qc ∧ xs ≠ [].
Proof.
  unfold statistics.mean. cbv zeta. destruct xs as [|x xs]; [done|].
  simpl length. destruct (S (length xs) <? 1)%nat; [done|].
  intros [= <-]. by rewrite sum_total.
Qed.

Lemma total_zip_with_plus xs ys :
  length xs = length ys →
  Spec.total (zip_with Qcplus xs ys) = (Spec.total xs + Spec.total ys)%Qc.
Proof.
  revert ys. induction xs as [|x xs IH]; intros [|y ys] Hlen; try done.
  injection Hlen as Hlen. cbn [zip_with Spec.total foldr]. fold (Spec.total (zip_with Qcplus xs ys)).
  fold (Spec.total xs) (Spec.total ys). rewrite IH by done. ring.
Qed.

Lemma summary_spec xs mean median mn mx :
  statistics.mean xs = Ok mean → statistics.median xs = Ok median →
  Py.min xs = Ok mn → Py.max xs = Ok mx →
  Spec.summarises xs mean median mn mx.
Proof.
  intros. split_and!; [by apply mean_spec|by apply median_spec|by apply min_spec|by apply max_spec].
Qed.

(** C8. When a run of either path returns, the statistics it reports for each
    sample list (load, compute and total; query, save and total) are the
    arithmetic mean, the median, the minimum and the maximum of that list;
    the total list is the element-wise sum of the two phase lists, so that
    its mean is the sum of the phase means.  The samples [10ms, 20ms, 30ms]
    have mean 20ms, median 20ms, minimum 10ms and maximum 30ms. *)
Theorem C8_summary_statistics env csv out usecols client db tbl n wu :
  (∀ w w' st,
     benchmark_pandas_approach env csv out usecols n wu w = (w', Ok st) →
     let l := PandasRun.samples st in
     Spec.summarises (PandasRun.load_times l) (PandasRun.load_mean st)
       (PandasRun.load_median st) (PandasRun.load_min st) (PandasRun.load_max st) ∧
     Spec.summarises (PandasRun.compute_times l) (PandasRun.compute_mean st)
       (PandasRun.compute_median st) (PandasRun.compute_min st) (PandasRun.compute_max st) ∧
     Spec.summarises (PandasRun.total_times l) (PandasRun.total_mean st)
       (PandasRun.total_median st) (PandasRun.total_min st) (PandasRun.total_max st) ∧
     PandasRun.total_times l =
       zip_with Qcplus (PandasRun.load_times l) (PandasRun.compute_times l) ∧
     PandasRun.total_mean st = (PandasRun.load_mean st + PandasRun.compute_mean st)%Qc) ∧
  (∀ w w' st,
     benchmark_clickhouse_approach env client db tbl out n wu w = (w', Ok st) →
     let l := ClickHouseRun.samples st in
     Spec.summarises (ClickHouseRun.query_times l) (ClickHouseRun.query_mean st)
       (ClickHouseRun.query_median st) (ClickHouseRun.query_min st) (ClickHouseRun.query_max st) ∧
     Spec.summarises (ClickHouseRun.save_times l) (ClickHouseRun.save_mean st)
       (ClickHouseRun.save_median st) (ClickHouseRun.save_min st) (ClickHouseRun.save_max st) ∧
     Spec.summarises (ClickHouseRun.total_times l) (ClickHouseRun.total_mean st)
       (ClickHouseRun.total_median st) (ClickHouseRun.total_min st) (ClickHouseRun.total_max st) ∧
     ClickHouseRun.total_times l =
       zip_with Qcplus (ClickHouseRun.query_times l) (ClickHouseRun.save_times l) ∧
     ClickHouseRun.total_mean st = (ClickHouseRun.query_mean st + ClickHouseRun.save_mean st)%Qc) ∧
  (statistics.mean [ms 10; ms 20; ms 30] = Ok (ms 20) ∧
   statistics.median [ms 10; ms 20; ms 30] = Ok (ms 20) ∧
   Py.min [ms 10; ms 20; ms 30] = Ok (ms 10) ∧
   Py.max [ms 10; ms 20; ms 30] = Ok (ms 30)).
Proof.
  split_and!.
  - intros w w' st Hrun l.
    apply benchmark_pandas_ok in Hrun as (Hn & Hsum & Hl & Hc & Ht & _).
    apply pandas_summary_ok in Hsum
      as (_ & M1 & M2 & M3 & D1 & D2 & D3 & N1 & N2 & N3 & X1 & X2 & X3).
    fold l in Hl, Hc, Ht, M1, M2, M3, D1, D2, D3, N1, N2, N3, X1, X2, X3.
    split_and!; try by apply summary_spec.
    + done.
    + apply mean_value in M1 as [-> _], M2 as [-> _], M3 as [-> _].
      rewrite Ht, total_zip_with_plus, length_zip_with, Hl, Hc, Nat.min_id by lia.
      field. apply qn_nonzero. lia.
  - intros w w' st Hrun l.
    apply benchmark_clickhouse_ok in Hrun as (Hn & Hsum & Hl & Hc & Ht & _).
    apply clickhouse_summary_ok in Hsum
      as (_ & M1 & M2 & M3 & D1 & D2 & D3 & N1 & N2 & N3 & X1 & X2 & X3 & _).
    fold l in Hl, Hc, Ht, M1, M2, M3, D1, D2, D3, N1, N2, N3, X1, X2, X3.
    split_and!; try by apply summary_spec.
    + done.
    + apply mean_value in M1 as [-> _], M2 as [-> _], M3 as [-> _].
      rewrite Ht, total_zip_with_plus, length_zip_with, Hl, Hc, Nat.min_id by lia.
      field. apply qn_nonzero. lia.
  - apply (bool_decide_unpack _). vm_compute. exact I.
  - apply (bool_decide_unpack _). vm_compute. exact I.
  - apply (bool_decide_unpack _). vm_compute. exact I.
  - apply (bool_decide_unpack _). vm_compute. exact I.
Qed.

Lemma C8_witness :
  is_ok example_pandas_run.2 = true ∧
  ∀ st, example_pandas_run.2 = Ok st →
    PandasRun.total_mean st = (PandasRun.load_mean st + PandasRun.compute_mean st)%Qc.
Proof.
  split; [vm_compute; reflexivity|].
  intros st Hst. destruct example_pandas_run as [w' r] eqn:Hrun.
  simpl in Hst. subst r.
  pose proof (proj1 (C8_summary_statistics example_env "data/nyc_taxi_data.csv"
                "results_pandas.csv" None example_client "nyc_taxi" "trips_small" 3 1)
                example_world w' st Hrun) as H.
  cbv zeta in H. apply H.
Defined.

(** ** The comparative report *)

(** C7, as stated, fails: under a clock that gives every reading the same
    value all durations are 0, and [main] ends with [ZeroDivisionError]
    from the division, not with a report. *)
Lemma C7_counterexample :
  (main coarse_env default_args example_world).2 = Err ZeroDivisionError.
Proof. vm_compute. reflexivity. Qed.

Lemma mbind_ok_inv {S A B} (m : M S A) (k : A → M S B) s s' b :
  (m ≫= k) s = (s', Ok b) → ∃ a s1, m s = (s1, Ok a) ∧ k a s1 = (s', Ok b).
Proof. rewrite bind_run. destruct (m s) as [s1 [a|e]]; [|done]. intros H. by exists a, s1. Qed.

(** [main] once the three benchmarks have returned. *)
Lemma main_run env args w0 w1 w2 w3 w4 client s1 s2 s3 :
  get_client env (host args) (port args) (user args) (password args) w0 = (w1, Ok client) →
  benchmark_pandas_approach env (csv_input args) (csv_output_pandas args)
    (Some ["fare_amount"; "passenger_count"]%string) (iterations args) (warmup args) w1
    = (w2, Ok s1) →
  benchmark_pandas_approach env (csv_input args)
    (str_replace ".csv" "_full.csv" (csv_output_pandas args))
    None (iterations args) (warmup args) w2 = (w3, Ok s2) →
  benchmark_clickhouse_approach env client (database args) (table args)
    (csv_output_clickhouse args) (iterations args) (warmup args) w3 = (w4, Ok s3) →
  main env args w0 =
    (w4, if decide (ClickHouseRun.total_mean s3 = 0%Qc)
         then Err ZeroDivisionError
         else Ok (report s1 s2 s3)).
Proof.
  intros Hc H1 H2 H3. unfold main.
  rewrite bind_run, Hc, bind_run, H1, bind_run, H2, bind_run, H3.
  apply benchmark_pandas_ok in H1 as (_ & _ & _ & _ & _ & ? & ? & _ & _ & -> & _).
  apply benchmark_pandas_ok in H2 as (_ & _ & _ & _ & _ & ? & ? & _ & _ & -> & _).
  apply benchmark_clickhouse_ok in H3 as (_ & _ & _ & _ & _ & _ & ? & ? & _ & -> & _).
  rewrite !bind_run. simpl. unfold Py.truediv, lift_result.
  case_decide; reflexivity.
Qed.

Lemma main_ok_inv env args w0 w' rep :
  main env args w0 = (w', Ok rep) →
  ∃ w1 w2 w3 client s1 s2 s3,
    get_client env (host args) (port args) (user args) (password args) w0 = (w1, Ok client) ∧
    benchmark_pandas_approach env (csv_input args) (csv_output_pandas args)
      (Some ["fare_amount"; "passenger_count"]%string) (iterations args) (warmup args) w1
      = (w2, Ok s1) ∧
    benchmark_pandas_approach env (csv_input args)
      (str_replace ".csv" "_full.csv" (csv_output_pandas args))
      None (iterations args) (warmup args) w2 = (w3, Ok s2) ∧
    benchmark_clickhouse_approach env client (database args) (table args)
      (csv_output_clickhouse args) (iterations args) (warmup args) w3 = (w', Ok s3) ∧
    ClickHouseRun.total_mean s3 ≠ 0%Qc ∧ rep = report s1 s2 s3.
Proof.
  intros Hmain. assert (Hm := Hmain). unfold main in Hm.
  apply mbind_ok_inv in Hm as (client & w1 & Hc & Hm).
  apply mbind_ok_inv in Hm as (s1 & w2 & H1 & Hm).
  apply mbind_ok_inv in Hm as (s2 & w3 & H2 & Hm).
  apply mbind_ok_inv in Hm as (s3 & w4 & H3 & _).
  rewrite (main_run _ _ _ _ _ _ _ _ _ _ _ Hc H1 H2 H3) in Hmain.
  case_decide; [done|]. injection Hmain as <- <-.
  by exists w1, w2, w3, client, s1, s2, s3.
Qed.

(** C7, amended. A report of [main] gives, for each of the two local runs,
    the ratio of that run's total mean to the total mean of the remote run,
    which is then not zero.  There is no guard: when the three runs return
    and the total mean of the remote run is zero, [main] raises
    [ZeroDivisionError]; otherwise it returns the report. *)
Theorem C7_speedup_ratio_without_zero_guard env args :
  (∀ w w' rep,
     main env args w = (w', Ok rep) →
     ClickHouseRun.total_mean (clickhouse_stats rep) ≠ 0%Qc ∧
     speedup_selective rep =
       (PandasRun.total_mean (pandas_selective_stats rep)
        / ClickHouseRun.total_mean (clickhouse_stats rep))%Qc ∧
     speedup_full rep =
       (PandasRun.total_mean (pandas_full_stats rep)
        / ClickHouseRun.total_mean (clickhouse_stats rep))%Qc) ∧
  (∀ w0 w1 w2 w3 w4 client s1 s2 s3,
     get_client env (host args) (port args) (user args) (password args) w0
       = (w1, Ok client) →
     benchmark_pandas_approach env (csv_input args) (csv_output_pandas args)
       (Some ["fare_amount"; "passenger_count"]%string) (iterations args) (warmup args) w1
       = (w2, Ok s1) →
     benchmark_pandas_approach env (csv_input args)
       (str_replace ".csv" "_full.csv" (csv_output_pandas args))
       None (iterations args) (warmup args) w2 = (w3, Ok s2) →
     benchmark_clickhouse_approach env client (database args) (table args)
       (csv_output_clickhouse args) (iterations args) (warmup args) w3 = (w4, Ok s3) →
     main env args w0 =
       (w4, if decide (ClickHouseRun.total_mean s3 = 0%Qc)
            then Err ZeroDivisionError
            else Ok (report s1 s2 s3))).
Proof.
  split.
  - intros w w' rep Hmain.
    apply main_ok_inv in Hmain as (? & ? & ? & ? & s1 & s2 & s3 & _ & _ & _ & _ & Hnz & ->).
    done.
  - apply main_run.
Qed.

Lemma C7_witness :
  is_ok (main example_env default_args example_world).2 = true ∧
  ∀ rep, (main example_env default_args example_world).2 = Ok rep →
    speedup_selective rep =
      (PandasRun.total_mean (pandas_selective_stats rep)
       / ClickHouseRun.total_mean (clickhouse_stats rep))%Qc.
Proof.
  split; [vm_compute; reflexivity|].
  intros rep Hrep.
  destruct (main example_env default_args example_world) as [w' r] eqn:Hmain.
  simpl in Hrep. subst r.
  exact (proj1 (proj2 (proj1 (C7_speedup_ratio_without_zero_guard example_env default_args)
                         example_world w' rep Hmain))).
Defined.

(** * Further properties of the code *)

(** ** Order of the summary statistics *)

Lemma total_lower m xs :
  Forall (λ x, (m ≤ x)%Qc) xs → (m * qn (length xs) ≤ Spec.total xs)%Qc.
Proof.
  induction 1 as [|x xs Hx _ IH]; simpl.
  - rewrite qn_0, Qcmult_0_r. apply Qcle_refl.
  - rewrite qn_S, Qcmult_plus_distr_r, Qcmult_1_r, Qcplus_comm.
    by apply Qcplus_le_compat.
Qed.

Lemma total_upper m xs :
  Forall (λ x, (x ≤ m)%Qc) xs → (Spec.total xs ≤ m * qn (length xs))%Qc.
Proof.
  induction 1 as [|x xs Hx _ IH]; simpl.
  - rewrite qn_0, Qcmult_0_r. apply Qcle_refl.
  - rewrite qn_S, Qcmult_plus_distr_r, Qcmult_1_r, (Qcplus_comm (m * _)).
    by apply Qcplus_le_compat.
Qed.

Lemma qz_2_pos : (0 < qz 2)%Qc.
Proof. by apply (bool_decide_unpack _). Qed.

Lemma half_sum_twice (a b : Qc) : ((a + b) / qz 2 * qz 2 = a + b)%Qc.
Proof. field. intros E. pose proof qz_2_pos as H. by rewrite E in H. Qed.

Lemma half_sum_between (lo hi a b : Qc) :
  (lo ≤ a → lo ≤ b → a ≤ hi → b ≤ hi → lo ≤ (a + b) / qz 2 ∧ (a + b) / qz 2 ≤ hi)%Qc.
Proof.
  intros Ha Hb Ha' Hb'.
  rewrite (Qcmult_le_mono_pos_r lo _ (qz 2) qz_2_pos).
  rewrite (Qcmult_le_mono_pos_r _ hi (qz 2) qz_2_pos).
  rewrite half_sum_twice, qz_2, !Qcmult_plus_distr_r, !Qcmult_1_r.
  split; by apply Qcplus_le_compat.
Qed.

Lemma mean_between xs m lo hi :
  Spec.is_mean xs m → Spec.is_min xs lo → Spec.is_max xs hi → (lo ≤ m ∧ m ≤ hi)%Qc.
Proof.
  intros [Hne Hm] [_ Hlo] [_ Hhi].
  assert (0 < qn (length xs))%Qc as Hn by (apply qn_pos; destruct xs; [done|simpl; lia]).
  rewrite (Qcmult_le_mono_pos_r lo m _ Hn), (Qcmult_le_mono_pos_r m hi _ Hn), Hm.
  split; [by apply total_lower|by apply total_upper].
Qed.

Lemma median_between xs m lo hi :
  Spec.is_median xs m → Spec.is_min xs lo → Spec.is_max xs hi → (lo ≤ m ∧ m ≤ hi)%Qc.
Proof.
  intros (s & Hp & _ & Hmid) [_ Hlo] [_ Hhi].
  rewrite Forall_forall in Hlo, Hhi. cbv zeta in Hmid.
  assert (∀ i x, s !! i = Some x → (lo ≤ x ∧ x ≤ hi)%Qc) as Hin.
  { intros i x Hx. apply list_elem_of_lookup_2 in Hx. rewrite Hp in Hx. auto. }
  destruct (Nat.odd (length s)).
  - by eapply Hin.
  - destruct Hmid as (a & b & Ha & Hb & ->).
    destruct (Hin _ _ Ha), (Hin _ _ Hb). by apply half_sum_between.
Qed.

Lemma summarises_ordered xs mean median mn mx :
  Spec.summarises xs mean median mn mx →
  (mn ≤ mean ∧ mean ≤ mx ∧ mn ≤ median ∧ median ≤ mx)%Qc.
Proof.
  intros (Hmean & Hmed & Hmin & Hmax).
  destruct (mean_between _ _ _ _ Hmean Hmin Hmax).
  destruct (median_between _ _ _ _ Hmed Hmin Hmax). done.
Qed.

Lemma statistics_ordered xs mean median mn mx :
  statistics.mean xs = Ok mean → statistics.median xs = Ok median →
  Py.min xs = Ok mn → Py.max xs = Ok mx →
  (mn ≤ mean ∧ mean ≤ mx ∧ mn ≤ median ∧ median ≤ mx)%Qc.
Proof.
  intros. apply (summarises_ordered xs). split_and!;
    [by apply mean_spec|by apply median_spec|by apply min_spec|by apply max_spec].
Qed.

(** X6. The statistics that a run reports are ordered: for each of the
    three sample lists of either path, the minimum is at most the mean and the
    median, and these are at most the maximum. *)
Theorem summary_statistics_ordered env csv out usecols client db tbl n wu :
  (∀ w w' st,
     benchmark_pandas_approach env csv out usecols n wu w = (w', Ok st) →
     (PandasRun.load_min st ≤ PandasRun.load_mean st ∧
      PandasRun.load_mean st ≤ PandasRun.load_max st ∧
      PandasRun.load_min st ≤ PandasRun.load_median st ∧
      PandasRun.load_median st ≤ PandasRun.load_max st)%Qc ∧
     (PandasRun.compute_min st ≤ PandasRun.compute_mean st ∧
      PandasRun.compute_mean st ≤ PandasRun.compute_max st ∧
      PandasRun.compute_min st ≤ PandasRun.compute_median st ∧
      PandasRun.compute_median st ≤ PandasRun.compute_max st)%Qc ∧
     (PandasRun.total_min st ≤ PandasRun.total_mean st ∧
      PandasRun.total_mean st ≤ PandasRun.total_max st ∧
      PandasRun.total_min st ≤ PandasRun.total_median st ∧
      PandasRun.total_median st ≤ PandasRun.total_max st)%Qc) ∧
  (∀ w w' st,
     benchmark_clickhouse_approach env client db tbl out n wu w = (w', Ok st) →
     (ClickHouseRun.query_min st ≤ ClickHouseRun.query_mean st ∧
      ClickHouseRun.query_mean st ≤ ClickHouseRun.query_max st ∧
      ClickHouseRun.query_min st ≤ ClickHouseRun.query_median st ∧
      ClickHouseRun.query_median st ≤ ClickHouseRun.query_max st)%Qc ∧
     (ClickHouseRun.save_min st ≤ ClickHouseRun.save_mean st ∧
      ClickHouseRun.save_mean st ≤ ClickHouseRun.save_max st ∧
      ClickHouseRun.save_min st ≤ ClickHouseRun.save_median st ∧
      ClickHouseRun.save_median st ≤ ClickHouseRun.save_max st)%Qc ∧
     (ClickHouseRun.total_min st ≤ ClickHouseRun.total_mean st ∧
      ClickHouseRun.total_mean st ≤ ClickHouseRun.total_max st ∧
      ClickHouseRun.total_min st ≤ ClickHouseRun.total_median st ∧
      ClickHouseRun.total_median st ≤ ClickHouseRun.total_max st)%Qc).
Proof.
  split; intros w w' st Hrun.
  - apply benchmark_pandas_ok in Hrun as (_ & Hsum & _).
    apply pandas_summary_ok in Hsum
      as (_ & M1 & M2 & M3 & D1 & D2 & D3 & N1 & N2 & N3 & X1 & X2 & X3).
    pose proof (statistics_ordered _ _ _ _ _ M1 D1 N1 X1).
    pose proof (statistics_ordered _ _ _ _ _ M2 D2 N2 X2).
    pose proof (statistics_ordered _ _ _ _ _ M3 D3 N3 X3). done.
  - apply benchmark_clickhouse_ok in Hrun as (_ & Hsum & _).
    apply clickhouse_summary_ok in Hsum
      as (_ & M1 & M2 & M3 & D1 & D2 & D3 & N1 & N2 & N3 & X1 & X2 & X3 & _).
    pose proof (statistics_ordered _ _ _ _ _ M1 D1 N1 X1).
    pose proof (statistics_ordered _ _ _ _ _ M2 D2 N2 X2).
    pose proof (statistics_ordered _ _ _ _ _ M3 D3 N3 X3). done.
Qed.

Lemma summary_statistics_ordered_witness :
  is_ok example_pandas_run.2 = true ∧
  ∀ st, example_pandas_run.2 = Ok st →
    (PandasRun.total_min st ≤ PandasRun.total_max st)%Qc.
Proof.
  split; [vm_compute; reflexivity|].
  intros st Hst. destruct example_pandas_run as [w' r] eqn:Hrun.
  simpl in Hst. subst r.
  destruct (proj1 (summary_statistics_ordered example_env "data/nyc_taxi_data.csv"
              "results_pandas.csv" None example_client "nyc_taxi" "trips_small" 3 1)
              example_world w' st Hrun)
    as (_ & _ & Hlo & Hhi & _).
  exact (Qcle_trans _ _ _ Hlo Hhi).
Defined.

(** ** A single measured iteration *)

Lemma statistics_singleton x :
  statistics.mean [x] = Ok x ∧ statistics.median [x] = Ok x ∧
  Py.min [x] = Ok x ∧ Py.max [x] = Ok x.
Proof.
  split_and!; try done.
  unfold statistics.mean, Py.sum. simpl. f_equal.
  rewrite qn_S, qn_0. field. exact Q_apart_0_1.
Qed.

Lemma length_1_inv {A} (l : list A) : length l = 1%nat → ∃ x, l = [x].
Proof. destruct l as [|x [|y l]]; try done. by exists x. Qed.

(** X5. With [iterations = 1] every list holds one sample, and the mean,
    the median, the minimum and the maximum of each list are that sample; the
    total sample is the sum of the two phase samples. *)
Theorem single_iteration_statistics env csv out usecols client db tbl wu :
  (∀ w w' st,
     benchmark_pandas_approach env csv out usecols 1 wu w = (w', Ok st) →
     ∃ l c,
       PandasRun.load_times (PandasRun.samples st) = [l] ∧
       PandasRun.compute_times (PandasRun.samples st) = [c] ∧
       PandasRun.total_times (PandasRun.samples st) = [(l + c)%Qc] ∧
       (PandasRun.load_mean st = l ∧ PandasRun.load_median st = l ∧
        PandasRun.load_min st = l ∧ PandasRun.load_max st = l) ∧
       (PandasRun.compute_mean st = c ∧ PandasRun.compute_median st = c ∧
        PandasRun.compute_min st = c ∧ PandasRun.compute_max st = c) ∧
       (PandasRun.total_mean st = (l + c)%Qc ∧ PandasRun.total_median st = (l + c)%Qc ∧
        PandasRun.total_min st = (l + c)%Qc ∧ PandasRun.total_max st = (l + c)%Qc)) ∧
  (∀ w w' st,
     benchmark_clickhouse_approach env client db tbl out 1 wu w = (w', Ok st) →
     ∃ q s,
       ClickHouseRun.query_times (ClickHouseRun.samples st) = [q] ∧
       ClickHouseRun.save_times (ClickHouseRun.samples st) = [s] ∧
       ClickHouseRun.total_times (ClickHouseRun.samples st) = [(q + s)%Qc] ∧
       (ClickHouseRun.query_mean st = q ∧ ClickHouseRun.query_median st = q ∧
        ClickHouseRun.query_min st = q ∧ ClickHouseRun.query_max st = q) ∧
       (ClickHouseRun.save_mean st = s ∧ ClickHouseRun.save_median st = s ∧
        ClickHouseRun.save_min st = s ∧ ClickHouseRun.save_max st = s) ∧
       (ClickHouseRun.total_mean st = (q + s)%Qc ∧
        ClickHouseRun.total_median st = (q + s)%Qc ∧
        ClickHouseRun.total_min st = (q + s)%Qc ∧
        ClickHouseRun.total_max st = (q + s)%Qc)).
Proof.
  split; intros w w' st Hrun.
  - apply benchmark_pandas_ok in Hrun as (_ & Hsum & Hl & Hc & Ht & _).
    apply pandas_summary_ok in Hsum
      as (_ & M1 & M2 & M3 & D1 & D2 & D3 & N1 & N2 & N3 & X1 & X2 & X3).
    apply length_1_inv in Hl as [l Hl], Hc as [c Hc].
    rewrite Hl, Hc in Ht. simpl in Ht. rewrite Hl in M1, D1, N1, X1.
    rewrite Hc in M2, D2, N2, X2. rewrite Ht in M3, D3, N3, X3.
    destruct (statistics_singleton l) as (A1 & A2 & A3 & A4).
    destruct (statistics_singleton c) as (B1 & B2 & B3 & B4).
    destruct (statistics_singleton (l + c)) as (C1 & C2 & C3 & C4).
    exists l, c. split_and!; try done; congruence.
  - apply benchmark_clickhouse_ok in Hrun as (_ & Hsum & Hl & Hc & Ht & _).
    apply clickhouse_summary_ok in Hsum
      as (_ & M1 & M2 & M3 & D1 & D2 & D3 & N1 & N2 & N3 & X1 & X2 & X3 & _).
    apply length_1_inv in Hl as [l Hl], Hc as [c Hc].
    rewrite Hl, Hc in Ht. simpl in Ht. rewrite Hl in M1, D1, N1, X1.
    rewrite Hc in M2, D2, N2, X2. rewrite Ht in M3, D3, N3, X3.
    destruct (statistics_singleton l) as (A1 & A2 & A3 & A4).
    destruct (statistics_singleton c) as (B1 & B2 & B3 & B4).
    destruct (statistics_singleton (l + c)) as (C1 & C2 & C3 & C4).
    exists l, c. split_and!; try done; congruence.
Qed.

Lemma single_iteration_statistics_witness :
  is_ok example_single_run.2 = true ∧
  ∀ st, example_single_run.2 = Ok st → PandasRun.total_mean st = PandasRun.total_max st.
Proof.
  split; [vm_compute; reflexivity|].
  intros st Hst. destruct example_single_run as [w' r] eqn:Hrun.
  simpl in Hst. subst r.
  destruct (proj1 (single_iteration_statistics example_env "data/nyc_taxi_data.csv"
              "results_pandas.csv" None example_client "nyc_taxi" "trips_small" 0)
              example_world w' st Hrun)
    as (l & c & _ & _ & _ & _ & _ & Ht1 & _ & _ & Ht4).
  rewrite Ht1, Ht4. reflexivity.
Defined.

(** ** Durations under a monotonic clock *)

Lemma elapsed_nonnegative clock i j :
  monotonic clock → (i ≤ j)%nat → (0 ≤ clock j - clock i)%Qc.
Proof. intros Hm Hij. by apply (proj1 (Qcle_minus_iff _ _)), Hm. Qed.

Lemma nonnegative_snoc xs x : nonnegative xs → (0 ≤ x)%Qc → nonnegative (xs ++ [x]).
Proof. intros. apply Forall_app. split; [done|]. by apply Forall_singleton. Qed.

Lemma pandas_loop_nonnegative env csv out usecols n k :
  monotonic (e_clock env) → ∀ a l w s',
  for_each (seq a k) (pandas_iteration env csv out usecols n) (l, w) = (s', Ok ()) →
  nonnegative (PandasRun.load_times l) → nonnegative (PandasRun.compute_times l) →
  nonnegative (PandasRun.load_times s'.1) ∧ nonnegative (PandasRun.compute_times s'.1).
Proof.
  intros Hm. induction k as [|k IH]; intros a l w s'.
  - by intros [= <-].
  - simpl seq. rewrite for_each_cons.
    destruct (pandas_iteration _ _ _ _ _ _ _) as [[l1 w1] [[]|e]] eqn:Hit; [|done].
    intros Hrest Hl Hc.
    destruct (pandas_iteration_ok _ _ _ _ _ _ _ _ _ Hit) as (df & g & _ & _ & Hl1 & _).
    simpl in Hl1. subst l1.
    apply (IH _ _ _ _ Hrest); simpl; apply nonnegative_snoc; try done;
      apply elapsed_nonnegative; (done || lia).
Qed.

Lemma clickhouse_loop_nonnegative env c db tbl out n k :
  monotonic (e_clock env) → ∀ a l w s',
  for_each (seq a k) (clickhouse_iteration env c db tbl out n) (l, w) = (s', Ok ()) →
  nonnegative (ClickHouseRun.query_times l) → nonnegative (ClickHouseRun.save_times l) →
  nonnegative (ClickHouseRun.query_times s'.1) ∧ nonnegative (ClickHouseRun.save_times s'.1).
Proof.
  intros Hm. induction k as [|k IH]; intros a l w s'.
  - by intros [= <-].
  - simpl seq. rewrite for_each_cons.
    destruct (clickhouse_iteration _ _ _ _ _ _ _ _) as [[l1 w1] [[]|e]] eqn:Hit; [|done].
    intros Hrest Hl Hc.
    destruct (clickhouse_iteration_ok _ _ _ _ _ _ _ _ _ _ Hit) as (rows & _ & Hl1 & _).
    simpl in Hl1. subst l1.
    apply (IH _ _ _ _ Hrest); simpl; apply nonnegative_snoc; try done;
      apply elapsed_nonnegative; try done; destruct (is_last n a); lia.
Qed.

Lemma nonnegative_zip_with_plus xs ys :
  nonnegative xs → nonnegative ys → nonnegative (zip_with Qcplus xs ys).
Proof.
  intros Hx. revert ys. induction Hx as [|x xs Hx0 _ IH]; intros ys Hy; [constructor|].
  destruct Hy as [|y ys Hy0 Hy]; [constructor|]. simpl. constructor.
  - by apply Qcplus_nonneg_nonneg.
  - by apply IH.
Qed.

Lemma min_nonnegative xs m : nonnegative xs → Py.min xs = Ok m → (0 ≤ m)%Qc.
Proof.
  intros Hxs [Hin _]%min_spec. unfold nonnegative in Hxs. rewrite Forall_forall in Hxs. auto.
Qed.

Lemma pandas_samples_nonnegative env csv out usecols n wu w w' st :
  monotonic (e_clock env) →
  benchmark_pandas_approach env csv out usecols n wu w = (w', Ok st) →
  nonnegative (PandasRun.load_times (PandasRun.samples st)) ∧
  nonnegative (PandasRun.compute_times (PandasRun.samples st)) ∧
  nonnegative (PandasRun.total_times (PandasRun.samples st)).
Proof.
  intros Hm Hrun. assert (Hrun' := Hrun).
  apply benchmark_pandas_ok in Hrun' as (_ & _ & _ & _ & Ht & _).
  rewrite benchmark_pandas_run in Hrun.
  destruct (pandas_warmup _ _ _ _ _) as [w1 [[]|e]]; [|done].
  destruct (pandas_loop _ _ _ _ _ _) as [s [[]|e]] eqn:Hloop; [|done].
  injection Hrun as <- Hsum. apply pandas_summary_ok in Hsum as (Hsam & _).
  unfold pandas_loop, for_range in Hloop.
  apply (pandas_loop_nonnegative _ _ _ _ _ _ Hm) in Hloop as [Hl Hc]; [|constructor..].
  rewrite Ht, Hsam. split_and!; try done. by apply nonnegative_zip_with_plus.
Qed.

Lemma clickhouse_samples_nonnegative env c db tbl out n wu w w' st :
  monotonic (e_clock env) →
  benchmark_clickhouse_approach env c db tbl out n wu w = (w', Ok st) →
  nonnegative (ClickHouseRun.query_times (ClickHouseRun.samples st)) ∧
  nonnegative (ClickHouseRun.save_times (ClickHouseRun.samples st)) ∧
  nonnegative (ClickHouseRun.total_times (ClickHouseRun.samples st)).
Proof.
  intros Hm Hrun. assert (Hrun' := Hrun).
  apply benchmark_clickhouse_ok in Hrun' as (_ & _ & _ & _ & Ht & _).
  rewrite benchmark_clickhouse_run in Hrun.
  destruct (clickhouse_warmup _ _ _ _ _ _) as [w1 [[]|e]]; [|done].
  destruct (clickhouse_loop _ _ _ _ _ _ _) as [s [[]|e]] eqn:Hloop; [|done].
  injection Hrun as <- Hsum. apply clickhouse_summary_ok in Hsum as (Hsam & _).
  unfold clickhouse_loop, for_range in Hloop.
  apply (clickhouse_loop_nonnegative _ _ _ _ _ _ _ Hm) in Hloop as [Hl Hc]; [|constructor..].
  rewrite Ht, Hsam. split_and!; try done. by apply nonnegative_zip_with_plus.
Qed.

Lemma qfrac_le a b d : (a ≤ b)%Z → (qfrac a d ≤ qfrac b d)%Qc.
Proof.
  intros Hab. unfold qfrac, Qcle. simpl. rewrite !Qred_correct.
  unfold Qle. simpl. nia.
Qed.

Lemma example_clock_monotonic : monotonic (e_clock example_env).
Proof. intros i j Hij. simpl. apply qfrac_le. nia. Qed.

(** X7. Under a monotonic clock (which [time.perf_counter] is) no recorded
    duration is negative, in either path, and so neither is a reported
    minimum. *)
Theorem monotonic_clock_nonnegative_durations env csv out usecols client db tbl n wu :
  monotonic (e_clock env) →
  (∀ w w' st,
     benchmark_pandas_approach env csv out usecols n wu w = (w', Ok st) →
     nonnegative (PandasRun.load_times (PandasRun.samples st)) ∧
     nonnegative (PandasRun.compute_times (PandasRun.samples st)) ∧
     nonnegative (PandasRun.total_times (PandasRun.samples st)) ∧
     (0 ≤ PandasRun.load_min st ∧ 0 ≤ PandasRun.compute_min st ∧
      0 ≤ PandasRun.total_min st)%Qc) ∧
  (∀ w w' st,
     benchmark_clickhouse_approach env client db tbl out n wu w = (w', Ok st) →
     nonnegative (ClickHouseRun.query_times (ClickHouseRun.samples st)) ∧
     nonnegative (ClickHouseRun.save_times (ClickHouseRun.samples st)) ∧
     nonnegative (ClickHouseRun.total_times (ClickHouseRun.samples st)) ∧
     (0 ≤ ClickHouseRun.query_min st ∧ 0 ≤ ClickHouseRun.save_min st ∧
      0 ≤ ClickHouseRun.total_min st)%Qc).
Proof.
  intros Hm. split; intros w w' st Hrun.
  - destruct (pandas_samples_nonnegative _ _ _ _ _ _ _ _ _ Hm Hrun) as (H1 & H2 & H3).
    apply benchmark_pandas_ok in Hrun as (_ & Hsum & _).
    apply pandas_summary_ok in Hsum as (_ & _ & _ & _ & _ & _ & _ & N1 & N2 & N3 & _).
    split_and!; try done;
      [exact (min_nonnegative _ _ H1 N1)|exact (min_nonnegative _ _ H2 N2)
      |exact (min_nonnegative _ _ H3 N3)].
  - destruct (clickhouse_samples_nonnegative _ _ _ _ _ _ _ _ _ _ Hm Hrun) as (H1 & H2 & H3).
    apply benchmark_clickhouse_ok in Hrun as (_ & Hsum & _).
    apply clickhouse_summary_ok in Hsum as (_ & _ & _ & _ & _ & _ & _ & N1 & N2 & N3 & _).
    split_and!; try done;
      [exact (min_nonnegative _ _ H1 N1)|exact (min_nonnegative _ _ H2 N2)
      |exact (min_nonnegative _ _ H3 N3)].
Qed.

Lemma monotonic_clock_nonnegative_durations_witness :
  is_ok example_pandas_run.2 = true ∧
  ∀ st, example_pandas_run.2 = Ok st → (0 ≤ PandasRun.total_min st)%Qc.
Proof.
  split; [vm_compute; reflexivity|].
  intros st Hst. destruct example_pandas_run as [w' r] eqn:Hrun.
  simpl in Hst. subst r.
  destruct (proj1 (monotonic_clock_nonnegative_durations example_env
              "data/nyc_taxi_data.csv" "results_pandas.csv" None example_client
              "nyc_taxi" "trips_small" 3 1 example_clock_monotonic)
              example_world w' st Hrun)
    as (_ & _ & _ & _ & _ & Hmin).
  exact Hmin.
Defined.

(** ** The two comparisons of the report *)

Lemma mean_nonnegative xs m : nonnegative xs → statistics.mean xs = Ok m → (0 ≤ m)%Qc.
Proof.
  intros Hxs [Hne Hm]%mean_spec.
  assert (0 < qn (length xs))%Qc as Hn by (apply qn_pos; destruct xs; [done|simpl; lia]).
  rewrite (Qcmult_le_mono_pos_r 0 m _ Hn), Hm.
  by apply total_lower.
Qed.

Lemma ratio_above_one (a b : Qc) : (0 < b → (1 < a / b ↔ 0 < a - b))%Qc.
Proof.
  intros Hb. rewrite (Qcmult_lt_mono_pos_r 1 (a / b) b Hb).
  replace (a / b * b)%Qc with a by (field; by apply Qclt_not_eq in Hb).
  rewrite Qcmult_1_l. apply Qclt_minus_iff.
Qed.

Lemma ratio_nonnegative (a b : Qc) : (0 ≤ a → 0 < b → 0 ≤ a / b)%Qc.
Proof.
  intros Ha Hb. apply Qcmult_nonneg_nonneg; [done|]. by apply Qclt_le_weak, Qcinv_pos.
Qed.

(** X8. Under a monotonic clock, when [main] reports, the total mean of
    the remote run is positive, both speedups are non-negative, and the two
    comparisons of the report agree: a speedup is above 1 exactly when the
    corresponding time saved is positive. *)
Theorem report_speedup_agrees_with_time_saved env args w w' rep :
  monotonic (e_clock env) →
  main env args w = (w', Ok rep) →
  (0 < ClickHouseRun.total_mean (clickhouse_stats rep))%Qc ∧
  (0 ≤ speedup_selective rep ∧ 0 ≤ speedup_full rep)%Qc ∧
  (1 < speedup_selective rep ↔ 0 < time_saved_selective rep)%Qc ∧
  (1 < speedup_full rep ↔ 0 < time_saved_full rep)%Qc.
Proof.
  intros Hm Hmain.
  apply main_ok_inv in Hmain
    as (w1 & w2 & w3 & c & s1 & s2 & s3 & _ & H1 & H2 & H3 & Hnz & ->).
  simpl.
  assert (∀ w w' out usecols st,
            benchmark_pandas_approach env (csv_input args) out usecols
              (iterations args) (warmup args) w = (w', Ok st) →
            (0 ≤ PandasRun.total_mean st)%Qc) as Hp.
  { intros ? ? ? ? st Hrun.
    destruct (pandas_samples_nonnegative _ _ _ _ _ _ _ _ _ Hm Hrun) as (_ & _ & Ht).
    apply benchmark_pandas_ok in Hrun as (_ & Hsum & _).
    apply pandas_summary_ok in Hsum as (_ & _ & _ & M3 & _).
    by eapply mean_nonnegative. }
  assert (0 < ClickHouseRun.total_mean s3)%Qc as Hpos.
  { destruct (clickhouse_samples_nonnegative _ _ _ _ _ _ _ _ _ _ Hm H3) as (_ & _ & Ht).
    apply benchmark_clickhouse_ok in H3 as (_ & Hsum & _).
    apply clickhouse_summary_ok in Hsum as (_ & _ & _ & M3 & _).
    pose proof (mean_nonnegative _ _ Ht M3) as H0.
    destruct (Qcle_lt_or_eq _ _ H0) as [?|Heq]; [done|]. by destruct Hnz. }
  split; [done|]. split.
  - split; apply ratio_nonnegative; eauto.
  - split; by apply ratio_above_one.
Qed.

Lemma report_speedup_agrees_with_time_saved_witness :
  ∃ w' rep, main example_env default_args example_world = (w', Ok rep) ∧
            (0 < ClickHouseRun.total_mean (clickhouse_stats rep))%Qc.
Proof.
  destruct (main example_env default_args example_world) as [w' r] eqn:Hmain.
  assert (is_ok r = true) as [rep ->]%is_ok_inv.
  { change r with (w', r).2. rewrite <-Hmain. vm_compute. reflexivity. }
  exists w', rep. split; [reflexivity|].
  exact (proj1 (report_speedup_agrees_with_time_saved example_env default_args
                  example_world w' rep example_clock_monotonic Hmain)).
Defined.

(** ** Failures of the first read *)

Ltac run_step :=
  rewrite ?bind_run, ?liftW_run, ?perf_counter_run, ?load_run, ?to_csv_run,
    ?client_query_run, ?calls_log_event, ?files_log_event; simpl.

Lemma compute_err_inv df e : compute df = Err e → aggregate df = Err e.
Proof.
  unfold compute, aggregate, pd.groupby_agg.
  destruct (pd.getcol "passenger_count" df) as [ks|e1]; simpl; [|by intros [= ->]].
  destruct (pd.getcol "fare_amount" df) as [vs|e2]; simpl; [|by intros [= ->]].
  done.
Qed.

Lemma pandas_warmup_first_fails env csv usecols wu w e :
  (1 ≤ wu)%Z →
  first_attempt env (calls w) (w_files w) csv usecols = Err e →
  pandas_warmup env csv usecols wu w = (log_event (read_event csv usecols) w, Err e).
Proof.
  intros Hwu. unfold first_attempt, pandas_warmup, for_range.
  replace (0 <? wu)%Z with true by (symmetry; apply Z.ltb_lt; lia).
  destruct (Z.to_nat wu) as [|k] eqn:Hk; [lia|]. simpl seq.
  rewrite for_each_cons, bind_run, load_run.
  destruct (e_fault env (calls w)); [by intros [= ->]|].
  destruct (loaded (w_files w) csv usecols) as [df|e']; simpl; [|by intros [= ->]].
  intros He%compute_err_inv. rewrite bind_run. unfold lift_result. by rewrite He.
Qed.

Lemma pandas_iteration_first_fails env csv out usecols n i l w e :
  first_attempt env (S (calls w)) (w_files w) csv usecols = Err e →
  ∃ s', pandas_iteration env csv out usecols n i (l, w) = (s', Err e) ∧
        w_files s'.2 = w_files w ∧ w_tables s'.2 = w_tables w.
Proof.
  unfold first_attempt, pandas_iteration. repeat run_step.
  destruct (e_fault env (S (calls w))); [intros [= ->]; by eexists|].
  destruct (loaded (w_files w) csv usecols) as [df|e']; simpl; [|intros [= ->]; by eexists].
  intros He. repeat run_step. unfold lift_result. rewrite He. by eexists.
Qed.

Lemma pandas_warmup_skipped env csv usecols wu w :
  (wu ≤ 0)%Z → pandas_warmup env csv usecols wu w = (w, Ok ()).
Proof.
  intros Hwu. unfold pandas_warmup.
  by replace (0 <? wu)%Z with false by (symmetry; apply Z.ltb_ge; lia).
Qed.

Lemma clickhouse_warmup_skipped env c db tbl wu w :
  (wu ≤ 0)%Z → clickhouse_warmup env c db tbl wu w = (w, Ok ()).
Proof.
  intros Hwu. unfold clickhouse_warmup.
  by replace (0 <? wu)%Z with false by (symmetry; apply Z.ltb_ge; lia).
Qed.

Lemma pandas_first_attempt_fails env csv out usecols n wu w e :
  (1 ≤ wu ∨ 1 ≤ n)%Z →
  first_attempt env (first_read wu w) (w_files w) csv usecols = Err e →
  ∃ w', benchmark_pandas_approach env csv out usecols n wu w = (w', Err e) ∧
        w_files w' = w_files w ∧ w_tables w' = w_tables w.
Proof.
  intros Hpos. unfold first_read. rewrite benchmark_pandas_run. case_decide as Hwu.
  - intros He. rewrite (pandas_warmup_first_fails _ _ _ _ _ _ Hwu He). by eexists.
  - intros He. rewrite pandas_warmup_skipped by lia.
    unfold pandas_loop, for_range.
    destruct (Z.to_nat n) as [|k] eqn:Hk; [lia|]. simpl seq. rewrite for_each_cons.
    destruct (pandas_iteration_first_fails env csv out usecols n 0 pandas_init w e He)
      as (s' & -> & Hf & Ht).
    by eexists.
Qed.

(** X1. When the input file does not exist and the run reads at all (a
    warmup or a measured iteration is asked for), [benchmark_pandas_approach]
    fails at its first read, with [FileNotFoundError] unless the call itself
    failed otherwise; no file and no table has changed. *)
Theorem pandas_missing_input_file env csv out usecols n wu w :
  w_files w !! csv = None →
  (1 ≤ wu ∨ 1 ≤ n)%Z →
  ∃ w', benchmark_pandas_approach env csv out usecols n wu w =
          (w', Err (default (Raised "FileNotFoundError") (e_fault env (first_read wu w)))) ∧
        w_files w' = w_files w ∧ w_tables w' = w_tables w.
Proof.
  intros Hnone Hpos. apply pandas_first_attempt_fails; [done|].
  unfold first_attempt, loaded. rewrite Hnone. by destruct (e_fault env _).
Qed.





Lemma pandas_missing_input_file_witness :
  ∃ w', benchmark_pandas_approach example_env "missing.csv" "results_pandas.csv"
          None 3 1 example_world = (w', Err (Raised "FileNotFoundError")).
Proof.
  destruct (pandas_missing_input_file example_env "missing.csv" "results_pandas.csv"
              None 3 1 example_world eq_refl ltac:(lia)) as (w' & Hrun & _).
  by exists w'.
Defined.

(** ** The remote path without its table *)

Lemma clickhouse_warmup_first_fails env c db tbl wu w e :
  (1 ≤ wu)%Z →
  match e_fault env (calls w) with
  | Some e => Err e
  | None => queried (w_tables w) db tbl (e_rng env (calls w))
  end = Err e →
  clickhouse_warmup env c db tbl wu w = (log_event (EvQuery db tbl) w, Err e).
Proof.
  intros Hwu. unfold clickhouse_warmup, for_range.
  replace (0 <? wu)%Z with true by (symmetry; apply Z.ltb_lt; lia).
  destruct (Z.to_nat wu) as [|k] eqn:Hk; [lia|]. simpl seq.
  rewrite for_each_cons, bind_run, client_query_run. by intros ->.
Qed.

(** X3. When the table does not exist and the run queries at all,
    [benchmark_clickhouse_approach] fails at its first query with the
    server's error; no file and no table has changed. *)
Theorem clickhouse_missing_table env c db tbl out n wu w :
  w_tables w !! (db, tbl) = None →
  (1 ≤ wu ∨ 1 ≤ n)%Z →
  ∃ w', benchmark_clickhouse_approach env c db tbl out n wu w =
          (w', Err (default (Raised "DatabaseError") (e_fault env (first_read wu w)))) ∧
        w_files w' = w_files w ∧ w_tables w' = w_tables w.
Proof.
  intros Hnone Hpos. rewrite benchmark_clickhouse_run. unfold first_read.
  case_decide as Hwu.
  - rewrite (clickhouse_warmup_first_fails env c db tbl wu w
               (default (Raised "DatabaseError") (e_fault env (calls w))) Hwu).
    + by eexists.
    + unfold queried. rewrite Hnone. by destruct (e_fault env _).
  - rewrite clickhouse_warmup_skipped by lia.
    unfold clickhouse_loop, for_range.
    destruct (Z.to_nat n) as [|k] eqn:Hk; [lia|]. simpl seq. rewrite for_each_cons.
    unfold clickhouse_iteration. repeat run_step.
    unfold queried. rewrite Hnone.
    destruct (e_fault env (S (calls w))); simpl; by eexists.
Qed.

Lemma clickhouse_missing_table_witness :
  ∃ w', benchmark_clickhouse_approach example_env example_client "nyc_taxi" "trips"
          "results_clickhouse.csv" 3 1 example_world = (w', Err (Raised "DatabaseError")).
Proof.
  destruct (clickhouse_missing_table example_env example_client "nyc_taxi" "trips"
              "results_clickhouse.csv" 3 1 example_world eq_refl ltac:(lia))
    as (w' & Hrun & _).
  by exists w'.
Defined.

(** ** Counts below one *)

(** X4. Counts below one behave as zero: [range] of a negative number is
    empty and the warmup is guarded by [warmup > 0].  So a non-positive
    [warmup] can be replaced by 0, a non-positive [iterations] as well, and
    with both non-positive the run makes no call at all and fails with
    [StatisticsError]. *)
Theorem negative_counts_as_zero env csv out usecols c db tbl n wu w :
  (n ≤ 0)%Z → (wu ≤ 0)%Z →
  (∀ n', benchmark_pandas_approach env csv out usecols n' wu w =
         benchmark_pandas_approach env csv out usecols n' 0 w) ∧
  (∀ wu', benchmark_pandas_approach env csv out usecols n wu' w =
          benchmark_pandas_approach env csv out usecols 0 wu' w) ∧
  (∀ n', benchmark_clickhouse_approach env c db tbl out n' wu w =
         benchmark_clickhouse_approach env c db tbl out n' 0 w) ∧
  (∀ wu', benchmark_clickhouse_approach env c db tbl out n wu' w =
          benchmark_clickhouse_approach env c db tbl out 0 wu' w) ∧
  benchmark_pandas_approach env csv out usecols n wu w = (w, Err StatisticsError) ∧
  benchmark_clickhouse_approach env c db tbl out n wu w = (w, Err StatisticsError).
Proof.
  intros Hn Hwu.
  assert (Z.to_nat n = 0%nat) as Hn0 by lia.
  split_and!.
  - intros n'. by rewrite !benchmark_pandas_run, !pandas_warmup_skipped.
  - intros wu'. rewrite !benchmark_pandas_run. unfold pandas_loop, for_range.
    by rewrite Hn0.
  - intros n'. by rewrite !benchmark_clickhouse_run, !clickhouse_warmup_skipped.
  - intros wu'. rewrite !benchmark_clickhouse_run. unfold clickhouse_loop, for_range.
    by rewrite Hn0.
  - rewrite benchmark_pandas_run, pandas_warmup_skipped by done.
    unfold pandas_loop, for_range. by rewrite Hn0.
  - rewrite benchmark_clickhouse_run, clickhouse_warmup_skipped by done.
    unfold clickhouse_loop, for_range. by rewrite Hn0.
Qed.

Lemma negative_counts_as_zero_witness :
  benchmark_pandas_approach example_env "data/nyc_taxi_data.csv" "results_pandas.csv"
    None (-2) (-1) example_world = (example_world, Err StatisticsError).
Proof.
  refine (proj1 (proj2 (proj2 (proj2 (proj2 (negative_counts_as_zero example_env
            "data/nyc_taxi_data.csv" "results_pandas.csv" None example_client
            "nyc_taxi" "trips_small" (-2) (-1) example_world _ _)))))); lia.
Defined.

(** ** The calls and the files of [main] *)

Lemma traced_main env args : traced id (main env args) (main_events args).
Proof.
  unfold main, main_events.
  eapply traced_bind; [apply traced_get_client|]. intros client.
  eapply traced_bind; [apply traced_benchmark_pandas|]. intros s1.
  eapply traced_bind; [apply traced_benchmark_pandas|]. intros s2.
  eapply traced_eq.
  - eapply traced_bind; [apply traced_benchmark_clickhouse|]. intros s3.
    eapply traced_bind; [apply traced_lift_result|]. intros _.
    eapply traced_bind; [apply traced_lift_result|]. intros _.
    eapply traced_bind; [apply traced_lift_result|]. intros _.
    eapply traced_bind; [apply traced_lift_result|]. intros ?.
    eapply traced_bind; [apply traced_lift_result|]. intros ?.
    apply traced_ret.
  - by rewrite !app_nil_r.
Qed.

(** X9. [main] connects first, then runs the local path with the two
    selected columns, then the local path on the whole file, then the remote
    path; when it raises, the calls made are a prefix of this sequence and
    nothing later is started.  With [iterations >= 1] the sequence writes
    three files, in this order: the pandas output, its [_full] variant and the
    ClickHouse output. *)
Theorem main_call_sequence env args w w' r :
  main env args w = (w', r) →
  ∃ evs, extends w w' evs ∧ evs `prefix_of` main_events args ∧
         (is_ok r = true → evs = main_events args) ∧
         ((1 ≤ iterations args)%Z →
            writes (main_events args) =
              [EvToCsv (csv_output_pandas args);
               EvToCsv (str_replace ".csv" "_full.csv" (csv_output_pandas args));
               EvToCsv (csv_output_clickhouse args)] ∧
            writes evs `prefix_of` writes (main_events args)).
Proof.
  intros Hmain. destruct (traced_main env args _ _ _ Hmain) as (evs & Hx & Hp & Hok).
  exists evs. split_and!; try done. intros Hn. split.
  - unfold main_events. rewrite !writes_app, !writes_pandas_run, writes_clickhouse_run by done.
    done.
  - by apply writes_prefix.
Qed.

Lemma main_call_sequence_witness :
  ∃ evs, extends example_world (main example_env default_args example_world).1 evs ∧
         writes evs = [EvToCsv "results_pandas.csv"; EvToCsv "results_pandas_full.csv";
                       EvToCsv "results_clickhouse.csv"].
Proof.
  destruct (main example_env default_args example_world) as [w' r] eqn:Hmain.
  assert (is_ok r = true) as Hok.
  { change r with (w', r).2. rewrite <-Hmain. vm_compute. reflexivity. }
  destruct (main_call_sequence example_env default_args example_world w' r Hmain)
    as (evs & Hx & _ & Hall & Hw).
  exists evs. split; [exact Hx|]. rewrite (Hall Hok).
  exact (proj1 (Hw ltac:(simpl; lia))).
Defined.

Lemma get_client_ok env h p u pw w w1 c :
  get_client env h p u pw w = (w1, Ok c) →
  c = MkClient h p u pw ∧ w_files w1 = w_files w ∧ w_tables w1 = w_tables w.
Proof.
  unfold get_client, external. destruct (e_fault env (calls w)); [done|].
  by intros [= <- <-].
Qed.

Lemma loaded_ok_file files csv usecols df :
  loaded files csv usecols = Ok df → ∃ file, files !! csv = Some file.
Proof. unfold loaded. destruct (files !! csv) as [file|]; [by exists file|done]. Qed.

(** X10. When [main] reports, the files on disk are the ones before with
    the three outputs written over them, each holding the result that the
    report shows for its run; the tables are unchanged; and the two local
    results are equal when the pandas output path is not the input path. *)
Theorem main_files env args w w' rep :
  main env args w = (w', Ok rep) →
  ∃ r1 r2 r3,
    PandasRun.results_df (PandasRun.samples (pandas_selective_stats rep)) = Some r1 ∧
    PandasRun.results_df (PandasRun.samples (pandas_full_stats rep)) = Some r2 ∧
    ClickHouseRun.results_df (ClickHouseRun.samples (clickhouse_stats rep)) = Some r3 ∧
    w_files w' =
      <[csv_output_clickhouse args := r3]>
        (<[str_replace ".csv" "_full.csv" (csv_output_pandas args) := r2]>
           (<[csv_output_pandas args := r1]> (w_files w))) ∧
    w_tables w' = w_tables w ∧
    (csv_output_pandas args ≠ csv_input args → r1 = r2).
Proof.
  intros Hmain. destruct (traced_main env args _ _ _ Hmain) as (evs & [_ Htab] & _).
  apply main_ok_inv in Hmain
    as (w1 & w2 & w3 & c & s1 & s2 & s3 & Hc & H1 & H2 & H3 & _ & ->).
  apply get_client_ok in Hc as (_ & Hf0 & _).
  apply benchmark_pandas_ok in H1 as (_ & _ & _ & _ & _ & df1 & r1 & Hl1 & Hc1 & Hr1 & Hf1).
  apply benchmark_pandas_ok in H2 as (_ & _ & _ & _ & _ & df2 & r2 & Hl2 & Hc2 & Hr2 & Hf2).
  apply benchmark_clickhouse_ok in H3 as (_ & _ & _ & _ & _ & _ & j & rows & _ & Hr3 & Hf3).
  eexists r1, r2, _. simpl. split_and!; try done.
  - by rewrite Hf3, Hf2, Hf1, Hf0.
  - intros Hne.
    destruct (loaded_ok_file _ _ _ _ Hl1) as [file Hfile].
    pose proof (compute_loaded _ _ _ _ _ _ Hfile Hl1 Hc1) as E1.
    assert (w_files w2 !! csv_input args = Some file) as Hfile2.
    { rewrite Hf1. by rewrite lookup_insert_ne. }
    pose proof (compute_loaded _ _ _ _ _ _ Hfile2 Hl2 Hc2) as E2.
    congruence.
Qed.

Lemma main_files_witness :
  ∃ r, w_files (main example_env default_args example_world).1
         !! "results_pandas_full.csv"%string = Some r ∧
       w_files (main example_env default_args example_world).1
         !! "results_pandas.csv"%string = Some r.
Proof.
  destruct (main example_env default_args example_world) as [w' r] eqn:Hmain.
  assert (is_ok r = true) as [rep ->]%is_ok_inv.
  { change r with (w', r).2. rewrite <-Hmain. vm_compute. reflexivity. }
  destruct (main_files example_env default_args example_world w' rep Hmain)
    as (r1 & r2 & r3 & _ & _ & _ & Hf & _ & Heq).
  exists r2. cbn [fst]. rewrite Hf. split.
  - rewrite lookup_insert_ne by (by apply (bool_decide_unpack _)).
    apply lookup_insert_eq.
  - rewrite lookup_insert_ne by (by apply (bool_decide_unpack _)).
    rewrite lookup_insert_ne by (by apply (bool_decide_unpack _)).
    rewrite (Heq ltac:(by apply (bool_decide_unpack _))). apply lookup_insert_eq.
Defined.

(** ** [str.replace] *)

Lemma string_prefix_app (old s : string) :
  String.prefix old s = true ↔ ∃ b, s = (old +:+ b)%string.
Proof.
  revert s. induction old as [|c old IH]; intros s.
  - split; [intros _; by exists s|]. intros _. by destruct s.
  - destruct s as [|c' s]; simpl; [split; [done|by intros [b ?]]|].
    destruct (Ascii.ascii_dec c c') as [->|Hne].
    + rewrite IH. split; intros [b Hb]; exists b; [by rewrite Hb|by injection Hb].
    + split; [done|]. intros [b [= ? ?]]. done.
Qed.

Lemma replace_from_skip old new (x b : string) :
  replace_from old new (String.length x) (x +:+ b) = replace_from old new 0 b.
Proof.
  induction x as [|c x IH]; simpl; [|done].
  by destruct b.
Qed.

Lemma replace_from_nil old new k : replace_from old new k "" = ""%string.
Proof. done. Qed.

Lemma replace_from_cons old new c s :
  replace_from old new 0 (String c s) =
    if String.prefix old (String c s)
    then (new +:+ replace_from old new (String.length old - 1) s)%string
    else String c (replace_from old new 0 s).
Proof. done. Qed.

(** The leftmost occurrence is replaced, and the replacement goes on behind
    it. *)
Lemma str_replace_first old new (a b : string) :
  old ≠ ""%string →
  (∀ a' b', (a +:+ old +:+ b = a' +:+ old +:+ b')%string →
            (String.length a ≤ String.length a')%nat) →
  str_replace old new (a +:+ old +:+ b) = (a +:+ new +:+ str_replace old new b)%string.
Proof.
  intros Hold. unfold str_replace. induction a as [|c a IH]; intros Hfirst.
  - destruct old as [|c old]; [done|].
    change ("" +:+ String c old +:+ b)%string with (String c (old +:+ b)).
    rewrite replace_from_cons.
    assert (String.prefix (String c old) (String c (old +:+ b)) = true) as ->.
    { apply string_prefix_app. by exists b. }
    replace (String.length (String c old) - 1)%nat with (String.length old)
      by (simpl; lia).
    by rewrite replace_from_skip.
  - change (String c a +:+ old +:+ b)%string with (String c (a +:+ old +:+ b)).
    rewrite replace_from_cons.
    destruct (String.prefix old (String c (a +:+ old +:+ b))) eqn:Hp.
    + apply string_prefix_app in Hp as [b' Hb'].
      specialize (Hfirst ""%string b' Hb'). simpl in Hfirst. lia.
    + change (String c a +:+ new +:+ replace_from old new 0 b)%string
        with (String c (a +:+ new +:+ replace_from old new 0 b)).
      f_equal. apply IH. intros a' b' Heq.
      specialize (Hfirst (String c a') b').
      change (String c a +:+ old +:+ b)%string with (String c (a +:+ old +:+ b)) in Hfirst.
      change (String c a' +:+ old +:+ b')%string with (String c (a' +:+ old +:+ b')) in Hfirst.
      rewrite Heq in Hfirst. specialize (Hfirst eq_refl). simpl in Hfirst. lia.
Qed.

Lemma str_replace_absent old new (s : string) :
  old ≠ ""%string →
  (∀ a b, s ≠ (a +:+ old +:+ b)%string) →
  str_replace old new s = s.
Proof.
  intros Hold. unfold str_replace. induction s as [|c s IH]; intros Habs; [done|].
  rewrite replace_from_cons.
  destruct (String.prefix old (String c s)) eqn:Hp.
  - apply string_prefix_app in Hp as [b' Hb']. by destruct (Habs ""%string b').
  - f_equal. apply IH. intros a b ->. by destruct (Habs (String c a) b).
Qed.

(** X11. The output path of the full run,
    [csv_output_pandas.replace('.csv', '_full.csv')]: a path without [.csv]
    is left as it is (both local runs then write the same file), and in a
    path whose first [.csv] follows [base], that occurrence becomes
    [_full.csv] and the replacement goes on in the rest. *)
Theorem full_run_output_path (p base rest : string) :
  ((∀ a b, p ≠ (a +:+ ".csv" +:+ b)%string) →
     str_replace ".csv" "_full.csv" p = p) ∧
  ((∀ a' b', (base +:+ ".csv" +:+ rest = a' +:+ ".csv" +:+ b')%string →
             (String.length base ≤ String.length a')%nat) →
     str_replace ".csv" "_full.csv" (base +:+ ".csv" +:+ rest) =
       (base +:+ "_full.csv" +:+ str_replace ".csv" "_full.csv" rest)%string).
Proof.
  split.
  - by apply str_replace_absent.
  - by apply str_replace_first.
Qed.

Lemma full_run_output_path_witness :
  str_replace ".csv" "_full.csv" "results_pandas.csv" = "results_pandas_full.csv"%string.
Proof.
  refine (proj2 (full_run_output_path "" "results_pandas" "") _).
  intros a' b' Heq. simpl in Heq.
  do 14 (destruct a' as [|? a']; [discriminate Heq|injection Heq as _ Heq]).
  simpl. lia.
Defined.

Section download_data_facts.
Import download_data.

(** ** The export of [download_data.py] *)


Lemma elem_of_table_names tbls db tbl :
  tbl ∈ table_names tbls db ↔ is_Some (tbls !! (db, tbl)).
Proof.
  unfold table_names. rewrite list_elem_of_omap. split.
  - intros ([[d n] t] & Hin & Hsome). simpl in Hsome. case_decide; [|done].
    injection Hsome as ->. subst d. apply elem_of_map_to_list in Hin. by exists t.
  - intros [t Ht]. exists ((db, tbl), t). split; [by apply elem_of_map_to_list|].
    simpl. by rewrite decide_True.
Qed.

Ltac export_unfold :=
  cbv [export_to_csv try_except download_data.get_client show_tables count select_all
       open_w write_rows external query_table mbind M_bind mret M_ret];
  cbn [files tables log length bind].

Ltac export_step :=
  match goal with
  | |- context [match ?fault ?n with Some _ => _ | None => _ end] =>
      destruct (fault n) eqn:?
  | |- context [decide (?x ∉ ?l)] => destruct (decide (x ∉ l))
  | |- context [@lookup _ _ (gmap (string * string) _) _ ?k ?m] =>
      destruct (m !! k) eqn:?
  end; cbn [files tables log length bind].

Lemma export_tables fault h p db tbl out u pw s s' r :
  export_to_csv fault h p db tbl out u pw s = (s', r) → tables s' = tables s.
Proof. export_unfold. repeat export_step; by intros [= <- <-]. Qed.


Lemma export_true_inv fault h p db tbl out u pw s s' :
  export_to_csv fault h p db tbl out u pw s = (s', Ok true) →
  ∃ t, tables s !! (db, tbl) = Some t ∧
       files s' = <[out := Complete (csv_frame (column_names t) (result_rows t))]> (files s).
Proof.
  export_unfold. repeat export_step; try done.
  intros [= <-]. eexists. split; [done|]. cbn [files]. by rewrite insert_insert_eq.
Qed.



(** X13. When [export_to_csv] returns [True], the table exists, none of
    its calls failed, they were the six calls of an export in order, and the
    output file is complete: the header of column names followed by the rows
    of the table. *)
Theorem export_success fault h p db tbl out u pw s s' :
  export_to_csv fault h p db tbl out u pw s = (s', Ok true) →
  ∃ t, tables s !! (db, tbl) = Some t ∧
       files s' = <[out := Complete (csv_frame (column_names t) (result_rows t))]> (files s) ∧
       tables s' = tables s ∧
       log s' = rev (export_events h p db tbl out) ++ log s ∧
       ∀ k, (k < 6)%nat → fault (length (log s) + k)%nat = None.
Proof.
  assert (∀ k : nat, (k < 6)%nat →
            k = 0%nat ∨ k = 1%nat ∨ k = 2%nat ∨ k = 3%nat ∨ k = 4%nat ∨ k = 5%nat) as Hk
    by (intros; lia).
  export_unfold. repeat export_step; try done.
  intros [= <-]. eexists. split; [done|]. cbn [files tables log].
  split; [by rewrite insert_insert_eq|]. split; [done|]. split; [done|].
  intros k Hlt.
  destruct (Hk k Hlt) as [-> | [-> | [-> | [-> | [-> | ->]]]]];
    rewrite ?Nat.add_0_r, ?Nat.add_1_r, <-?Nat.add_succ_comm, ?Nat.add_0_r; assumption.
Qed.

Lemma export_success_witness :
  ∃ t, tables example_server !! ("nyc_taxi"%string, "trips_small"%string) = Some t ∧
       files (export_to_csv (λ _, None) "localhost" 8123 "nyc_taxi" "trips_small"
                "data/nyc_taxi_data.csv" "default" "" example_server).1
         !! "data/nyc_taxi_data.csv"%string
       = Some (Complete (csv_frame (column_names t) (result_rows t))).
Proof.
  destruct (export_to_csv (λ _, None) "localhost" 8123 "nyc_taxi" "trips_small"
              "data/nyc_taxi_data.csv" "default" "" example_server) as [s' r] eqn:He.
  assert (r = Ok true) as ->.
  { change r with (s', r).2. rewrite <-He. vm_compute. reflexivity. }
  destruct (export_success _ _ _ _ _ _ _ _ _ _ He) as (t & Ht & Hf & _).
  exists t. split; [exact Ht|]. cbn [fst]. rewrite Hf. apply lookup_insert_eq.
Defined.

(** X14. When [export_to_csv] returns [False], the output file is either
    untouched or left truncated (it was opened for writing and the rows were
    not written); when the table does not exist it is untouched, and at most
    two calls were made. *)
Theorem export_failure fault h p db tbl out u pw s s' :
  export_to_csv fault h p db tbl out u pw s = (s', Ok false) →
  (files s' = files s ∨ files s' = <[out := Truncated]> (files s)) ∧
  (tables s !! (db, tbl) = None →
     files s' = files s ∧ (length (log s') ≤ 2 + length (log s))%nat).
Proof.
  export_unfold. repeat export_step; intros [= <-]; cbn [files tables log length];
    (split; [by (left + right)|]); intros Hnone;
    first [ done
          | (split; [done|lia])
          | (match goal with
             | H : ¬ (_ ∉ _) |- _ =>
                 destruct H; rewrite elem_of_table_names; intros [? ?]; congruence
             end) ].
Qed.

Lemma export_failure_witness :
  files (export_to_csv (λ _, None) "localhost" 8123 "nyc_taxi" "trips"
           "data/nyc_taxi_data.csv" "default" "" example_server).1 = files example_server.
Proof.
  destruct (export_to_csv (λ _, None) "localhost" 8123 "nyc_taxi" "trips"
              "data/nyc_taxi_data.csv" "default" "" example_server) as [s' r] eqn:He.
  assert (r = Ok false) as ->.
  { change r with (s', r).2. rewrite <-He. vm_compute. reflexivity. }
  exact (proj1 (proj2 (export_failure _ _ _ _ _ _ _ _ _ _ He) eq_refl)).
Defined.

(** X15. When the table exists and none of the six calls fails,
    [export_to_csv] returns [True] and leaves the complete file.  An empty
    table is exported too: the file then holds the header only. *)
Theorem export_complete fault h p db tbl out u pw s t :
  tables s !! (db, tbl) = Some t →
  (∀ k, (k < 6)%nat → fault (length (log s) + k)%nat = None) →
  export_to_csv fault h p db tbl out u pw s =
    (MkState (<[out := Complete (csv_frame (column_names t) (result_rows t))]> (files s))
             (tables s) (rev (export_events h p db tbl out) ++ log s),
     Ok true) ∧
  (nrows t = 0%nat →
     csv_frame (column_names t) (result_rows t) = (λ name, (name, [])) <$> column_names t).
Proof.
  intros Ht Hf. split.
  - pose proof (Hf 0%nat ltac:(lia)) as H0. pose proof (Hf 1%nat ltac:(lia)) as H1.
    pose proof (Hf 2%nat ltac:(lia)) as H2. pose proof (Hf 3%nat ltac:(lia)) as H3.
    pose proof (Hf 4%nat ltac:(lia)) as H4. pose proof (Hf 5%nat ltac:(lia)) as H5.
    replace (length (log s) + 0)%nat with (length (log s)) in H0 by lia.
    replace (length (log s) + 1)%nat with (S (length (log s))) in H1 by lia.
    replace (length (log s) + 2)%nat with (S (S (length (log s)))) in H2 by lia.
    replace (length (log s) + 3)%nat with (S (S (S (length (log s))))) in H3 by lia.
    replace (length (log s) + 4)%nat with (S (S (S (S (length (log s)))))) in H4 by lia.
    replace (length (log s) + 5)%nat with (S (S (S (S (S (length (log s))))))) in H5 by lia.
    export_unfold. rewrite H0. cbn [files tables log length bind].
    rewrite H1. cbn [files tables log length bind].
    destruct (decide (tbl ∉ table_names (tables s) db)) as [Hn|_].
    { destruct Hn. rewrite elem_of_table_names. by exists t. }
    cbn [files tables log length bind]. rewrite H2. cbn [files tables log length bind]. rewrite Ht.
    cbn [files tables log length bind]. rewrite H3. cbn [files tables log length bind].
    rewrite ?Ht, H4. cbn [files tables log length bind]. rewrite H5.
    cbn [files tables log length bind]. by rewrite insert_insert_eq.
  - intros Hz. unfold result_rows, csv_frame. rewrite Hz. simpl.
    apply list_eq. intros j. rewrite list_lookup_imap, list_lookup_fmap.
    by destruct (column_names t !! j).
Qed.

Lemma export_complete_witness :
  (export_to_csv (λ _, None) "localhost" 8123 "nyc_taxi" "trips_small"
     "data/nyc_taxi_data.csv" "default" "" example_server).2 = Ok true.
Proof.
  by rewrite (proj1 (export_complete (λ _, None) "localhost" 8123 "nyc_taxi" "trips_small"
                       "data/nyc_taxi_data.csv" "default" "" example_server example_table
                       eq_refl (λ _ _, eq_refl))).
Defined.



(** ** The exported file read back *)

Lemma rectangular_nrows t c : rectangular t → c ∈ t → length c.2 = nrows t.
Proof.
  intros Hrect Hc. destruct t as [|c0 t]; [by apply elem_of_nil in Hc|].
  simpl. apply Hrect; [done|]. by left.
Qed.

Lemma row_lookup t i j :
  (∀ c, c ∈ t → (i < length c.2)%nat) →
  row t i !! j = t !! j ≫= λ c, c.2 !! i.
Proof.
  revert j. induction t as [|c t IH]; intros j Hlen; [done|].
  unfold row. cbn [omap list_omap].
  destruct (lookup_lt_is_Some_2 c.2 i) as [y Hy]; [apply Hlen; by left|].
  rewrite Hy. destruct j as [|j]; [done|]. simpl.
  apply IH. intros c' Hc'. apply Hlen. by right.
Qed.

Lemma csv_frame_rectangular t :
  rectangular t → csv_frame (column_names t) (result_rows t) = as_frame t.
Proof.
  intros Hrect. unfold csv_frame, column_names, as_frame.
  apply list_eq. intros j. rewrite list_lookup_imap, !list_lookup_fmap.
  destruct (t !! j) as [[name col]|] eqn:Hj; [|done]. simpl. do 2 f_equal.
  assert (length col = nrows t) as Hcol.
  { apply (rectangular_nrows t (name, col) Hrect). by eapply list_elem_of_lookup_2. }
  unfold result_rows. rewrite <-list_fmap_compose.
  apply list_eq. intros i. rewrite !list_lookup_fmap.
  destruct (decide (i < nrows t)%nat) as [Hi|Hi].
  - rewrite lookup_seq_lt by done. simpl.
    rewrite row_lookup, Hj; [simpl|].
    + destruct (lookup_lt_is_Some_2 col i) as [x Hx]; [lia|]. by rewrite Hx.
    + intros c Hc. by rewrite (rectangular_nrows t c Hrect Hc).
  - rewrite lookup_seq_ge by lia. simpl.
    by rewrite (lookup_ge_None_2 col i) by lia.
Qed.



(** ** From the export to the benchmark *)

(** A local and a remote run over the same rectangular dataset whose
    groups fit the reservoir hold the same result. *)
Lemma runs_agree env1 env2 csv out1 usecols n1 wu1 client db tbl out2 n2 wu2
    w1 w1' w2 w2' st1 st2 (t : clickhouse.Table) ks vs :
  w_files w1 !! csv = Some (as_frame t) →
  w_tables w2 !! (db, tbl) = Some t →
  rectangular t →
  clickhouse.tcol "passenger_count" t = Some ks →
  clickhouse.tcol "fare_amount" t = Some vs →
  (∀ k, (length (values_of k (zip ks vs)) ≤ clickhouse.reservoir_size)%nat) →
  benchmark_pandas_approach env1 csv out1 usecols n1 wu1 w1 = (w1', Ok st1) →
  benchmark_clickhouse_approach env2 client db tbl out2 n2 wu2 w2 = (w2', Ok st2) →
  ∃ result,
    PandasRun.results_df (PandasRun.samples st1) = Some result ∧
    ClickHouseRun.results_df (ClickHouseRun.samples st2) = Some result ∧
    w_files w1' !! out1 = Some result ∧ w_files w2' !! out2 = Some result.
Proof.
  intros Hfile Htab Hrect Hks Hvs Hsmall Hrun1 Hrun2.
  assert (length ks = length vs) as Hlen.
  { apply (Hrect ("passenger_count"%string, ks) ("fare_amount"%string, vs));
      by apply tcol_elem. }
  apply benchmark_pandas_ok in Hrun1
    as (_ & _ & _ & _ & _ & df & g & Hl & Hc & Hr1 & Hf1).
  apply (compute_loaded _ _ _ _ _ _ Hfile Hl) in Hc.
  apply benchmark_clickhouse_ok in Hrun2
    as (_ & _ & _ & _ & _ & _ & j & rows & Hq & Hr2 & Hf2).
  unfold queried in Hq. rewrite Htab in Hq.
  rewrite (local_remote_frames (e_rng env2 j) t ks vs Hks Hvs Hlen Hsmall), Hq in Hc.
  simpl in Hc. injection Hc as <-.
  eexists. split; [done|]. split; [done|].
  rewrite Hf1, Hf2. split; apply lookup_insert_eq.
Qed.

(** X18. From the export to the benchmark: when [export_to_csv] returned
    [True] for a rectangular table whose groups have at most 8192 rows, a run
    of the local path on the exported file and a run of the remote path on
    the table, if both return, hold and write the same Aggregation Result. *)
Theorem export_then_benchmark fault h p db tbl out u pw s s'
    env1 env2 out1 usecols n1 wu1 client out2 n2 wu2 w1 w1' w2 w2' st1 st2 t ks vs :
  export_to_csv fault h p db tbl out u pw s = (s', Ok true) →
  tables s !! (db, tbl) = Some t →
  rectangular t →
  clickhouse.tcol "passenger_count" t = Some ks →
  clickhouse.tcol "fare_amount" t = Some vs →
  (∀ k, (length (values_of k (zip ks vs)) ≤ clickhouse.reservoir_size)%nat) →
  (∀ df, files s' !! out = Some (Complete df) → w_files w1 !! out = Some df) →
  w_tables w2 = tables s' →
  benchmark_pandas_approach env1 out out1 usecols n1 wu1 w1 = (w1', Ok st1) →
  benchmark_clickhouse_approach env2 client db tbl out2 n2 wu2 w2 = (w2', Ok st2) →
  ∃ result,
    PandasRun.results_df (PandasRun.samples st1) = Some result ∧
    ClickHouseRun.results_df (ClickHouseRun.samples st2) = Some result ∧
    w_files w1' !! out1 = Some result ∧ w_files w2' !! out2 = Some result.
Proof.
  intros Hexp Ht Hrect Hks Hvs Hsmall Hw1 Hw2 Hrun1 Hrun2.
  pose proof (export_tables _ _ _ _ _ _ _ _ _ _ _ Hexp) as Htab.
  apply export_true_inv in Hexp as (t' & Ht' & Hf).
  assert (t' = t) as -> by congruence.
  eapply (runs_agree env1 env2 out out1 usecols n1 wu1 client db tbl out2 n2 wu2
            w1 w1' w2 w2' st1 st2 t ks vs); try done.
  - apply Hw1. rewrite Hf, lookup_insert_eq. by rewrite csv_frame_rectangular.
  - by rewrite Hw2, Htab.
Qed.

Lemma export_then_benchmark_witness :
  ∃ result, pandas_results example_pandas_run.2 = Some result ∧
            clickhouse_results example_clickhouse_run.2 = Some result.
Proof.
  destruct (export_to_csv (λ _, None) "localhost" 8123 "nyc_taxi" "trips_small"
              "data/nyc_taxi_data.csv" "default" "" example_server) as [s' r] eqn:He.
  assert (r = Ok true) as ->.
  { change r with (s', r).2. rewrite <-He. vm_compute. reflexivity. }
  assert (files s' !! "data/nyc_taxi_data.csv"%string = Some (Complete example_df)) as Hfile.
  { change s' with (s', @Ok bool true).1. rewrite <-He. vm_compute. reflexivity. }
  assert (w_tables example_world = tables s') as Htab.
  { rewrite (export_tables _ _ _ _ _ _ _ _ _ _ _ He). reflexivity. }
  destruct example_pandas_run as [w1 r1] eqn:Hrun1.
  assert (is_ok r1 = true) as [st1 ->]%is_ok_inv.
  { change r1 with (w1, r1).2. rewrite <-Hrun1. vm_compute. reflexivity. }
  destruct example_clickhouse_run as [w2 r2] eqn:Hrun2.
  assert (is_ok r2 = true) as [st2 ->]%is_ok_inv.
  { change r2 with (w2, r2).2. rewrite <-Hrun2. vm_compute. reflexivity. }
  assert (rectangular example_table) as Hrect.
  { intros c1 c2 Hc1 Hc2.
    assert (Forall (λ c : string * list Qc, length c.2 = 3%nat) example_table) as Hall
      by (repeat constructor).
    rewrite Forall_forall in Hall. by rewrite (Hall _ Hc1), (Hall _ Hc2). }
  assert (∀ k, (length (values_of k (zip [qz 1; qz 1; qz 2] [qz 10; qz 20; qz 15]))
                ≤ clickhouse.reservoir_size)%nat) as Hsmall.
  { intros k. etrans; [apply values_of_length|]. unfold clickhouse.reservoir_size.
    simpl length. lia. }
  assert (∀ df, files s' !! "data/nyc_taxi_data.csv"%string = Some (Complete df) →
                w_files example_world !! "data/nyc_taxi_data.csv"%string = Some df) as Hw1.
  { intros df Hdf. rewrite Hfile in Hdf. injection Hdf as <-. reflexivity. }
  destruct (export_then_benchmark (λ _, None) "localhost" 8123 "nyc_taxi" "trips_small"
              "data/nyc_taxi_data.csv" "default" "" example_server s'
              example_env example_env "results_pandas.csv" None 3 1 example_client
              "results_clickhouse.csv" 3 1 example_world w1 example_world w2 st1 st2
              example_table [qz 1; qz 1; qz 2] [qz 10; qz 20; qz 15]
              He eq_refl Hrect eq_refl eq_refl Hsmall Hw1 Htab Hrun1 Hrun2)
    as (result & H1 & H2 & _).
  exists result. split; assumption.
Defined.


End download_data_facts.

Section moving_avg_facts.
Import moving_avg.

(** ** The moving average of [moving_avg.py] *)


Lemma total_nonnegative xs : nonnegative xs → (0 ≤ Spec.total xs)%Qc.
Proof.
  intros Hxs. pose proof (total_lower 0 xs Hxs) as H. by rewrite Qcmult_0_l in H.
Qed.

Lemma total_snoc xs x : Spec.total (xs ++ [x]) = (Spec.total xs + x)%Qc.
Proof. rewrite total_app. simpl. by rewrite Qcplus_0_r. Qed.

Lemma signbit_nonnegative x : (0 ≤ x)%Qc → signbit x = false.
Proof. intros Hx. unfold signbit. apply bool_decide_eq_false. by apply Qcle_not_lt. Qed.

Lemma length_window_rows {A} w i (values : list A) :
  (i < length values)%nat → length (window_rows w i values) = (S i `min` w)%nat.
Proof. intros Hi. unfold window_rows. rewrite length_drop, length_take. lia. Qed.

Lemma roll_step_state w values i val st :
  (1 ≤ w)%nat → nonnegative values → values !! i = Some val →
  mean_state_before w values i st →
  let st1 := if (w <=? i)%nat then
               match values !! (i - w)%nat with
               | Some old => remove_mean old st
               | None => st
               end
             else st in
  mean_state_before w values (S i) (add_mean val st1) ∧
  sum_x (add_mean val st1) = Spec.total (window_rows w i values).
Proof.
  intros Hw Hnn Hval (Hn & Hs & Hneg). cbv zeta.
  assert (0 ≤ val)%Qc as Hval0.
  { unfold nonnegative in Hnn. rewrite Forall_forall in Hnn.
    by eapply Hnn, list_elem_of_lookup_2. }
  assert (i < length values)%nat as Hi by (by eapply lookup_lt_Some).
  assert (Spec.total (drop (S i - w) (take (S i) values)) =
          Spec.total (drop (S i - w) (take i values)) + val)%Qc as Hsnoc.
  { rewrite (take_S_r _ _ _ Hval), drop_app_le by (rewrite length_take; lia).
    apply total_snoc. }
  unfold window_rows, mean_state_before. rewrite !Hsnoc.
  destruct (w <=? i)%nat eqn:Hwi.
  - apply Nat.leb_le in Hwi.
    destruct (lookup_lt_is_Some_2 values (i - w)) as [old Hold]; [lia|]. rewrite Hold.
    assert (0 ≤ old)%Qc as Hold0.
    { unfold nonnegative in Hnn. rewrite Forall_forall in Hnn.
      by eapply Hnn, list_elem_of_lookup_2. }
    assert (drop (i - w) (take i values) = old :: drop (S i - w) (take i values)) as Hdrop.
    { replace (S i - w)%nat with (S (i - w)) by lia. apply drop_S.
      rewrite lookup_take_lt by lia. done. }
    unfold add_mean, remove_mean. cbn [nobs sum_x neg_ct].
    rewrite !signbit_nonnegative by done. rewrite Hs, Hdrop, Hn, Hneg. simpl Spec.total.
    split; [split_and!|]; try done; [lia|ring|ring].
  - apply Nat.leb_gt in Hwi.
    unfold add_mean. cbn [nobs sum_x neg_ct].
    rewrite signbit_nonnegative by done. rewrite Hs, Hn, Hneg.
    replace (S i - w)%nat with 0%nat by lia. replace (i - w)%nat with 0%nat by lia.
    split; [split_and!|]; try done. lia.
Qed.

Lemma calc_mean_full w st :
  (1 ≤ w)%nat → neg_ct st = 0%nat → (0 ≤ sum_x st)%Qc →
  calc_mean w st =
    if (w <=? nobs st)%nat then Some (sum_x st / qn (nobs st))%Qc else None.
Proof.
  intros Hw Hneg Hsum. unfold calc_mean. cbv zeta.
  destruct (w <=? nobs st)%nat eqn:Hle; [|done].
  apply Nat.leb_le in Hle.
  replace (0 <? nobs st)%nat with true by (symmetry; apply Nat.ltb_lt; lia).
  rewrite Hneg. cbn [andb Nat.eqb].
  rewrite bool_decide_eq_false_2; cbn [andb].
  - destruct (nobs st); [lia|done].
  - apply Qcle_not_lt, ratio_nonnegative; [done|]. apply qn_pos. lia.
Qed.

Lemma roll_from_spec w values :
  (1 ≤ w)%nat → nonnegative values → ∀ todo i st,
  drop i values = todo → mean_state_before w values i st →
  roll_from w w values st i todo = window_mean w values <$> seq i (length todo).
Proof.
  intros Hw Hnn. induction todo as [|val todo IH]; intros i st Hdrop Hst; [done|].
  assert (values !! i = Some val) as Hval.
  { rewrite <-(Nat.add_0_r i), <-lookup_drop, Hdrop. done. }
  destruct (roll_step_state w values i val st Hw Hnn Hval Hst) as [Hst' Hsum].
  cbn [roll_from length seq fmap list_fmap]. f_equal.
  - rewrite calc_mean_full; [|done|by destruct Hst' as (_ & _ & ?)|].
    + destruct Hst' as (Hn & _ & _). rewrite Hn, Hsum. unfold window_mean.
      destruct (S i <? w)%nat eqn:Hlt.
      * apply Nat.ltb_lt in Hlt.
        by replace (w <=? S i `min` w)%nat with false by (symmetry; apply Nat.leb_gt; lia).
      * apply Nat.ltb_ge in Hlt.
        replace (w <=? S i `min` w)%nat with true by (symmetry; apply Nat.leb_le; lia).
        by replace (S i `min` w)%nat with w by lia.
    + rewrite Hsum. apply total_nonnegative. unfold window_rows.
      by apply Forall_drop, Forall_take.
  - apply IH; [|done]. rewrite <-Nat.add_1_r, <-drop_drop, Hdrop. done.
Qed.

Lemma rolling_mean_spec w values :
  (1 ≤ w)%nat → nonnegative values →
  rolling_mean w values = window_mean w values <$> seq 0 (length values).
Proof.
  intros Hw Hnn. unfold rolling_mean. by apply roll_from_spec.
Qed.

(** *** The daily counts *)

Lemma strict_keys_sorted (rows : list (Qc * nat)) :
  StronglySorted Qclt rows.*1 → Sorted by_date rows.
Proof.
  induction rows as [|a rows IH]; [constructor|].
  cbn [fmap list_fmap]. intros [Hall Hs]%StronglySorted_cons.
  constructor; [by apply IH|].
  destruct rows as [|b rows]; constructor.
  unfold by_date. apply Qclt_le_weak. by apply Forall_cons in Hall as [? _].
Qed.

Lemma strict_keys_inj (rows : list (Qc * nat)) x y :
  StronglySorted Qclt rows.*1 → x ∈ rows → y ∈ rows → x.1 = y.1 → x = y.
Proof.
  induction rows as [|a rows IH]; [by intros _ ?%elem_of_nil|].
  cbn [fmap list_fmap]. intros [Hall Hs]%StronglySorted_cons Hx Hy Heq.
  rewrite Forall_forall in Hall.
  assert (∀ z, z ∈ rows → a.1 ≠ z.1) as Hne.
  { intros z Hz E. apply (Qclt_not_eq a.1 z.1); [|done].
    apply Hall. apply list_elem_of_fmap. by exists z. }
  apply elem_of_cons in Hx as [->|Hx], Hy as [->|Hy]; try done.
  - by destruct (Hne _ Hy).
  - by destruct (Hne _ Hx).
  - by apply IH.
Qed.

Lemma sort_values_sorted (rows : list (Qc * nat)) :
  StronglySorted Qclt rows.*1 → sort_values rows = rows.
Proof.
  intros Hs. unfold sort_values.
  apply (Sorted_unique_strong by_date).
  - intros x1 x2 Hx1 Hx2 H12 H21. rewrite merge_sort_Permutation in Hx1.
    apply (strict_keys_inj rows); try done. by apply Qcle_antisym.
  - apply Sorted_merge_sort, _.
  - by apply strict_keys_sorted.
  - apply merge_sort_Permutation.
Qed.

Lemma daily_counts_dates pickups :
  (daily_counts pickups).*1 = pd.group_index (dates pickups).
Proof.
  unfold daily_counts. cbv zeta. rewrite <-list_fmap_compose.
  by rewrite <-(list_fmap_id (pd.group_index _)) at 2.
Qed.

Lemma daily_counts_strict pickups : StronglySorted Qclt (daily_counts pickups).*1.
Proof. rewrite daily_counts_dates. apply group_index_strict. Qed.

Lemma group_size_dates d pickups :
  pd.group_size d (dates pickups) =
    length (filter (λ t : pd.cell, date <$> t = Some d) pickups).
Proof.
  unfold pd.group_size, dates. induction pickups as [|t pickups IH]; [done|].
  cbn [fmap list_fmap]. rewrite !filter_cons.
  destruct (decide (date <$> t = Some d)) as [Heq|Hne];
    rewrite ?decide_True, ?decide_False by done; simpl; by rewrite ?IH.
Qed.

Lemma sum_list_fmap_add {A} (f g : A → nat) l :
  sum_list ((λ k, f k + g k)%nat <$> l) = (sum_list (f <$> l) + sum_list (g <$> l))%nat.
Proof. induction l as [|x l IH]; [done|]. csimpl. rewrite IH. lia. Qed.

Lemma sum_list_indicator (idx : list Qc) x :
  NoDup idx →
  sum_list ((λ k, if decide (x = k) then 1 else 0)%nat <$> idx) =
    (if decide (x ∈ idx) then 1 else 0)%nat.
Proof.
  induction 1 as [|k idx Hk _ IH]; [done|]. csimpl. rewrite IH.
  destruct (decide (x = k)) as [->|Hne].
  - rewrite (decide_False (P := k ∈ idx)) by done. by rewrite decide_True by left.
  - destruct (decide (x ∈ idx)) as [Hin|Hnin].
    + rewrite decide_True by (by right). done.
    + rewrite decide_False; [done|]. by intros [?|?]%elem_of_cons.
Qed.

Lemma group_size_cons k c ks :
  pd.group_size k (c :: ks) =
    ((if decide (c = Some k) then 1 else 0) + pd.group_size k ks)%nat.
Proof. unfold pd.group_size. rewrite filter_cons. by case_decide. Qed.

Lemma sum_list_fmap_zero {A} (l : list A) : sum_list ((λ _, 0%nat) <$> l) = 0%nat.
Proof. induction l as [|x l IH]; [done|]. csimpl. by rewrite IH. Qed.

Lemma count_partition (idx : list Qc) (ks : list pd.cell) :
  NoDup idx → (∀ k, Some k ∈ ks → k ∈ idx) →
  sum_list ((λ k, pd.group_size k ks) <$> idx) = length (omap id ks).
Proof.
  intros Hnd. induction ks as [|c ks IH]; intros Hin.
  - apply sum_list_fmap_zero.
  - rewrite (list_fmap_ext _ (λ k, (if decide (c = Some k) then 1 else 0)
                                   + pd.group_size k ks)%nat)
      by (intros ? k _; apply group_size_cons).
    rewrite sum_list_fmap_add, IH by (intros k Hk; apply Hin; by right).
    destruct c as [x|]; simpl.
    + rewrite (list_fmap_ext _ (λ k, if decide (x = k) then 1 else 0)%nat).
      * rewrite sum_list_indicator by done. rewrite decide_True; [done|]. apply Hin. by left.
      * intros ? k _. simpl. destruct (decide (x = k)) as [->|?].
        -- by rewrite decide_True.
        -- rewrite decide_False; [done|congruence].
    + by rewrite sum_list_fmap_zero.
Qed.

Lemma length_omap_dates pickups :
  length (omap id (dates pickups)) = length (omap id pickups).
Proof.
  unfold dates. induction pickups as [|[t|] pickups IH]; simpl;
    [done|f_equal; exact IH|exact IH].
Qed.

Lemma group_index_nodup ks : NoDup (pd.group_index ks).
Proof.
  unfold pd.group_index, pd.uniques. rewrite merge_sort_Permutation. apply NoDup_remove_dups.
Qed.

(** X19. The daily table of [moving_avg.py]: its days are strictly
    ascending and are exactly the days on which some pickup falls; the trips
    of a day are the number of pickups of that day, at least one; the trips
    of all days add up to the number of rows that have a timestamp; and
    [sort_values('date')] leaves the table as it is. *)
Theorem daily_counts_spec pickups :
  let daily := daily_counts pickups in
  StronglySorted Qclt daily.*1 ∧
  (∀ d, d ∈ daily.*1 ↔ ∃ t, Some t ∈ pickups ∧ date t = d) ∧
  (∀ d n, (d, n) ∈ daily →
     n = length (filter (λ t : pd.cell, date <$> t = Some d) pickups) ∧ (1 ≤ n)%nat) ∧
  sum_list daily.*2 = length (omap id pickups) ∧
  sort_values daily = daily.
Proof.
  cbv zeta. split_and!.
  - apply daily_counts_strict.
  - intros d. rewrite daily_counts_dates, elem_of_group_index. unfold dates.
    rewrite list_elem_of_fmap. split.
    + intros ([t|] & Heq & Hin); [|done]. injection Heq as ->. by exists t.
    + intros (t & Hin & <-). by exists (Some t).
  - intros d n Hin. unfold daily_counts in Hin. cbv zeta in Hin.
    apply list_elem_of_fmap in Hin as (d' & [= -> ->] & Hd).
    rewrite group_size_dates. split; [done|].
    apply elem_of_group_index in Hd. unfold dates in Hd.
    apply list_elem_of_fmap in Hd as (t & Heq & Ht).
    assert (t ∈ filter (λ t : pd.cell, date <$> t = Some d') pickups) as Hf
      by (by apply list_elem_of_filter).
    destruct (filter _ pickups); [by apply elem_of_nil in Hf|simpl; lia].
  - unfold daily_counts. cbv zeta. rewrite <-list_fmap_compose.
    rewrite <-length_omap_dates. apply (count_partition _ _ (group_index_nodup _)).
    intros k Hk. by apply elem_of_group_index.
  - apply sort_values_sorted, daily_counts_strict.
Qed.

Lemma daily_counts_spec_witness :
  sum_list (daily_counts example_pickups).*2 = length (omap id example_pickups).
Proof. exact (proj1 (proj2 (proj2 (proj2 (daily_counts_spec example_pickups))))). Defined.

(** *** The frame that is plotted *)

Lemma qn_add a b : qn (a + b) = (qn a + qn b)%Qc.
Proof. unfold qn. by rewrite Nat2Z.inj_add, Z2Qc_inj_add. Qed.

Lemma total_qn (l : list nat) : Spec.total (qn <$> l) = qn (sum_list l).
Proof.
  induction l as [|x l IH]; [symmetry; apply qn_0|]. csimpl. by rewrite qn_add, <-IH.
Qed.

Lemma qn_nonnegative n : (0 ≤ qn n)%Qc.
Proof. unfold qn. rewrite <-Z2Qc_inj_0. apply (proj1 (Z2Qc_inj_le _ _)). lia. Qed.

Lemma daily_moving_avg_unfold pickups :
  daily_moving_avg pickups =
    let daily := daily_counts pickups in
    drop 6 (zip daily (window_mean 7 (qn <$> daily.*2) <$> seq 0 (length daily))).
Proof.
  unfold daily_moving_avg. cbv zeta.
  rewrite !(sort_values_sorted _ (daily_counts_strict pickups)).
  assert ((λ r : Qc * nat, qn r.2) <$> daily_counts pickups
          = qn <$> (daily_counts pickups).*2) as -> by (by rewrite <-list_fmap_compose).
  rewrite rolling_mean_spec, !length_fmap; [done|lia|].
  apply Forall_fmap, Forall_true. intros n. apply qn_nonnegative.
Qed.

Lemma daily_moving_avg_row pickups k d n :
  daily_counts pickups !! (6 + k)%nat = Some (d, n) →
  daily_moving_avg pickups !! k =
    Some (d, n, Some (qn (sum_list (take 7 (drop k (daily_counts pickups))).*2)
                      / qn 7)%Qc).
Proof.
  intros Hk. rewrite daily_moving_avg_unfold. cbv zeta.
  rewrite lookup_drop, lookup_zip_with, Hk. simpl.
  rewrite list_lookup_fmap, lookup_seq_lt by (by eapply lookup_lt_Some). simpl.
  change (S (S (S (S (S (S k)))))) with (6 + k)%nat.
  unfold window_mean. replace (S (6 + k) <? 7)%nat with false
    by (symmetry; apply Nat.ltb_ge; lia).
  do 3 f_equal. unfold window_rows.
  replace (S (6 + k) - 7)%nat with k by lia.
  replace (S (6 + k)) with (k + 7)%nat by lia.
  rewrite <-take_drop_commute, <-total_qn.
  by rewrite fmap_take, fmap_drop, fmap_take, fmap_drop.
Qed.




Lemma group_size_filter (P : pd.cell → Prop) `{∀ c, Decision (P c)} k ks :
  P (Some k) → pd.group_size k (filter P ks) = pd.group_size k ks.
Proof.
  intros Hk. unfold pd.group_size. rewrite list_filter_filter.
  f_equal. apply list_filter_iff. intros c. split; [by intros [? _]|].
  intros ->. done.
Qed.

(** The sizes of the groups of some keys add up to the number of rows with
    one of these keys. *)
Lemma count_partition_of (idx : list Qc) (ks : list pd.cell) :
  NoDup idx →
  sum_list ((λ k, pd.group_size k ks) <$> idx) =
    length (filter (λ c : pd.cell, c ∈ Some <$> idx) ks).
Proof.
  intros Hnd. set (ks' := filter (λ c : pd.cell, c ∈ Some <$> idx) ks).
  rewrite (list_fmap_ext _ (λ k, pd.group_size k ks') idx).
  - rewrite (count_partition idx ks' Hnd).
    + assert (Forall (λ c : pd.cell, is_Some c) ks') as Hall.
      { apply Forall_forall. intros c [Hc _]%list_elem_of_filter.
        apply list_elem_of_fmap in Hc as (k & -> & _). by eexists. }
      clear -Hall. induction Hall as [|c l [x ->] _ IH]; [done|]. simpl. f_equal. exact IH.
    + intros k [Hk _]%list_elem_of_filter.
      apply list_elem_of_fmap in Hk as (k' & [= ->] & Hk'). done.
  - intros i k Hik. symmetry. apply group_size_filter.
    apply list_elem_of_fmap. exists k. split; [done|]. by eapply list_elem_of_lookup_2.
Qed.

Lemma length_filter_fmap {A B} (f : A → B) (P : B → Prop) `{∀ x, Decision (P x)} l :
  length (filter P (f <$> l)) = length (filter (λ x, P (f x)) l).
Proof.
  induction l as [|x l IH]; [done|]. cbn [fmap list_fmap]. rewrite !filter_cons.
  destruct (decide (P (f x))); simpl; by rewrite IH.
Qed.

Lemma week_day z (j : nat) : (qz z - qz 6 + qn j)%Qc = qz (z - 6 + Z.of_nat j).
Proof. unfold qz, qn. by rewrite Z2Qc_inj_add, Z2Qc_inj_sub. Qed.

Lemma week_nodup d : NoDup (week d).
Proof.
  unfold week. apply NoDup_fmap_2_strong; [|apply NoDup_seq].
  intros i j _ _ Heq. apply (inj (Qcplus (d - qz 6))) in Heq.
  unfold qn in Heq. apply Z2Qc_inj in Heq. lia.
Qed.

Lemma elem_of_week z z' : qz z' ∈ week (qz z) ↔ (z - 6 ≤ z' ≤ z)%Z.
Proof.
  unfold week. rewrite list_elem_of_fmap. split.
  - intros (j & Heq & Hj). apply elem_of_seq in Hj. rewrite week_day in Heq.
    apply Z2Qc_inj in Heq. lia.
  - intros Hz. exists (Z.to_nat (z' - (z - 6))). split.
    + rewrite week_day. f_equal. lia.
    + apply elem_of_seq. lia.
Qed.

Lemma in_week_date z (t : pd.cell) :
  in_week (qz z) t ↔ (date <$> t) ∈ Some <$> week (qz z).
Proof.
  destruct t as [x|]; unfold in_week.
  - change (date <$> Some x) with (Some (date x)).
    unfold date. rewrite list_elem_of_fmap. split.
    + intros [Hlo Hhi]. exists (qz (Qfloor x)). split; [done|]. apply elem_of_week.
      unfold qz in Hlo, Hhi. rewrite <-Z2Qc_inj_sub in Hlo.
      apply Z2Qc_inj_le in Hlo, Hhi. lia.
    + intros (y & [= <-] & Hy). apply elem_of_week in Hy.
      unfold qz. rewrite <-Z2Qc_inj_sub. split; apply (proj1 (Z2Qc_inj_le _ _)); lia.
  - split; [done|]. rewrite list_elem_of_fmap. by intros (y & ? & _).
Qed.

Lemma daily_counts_trips pickups :
  (daily_counts pickups).*2 =
    (λ d, pd.group_size d (dates pickups)) <$> (daily_counts pickups).*1.
Proof. unfold daily_counts. cbv zeta. by rewrite <-!list_fmap_compose. Qed.

Lemma daily_date_integral pickups d :
  d ∈ (daily_counts pickups).*1 → ∃ z, d = qz z.
Proof.
  rewrite daily_counts_dates, elem_of_group_index. unfold dates.
  intros ([t|] & Heq & _)%list_elem_of_fmap; [|done]. injection Heq as ->. by eexists.
Qed.

(** X21. The window of the moving average is seven rows, not seven days.
    When the seven rows that end at day [d] are the seven consecutive days
    [d - 6 .. d], the moving average of day [d] is the number of pickups in
    that calendar week divided by 7. *)
Theorem moving_avg_calendar_week pickups k d n :
  let daily := daily_counts pickups in
  daily !! (6 + k)%nat = Some (d, n) →
  (take 7 (drop k daily)).*1 = week d →
  daily_moving_avg pickups !! k =
    Some (d, n, Some (qn (length (filter (in_week d) pickups)) / qn 7)%Qc).
Proof.
  cbv zeta. intros Hk Hweek. rewrite (daily_moving_avg_row _ _ _ _ Hk). do 4 f_equal.
  destruct (daily_date_integral pickups d) as [z ->].
  { apply list_elem_of_fmap. exists (d, n). split; [done|]. by eapply list_elem_of_lookup_2. }
  rewrite fmap_take, fmap_drop in Hweek.
  rewrite fmap_take, fmap_drop, daily_counts_trips, <-fmap_drop, <-fmap_take, Hweek.
  rewrite (count_partition_of _ _ (week_nodup _)).
  unfold dates. rewrite length_filter_fmap.
  rewrite (list_filter_iff (λ t : pd.cell, date <$> t ∈ Some <$> week (qz z))
             (in_week (qz z))); [done|].
  intros t. symmetry. apply in_week_date.
Qed.

Lemma moving_avg_calendar_week_witness :
  daily_moving_avg example_pickups !! 0%nat =
    Some (qz 6, 2%nat, Some (qn (length (filter (in_week (qz 6)) example_pickups)) / qn 7)%Qc).
Proof.
  apply (moving_avg_calendar_week example_pickups 0 (qz 6) 2).
  - apply (bool_decide_unpack _). vm_compute. exact I.
  - apply (bool_decide_unpack _). vm_compute. exact I.
Defined.

End moving_avg_facts.
